(** * Series-7 DDR2/DDR3 PHY (litedram/phy/s7ddrphy.py)

    A shallow embedding of the construction-time arithmetic of the PHY
    (timing table lookup, latency planning, [PhySettings]) and of the
    per-cycle control registers the PHY elaborates (read-valid delay line,
    write-enable history, strobe pre/postamble, bitslip rotation and input
    delay gating), together with the properties the specification states
    about them.

    Python [float]s are IEEE-754 binary64 values; they are modelled with the
    Standard Library's executable specification [SpecFloat] at precision 53
    and [emax = 1024].  Python [int]s are [Z]. *)

From Stdlib Require Import ZArith List Bool String Lia SpecFloat.
Import ListNotations.
Open Scope Z_scope.

(** ** Python exceptions and fallible computations *)

Inductive exn : Type :=
| ValueError
| AssertionError
| ZeroDivisionError
| OverflowError
| KeyError
| UnboundLocalError.

Inductive result (A : Type) : Type :=
| Ok (a : A)
| Raise (e : exn).
Arguments Ok {A} a.
Arguments Raise {A} e.

Definition bind {A B : Type} (r : result A) (k : A -> result B) : result B :=
  match r with
  | Ok a => k a
  | Raise e => Raise e
  end.

Notation "x <- c ;; k" := (bind c (fun x => k))
  (at level 61, c at next level, right associativity).
Notation "' p <- c ;; k" := (bind c (fun x => let p := x in k))
  (at level 61, p pattern, c at next level, right associativity).

Definition raises {A : Type} (r : result A) : Prop := exists e, r = Raise e.

(** ** Python floats *)

Module PyFloat.

Definition float : Type := spec_float.

Definition prec : Z := 53.
Definition emax : Z := 1024.

(** A float literal with an integral value, such as [400e6]. *)
Definition of_Z (n : Z) : float := binary_normalize prec emax n 0 false.

(** A decimal literal [n * 10^-k]: the binary64 number nearest to it.
      [n] and [10^k] are exact here, so the rounded quotient is that number. *)
Definition decimal (n : Z) (k : Z) : float :=
  SFdiv prec emax (of_Z n) (of_Z (10 ^ k)).

Definition is_zero (x : float) : bool :=
  match x with S754_zero _ => true | _ => false end.

(** [x >= y], [x == y] on floats (false as soon as one side is a NaN). *)
Definition ge (x y : float) : bool := SFleb y x.
Definition eq (x y : float) : bool := SFeqb x y.
Definition lt (x y : float) : bool := SFltb x y.

Definition mul (x y : float) : float := SFmul prec emax x y.

(** [x / y] on floats: a zero divisor raises, every other case is the
    IEEE quotient. *)
Definition div (x y : float) : result float :=
  if is_zero y then Raise ZeroDivisionError else Ok (SFdiv prec emax x y).

(** Conversion of an [int] operand in mixed [int]/[float] arithmetic. *)
Definition of_int (n : Z) : result float :=
  match of_Z n with
  | S754_infinity _ => Raise OverflowError
  | x => Ok x
  end.

(** [a / b] on two [int]s: the correctly rounded quotient. *)
Definition int_true_div (a b : Z) : result float :=
  match a, b with
  | _, Z0 => Raise ZeroDivisionError
  | Z0, _ => Ok (S754_zero (b <? 0))
  | _, _ =>
      let s := xorb (a <? 0) (b <? 0) in
      match SFdiv prec emax (S754_finite s (Z.to_pos (Z.abs a)) 0)
                            (S754_finite false (Z.to_pos (Z.abs b)) 0) with
      | S754_infinity _ => Raise OverflowError
      | x => Ok x
      end
  end.

(** [math.ceil] and [math.floor]. *)
Definition ceil (x : float) : result Z :=
  match x with
  | S754_zero _ => Ok 0
  | S754_infinity _ => Raise OverflowError
  | S754_nan => Raise ValueError
  | S754_finite s m e =>
      let v := if s then Z.neg m else Z.pos m in
      Ok (if 0 <=? e then v * 2 ^ e else - ((- v) / 2 ^ (- e)))
  end.

Definition floor (x : float) : result Z :=
  match x with
  | S754_zero _ => Ok 0
  | S754_infinity _ => Raise OverflowError
  | S754_nan => Raise ValueError
  | S754_finite s m e =>
      let v := if s then Z.neg m else Z.pos m in
      Ok (if 0 <=? e then v * 2 ^ e else v / 2 ^ (- e))
  end.

End PyFloat.

(** ** Insertion-ordered dictionaries ([collections.OrderedDict], [dict]) *)

Section OrderedDict.
Context {V : Type}.

Definition odict : Type := list (PyFloat.float * V).

(** [d[k] = v]: overwrite in place when the key is present, append
    otherwise. *)
Fixpoint od_set (d : odict) (k : PyFloat.float) (v : V) : odict :=
  match d with
  | [] => [(k, v)]
  | (k', v') :: d' =>
      if PyFloat.eq k' k then (k', v) :: d' else (k', v') :: od_set d' k v
  end.

(** [d[k]] *)
Fixpoint od_get (d : odict) (k : PyFloat.float) : result V :=
  match d with
  | [] => Raise KeyError
  | (k', v) :: d' => if PyFloat.eq k' k then Ok v else od_get d' k
  end.
End OrderedDict.
Arguments odict V : clear implicits.

(** ** Timing resolver and latency planner *)

(** [f_to_cl_cwl] as [get_cl_cw] fills it for a memory type. *)
Definition f_to_cl_cwl (memtype : string) : result (odict (Z * Z)) :=
  let d : odict (Z * Z) := [] in
  if String.eqb memtype "DDR2" then
    let d := od_set d (PyFloat.of_Z 400000000) (3, 2) in
    let d := od_set d (PyFloat.of_Z 533000000) (4, 3) in
    let d := od_set d (PyFloat.of_Z 677000000) (5, 4) in
    let d := od_set d (PyFloat.of_Z 800000000) (6, 5) in
    let d := od_set d (PyFloat.of_Z 1066000000) (7, 5) in
    Ok d
  else if String.eqb memtype "DDR3" then
    let d := od_set d (PyFloat.of_Z 800000000) (6, 5) in
    let d := od_set d (PyFloat.of_Z 1066000000) (7, 6) in
    let d := od_set d (PyFloat.of_Z 1333000000) (10, 7) in
    let d := od_set d (PyFloat.of_Z 1600000000) (11, 8) in
    Ok d
  else Raise ValueError.

(** The threshold [2/f] of a table entry. *)
Definition two_over (f : PyFloat.float) : PyFloat.float :=
  SFdiv PyFloat.prec PyFloat.emax (PyFloat.of_Z 2) f.

(** The [for f, (cl, cwl) in f_to_cl_cwl.items()] loop. *)
Fixpoint scan_items (items : odict (Z * Z)) (tck : PyFloat.float)
  : result (Z * Z) :=
  match items with
  | [] => Raise ValueError
  | (f, (cl, cwl)) :: rest =>
      if PyFloat.ge tck (two_over f) then Ok (cl, cwl) else scan_items rest tck
  end.

Definition get_cl_cw (memtype : string) (tck : PyFloat.float) : result (Z * Z) :=
  d <- f_to_cl_cwl memtype ;;
  scan_items d tck.

Definition get_sys_latency (nphases cas_latency : Z) : result Z :=
  q <- PyFloat.int_true_div cas_latency nphases ;;
  PyFloat.ceil q.

(** Python's [%] rounds towards minus infinity, as [Z.modulo] does. *)
Definition py_mod (a b : Z) : result Z :=
  if b =? 0 then Raise ZeroDivisionError else Ok (a mod b).

Definition get_sys_phases (nphases sys_latency cas_latency : Z)
  : result (Z * Z) :=
  let dat_phase := sys_latency * nphases - cas_latency in
  cmd_phase <- py_mod (dat_phase - 1) nphases ;;
  Ok (cmd_phase, dat_phase).

(** ** Construction: [S7DDRPHY.__init__] up to [self.settings] *)

(** What [__init__] reads from [pads]: [len(pads.a)], [len(pads.ba)],
    [len(pads.dq)] and, when the attribute exists, [len(pads.cs_n)]. *)
Record Pads : Type := {
  pads_a : Z;
  pads_ba : Z;
  pads_dq : Z;
  pads_cs_n : option Z
}.

(** Modelled from the spec: [litedram.common.PhySettings] is not part of
    the sources; it holds the keyword arguments it is built from. *)
Record PhySettings : Type := {
  memtype : string;
  dfi_databits : Z;
  nranks : Z;
  nphases : Z;
  rdphase : Z;
  wrphase : Z;
  rdcmdphase : Z;
  wrcmdphase : Z;
  cl : Z;
  cwl : Z;
  read_latency : Z;
  write_latency : Z
}.

(** The instance, reduced to the construction-time constants that the
    elaborated logic depends on. *)
Record S7DDRPHY : Type := {
  settings : PhySettings;
  with_odelay : bool;
  databits : Z;
  half_sys8x_taps : Z;
  cwl_sys_latency : Z;
  dqs_sys_latency : Z
}.

Definition iodelay_tap_average : odict PyFloat.float :=
  let d : odict PyFloat.float := [] in
  let d := od_set d (PyFloat.of_Z 200000000) (PyFloat.decimal 78 12) in
  let d := od_set d (PyFloat.of_Z 300000000) (PyFloat.decimal 52 12) in
  let d := od_set d (PyFloat.of_Z 400000000) (PyFloat.decimal 39 12) in
  d.

(** [tck = 2/(2*nphases*sys_clk_freq)] *)
Definition clock_period (nphases : Z) (sys_clk_freq : PyFloat.float)
  : result PyFloat.float :=
  n <- PyFloat.of_int (2 * nphases) ;;
  PyFloat.div (PyFloat.of_Z 2) (PyFloat.mul n sys_clk_freq).

(** [math.floor(tck/(4*tap))] *)
Definition half_taps (tck tap : PyFloat.float) : result Z :=
  q <- PyFloat.div tck (PyFloat.mul (PyFloat.of_Z 4) tap) ;;
  PyFloat.floor q.

(** The family-dependent strobe latency chosen at the end of [__init__];
    a family that is neither leaves the local unbound. *)
Definition choose_dqs_sys_latency (memtype : string) (with_odelay : bool)
    (cwl_sys_latency : Z) : result Z :=
  if String.eqb memtype "DDR2" then Ok (cwl_sys_latency - 1)
  else if String.eqb memtype "DDR3" then
    Ok (if with_odelay then cwl_sys_latency - 1 else cwl_sys_latency)
  else Raise UnboundLocalError.

Definition S7DDRPHY_init (pads : Pads) (with_odelay : bool) (memtype : string)
    (nphases : Z) (sys_clk_freq iodelay_clk_freq : PyFloat.float)
  : result S7DDRPHY :=
  if String.eqb memtype "DDR3" && (nphases =? 2) then Raise AssertionError else
  tck <- clock_period nphases sys_clk_freq ;;
  let nranks := match pads_cs_n pads with None => 1 | Some n => n end in
  let databits := pads_dq pads in
  tap <- od_get iodelay_tap_average iodelay_clk_freq ;;
  half_sys8x_taps <- half_taps tck tap ;;
  '(cl, cwl) <- get_cl_cw memtype tck ;;
  cl_sys_latency <- get_sys_latency nphases cl ;;
  cwl_sys_latency <- get_sys_latency nphases cwl ;;
  '(rdcmdphase, rdphase) <- get_sys_phases nphases cl_sys_latency cl ;;
  '(wrcmdphase, wrphase) <- get_sys_phases nphases cwl_sys_latency cwl ;;
  let settings := {|
    memtype := memtype;
    dfi_databits := 2 * databits;
    nranks := nranks;
    nphases := nphases;
    rdphase := rdphase;
    wrphase := wrphase;
    rdcmdphase := rdcmdphase;
    wrcmdphase := wrcmdphase;
    cl := cl;
    cwl := cwl;
    read_latency := 2 + cl_sys_latency + 2 + 3 - 1;
    write_latency := cwl_sys_latency
  |} in
  dqs_sys_latency <- choose_dqs_sys_latency memtype with_odelay cwl_sys_latency ;;
  Ok {|
    settings := settings;
    with_odelay := with_odelay;
    databits := databits;
    half_sys8x_taps := half_sys8x_taps;
    cwl_sys_latency := cwl_sys_latency;
    dqs_sys_latency := dqs_sys_latency
  |}.

Definition K7DDRPHY_init (pads : Pads) := S7DDRPHY_init pads true.
Definition A7DDRPHY_init (pads : Pads) := S7DDRPHY_init pads false.

(** ** Per-cycle behaviour of the elaborated logic *)

(** The migen constructs the PHY is written with. *)
Module Migen.

(** [sig[key]] on a signal of [n] bits holding [v]: a negative key counts
    from the most significant end. *)
Definition bit (n v key : Z) : bool :=
  Z.testbit v (if key <? 0 then key + n else key).

(** [Cat(b, sig[:-1])] on a signal of [n] bits holding [v]. *)
Definition cat_shift (n : Z) (b : bool) (v : Z) : Z :=
  Z.lor (Z.b2z b) (Z.shiftl (Z.land v (Z.ones (n - 1))) 1).

(** [lst[i]] on a Python list. *)
Definition item {A : Type} (l : list A) (i : Z) (d : A) : A :=
  nth (Z.to_nat (if i <? 0 then i + Z.of_nat (List.length l) else i)) l d.

End Migen.

(** Modelled from the spec: [litedram.phy.dfi.Interface] is not part of the
    sources.  A phase carries, among its fields, a read-data-enable and a
    write-data-enable flag driven by the controller; these are the two the
    flow control reads. *)
Record DfiPhase : Type := {
  rddata_en : bool;
  wrdata_en : bool
}.

(** The calibration registers as the logic sees them in one cycle:
    [storage] of the [CSRStorage]s and the write strobes [re] of the
    [CSR]s. *)
Record Csr : Type := {
  wlevel_en : bool;
  wlevel_strobe : bool;
  dly_sel : Z;
  rdly_dq_rst : bool;
  rdly_dq_inc : bool;
  rdly_dq_bitslip_rst : bool;
  rdly_dq_bitslip : bool
}.

Record Inputs : Type := {
  dfi_phases : list DfiPhase;
  csr : Csr
}.

(** [Interface(addressbits, bankbits, nranks, 2*databits, 4)]: the DFI bus
    of the PHY always has four phases. *)
Definition dfi_nphases : nat := 4.

Definition idle_phase : DfiPhase := {| rddata_en := false; wrdata_en := false |}.

Record State : Type := {
  n_rddata_en : list bool;      (* the [n_rddata_en] chain, first stage first *)
  rddata_valid : list bool;     (* [phase.rddata_valid], one per DFI phase *)
  last_wrdata_en : Z;
  oe_dqs : bool;
  oe_dq : bool;
  dq_bitslip_value : list Z;    (* [dq_bitslip.value], one per data pin *)
  dq_idelay_tap : list Z        (* tap of the [IDELAYE2], one per data pin *)
}.

(** Modelled from the spec: [migen.genlib.misc.BitSlip] is not part of the
    sources; its [value] register holds the rotation amount, an integer
    modulo the window width, which is the argument of [BitSlip(8)]. *)
Definition bitslip_width : Z := 8.

(** The [self.sync] statement guarding [dq_bitslip.value] of a pin whose
    lane-select bit is [sel]. *)
Definition bitslip_next (sel rst inc : bool) (value : Z) : Z :=
  if sel then
    if rst then 0
    else if inc then (value + 1) mod bitslip_width
    else value
  else value.

(** The byte lane [i//8] of data pin [i], and [self._dly_sel.storage[i//8]]. *)
Definition lane_of (pin : nat) : Z := Z.of_nat pin / 8.

Definition lane_sel (c : Csr) (pin : nat) : bool :=
  Z.testbit (dly_sel c) (lane_of pin).

(** What [self.sync] and [self.comb] do to a list of per-pin registers. *)
Definition per_pin (f : nat -> Z -> Z) (l : list Z) : list Z :=
  map (fun i => f i (nth i l 0)) (seq 0 (List.length l)).

Section Elaborated.
(** The tap counter inside the vendor primitive [IDELAYE2], as a function
    of its [LD], [CE] and [INC] pins and of the current tap. *)
Variable idelaye2 : bool -> bool -> bool -> Z -> Z.

Variable phy : S7DDRPHY.

Let wl : Z := cwl_sys_latency phy.
Let dqs : Z := dqs_sys_latency phy.

(** [i_LD] and [i_CE] of the [IDELAYE2] of a data pin; [i_INC] is tied
    to 1. *)
Definition idelay_next (c : Csr) (pin : nat) (tap : Z) : Z :=
  idelaye2 (lane_sel c pin && rdly_dq_rst c)
           (lane_sel c pin && rdly_dq_inc c) true tap.

(** Combinational signals. *)
Definition oe (st : State) : bool :=
  let lw := last_wrdata_en st in
  Migen.bit (wl + 2) lw (wl - 1)
  || Migen.bit (wl + 2) lw wl
  || Migen.bit (wl + 2) lw (wl + 1).

Definition dqs_preamble (st : State) : bool :=
  let lw := last_wrdata_en st in
  Migen.bit (wl + 2) lw (dqs - 1) && negb (Migen.bit (wl + 2) lw dqs).

Definition dqs_postamble (st : State) : bool :=
  let lw := last_wrdata_en st in
  Migen.bit (wl + 2) lw (dqs + 1) && negb (Migen.bit (wl + 2) lw dqs).

Definition dqs_serdes_pattern (st : State) (c : Csr) : Z :=
  if with_odelay phy && wlevel_en c then
    if wlevel_strobe c then 1 else 0
  else if dqs_preamble st || dqs_postamble st then 0
  else 85.

Definition rdphase_en (ins : Inputs) : bool :=
  rddata_en (Migen.item (dfi_phases ins) (rdphase (settings phy)) idle_phase).

Definition wrphase_en (ins : Inputs) : bool :=
  wrdata_en (Migen.item (dfi_phases ins) (wrphase (settings phy)) idle_phase).

(** Power-on values of the registers. *)
Definition reset : State := {|
  n_rddata_en := repeat false (Z.to_nat (read_latency (settings phy) - 1));
  rddata_valid := repeat false dfi_nphases;
  last_wrdata_en := 0;
  oe_dqs := false;
  oe_dq := false;
  dq_bitslip_value := repeat 0 (Z.to_nat (databits phy));
  dq_idelay_tap := repeat 0 (Z.to_nat (databits phy))
|}.

(** One rising edge of the system clock: every [self.sync] assignment,
    evaluated on the values before the edge. *)
Definition step (st : State) (ins : Inputs) : State :=
  let c := csr ins in
  let chain := rdphase_en ins :: n_rddata_en st in
  let rd := last chain false in
  let wlevel := with_odelay phy && wlevel_en c in {|
    n_rddata_en := removelast chain;
    rddata_valid := repeat (if with_odelay phy then rd || wlevel_en c else rd)
                           dfi_nphases;
    last_wrdata_en :=
      Migen.cat_shift (wl + 2) (wrphase_en ins) (last_wrdata_en st);
    oe_dqs := if wlevel then true else oe st;
    oe_dq := if wlevel then false else oe st;
    dq_bitslip_value :=
      per_pin (fun pin => bitslip_next (lane_sel c pin)
                            (rdly_dq_bitslip_rst c) (rdly_dq_bitslip c))
              (dq_bitslip_value st);
    dq_idelay_tap := per_pin (idelay_next c) (dq_idelay_tap st)
  |}.

(** The registers during cycle [t], when [ins u] are the inputs held
    during cycle [u]: power-on values in cycle 0, and every clock edge ends
    a cycle. *)
Fixpoint run (ins : nat -> Inputs) (t : nat) : State :=
  match t with
  | O => reset
  | S t' => step (run ins t') (ins t')
  end.

End Elaborated.

(** The tap counter of an [IDELAYE2] in [VARIABLE] mode with
    [IDELAY_VALUE = 0]: 32 taps, [LD] reloads, [CE] steps up or down. *)
Definition idelaye2_variable (ld ce inc : bool) (tap : Z) : Z :=
  if ld then 0
  else if ce then (if inc then (tap + 1) mod 32 else (tap - 1) mod 32)
  else tap.

Definition pads16 : Pads :=
  {| pads_a := 14; pads_ba := 3; pads_dq := 16; pads_cs_n := None |}.

Definition quiet : Csr := {|
  wlevel_en := false; wlevel_strobe := false; dly_sel := 0;
  rdly_dq_rst := false; rdly_dq_inc := false;
  rdly_dq_bitslip_rst := false; rdly_dq_bitslip := false
|}.

(** A DFI bus that is idle but for one flag on one phase. *)
Definition dfi_with (phase : Z) (p : DfiPhase) : list DfiPhase :=
  map (fun i => if Z.of_nat i =? phase then p else idle_phase)
      (seq 0 dfi_nphases).

(** A single read-enable (resp. write-enable) pulse on phase [phase] in
    cycle [T]. *)
Definition rd_pulse (phase : Z) (T : nat) (t : nat) : Inputs := {|
  dfi_phases :=
    dfi_with phase {| rddata_en := Nat.eqb t T; wrdata_en := false |};
  csr := quiet
|}.

Definition wr_pulse (phase : Z) (T : nat) (t : nat) : Inputs := {|
  dfi_phases :=
    dfi_with phase {| rddata_en := false; wrdata_en := Nat.eqb t T |};
  csr := quiet
|}.

Definition a7_ddr3 : S7DDRPHY := {|
  settings := {|
    memtype := "DDR3"; dfi_databits := 32; nranks := 1; nphases := 4;
    rdphase := 2; wrphase := 3; rdcmdphase := 1; wrcmdphase := 2;
    cl := 6; cwl := 5; read_latency := 8; write_latency := 2 |};
  with_odelay := false; databits := 16; half_sys8x_taps := 8;
  cwl_sys_latency := 2; dqs_sys_latency := 2
|}.


Definition k7_ddr3 : S7DDRPHY := {|
  settings := {|
    memtype := "DDR3"; dfi_databits := 32; nranks := 1; nphases := 4;
    rdphase := 2; wrphase := 3; rdcmdphase := 1; wrcmdphase := 2;
    cl := 6; cwl := 5; read_latency := 8; write_latency := 2 |};
  with_odelay := true; databits := 16; half_sys8x_taps := 8;
  cwl_sys_latency := 2; dqs_sys_latency := 1
|}.

(** Write-enable flags on phase [phase] during cycles [T .. T + len - 1]. *)
Definition wr_burst (phase : Z) (T len : nat) (t : nat) : Inputs := {|
  dfi_phases :=
    dfi_with phase {| rddata_en := false;
                      wrdata_en := (T <=? t)%nat && (t <? T + len)%nat |};
  csr := quiet
|}.

(** Frequencies in MHz as the float literals [100e6], [200e6], ... *)
Definition mhz (n : Z) : PyFloat.float := PyFloat.of_Z (n * 1000000).

(** * Vocabulary of the properties *)

(** ** Timing resolver *)

Definition qualifies (tck f : PyFloat.float) : bool :=
  PyFloat.ge tck (two_over f).

(** Entry [i] of [items] is the first one that [tck] qualifies for. *)
Definition first_match (items : odict (Z * Z)) (tck : PyFloat.float)
    (i : nat) (f : PyFloat.float) (v : Z * Z) : Prop :=
  nth_error items i = Some (f, v)
  /\ qualifies tck f = true
  /\ forall j g w, (j < i)%nat -> nth_error items j = Some (g, w) ->
       qualifies tck g = false.

Definition ascending (items : odict (Z * Z)) : Prop :=
  forall i j f g v w, (i < j)%nat ->
    nth_error items i = Some (f, v) -> nth_error items j = Some (g, w) ->
    PyFloat.lt f g = true.

(** Decidable "ascending": every key is below all later ones. *)
Fixpoint ascendingb (items : odict (Z * Z)) : bool :=
  match items with
  | [] => true
  | (f, _) :: rest =>
      forallb (fun x => PyFloat.lt f (fst x)) rest && ascendingb rest
  end.

Definition ddr2_table : odict (Z * Z) :=
  [ (PyFloat.of_Z 400000000, (3, 2));
    (PyFloat.of_Z 533000000, (4, 3));
    (PyFloat.of_Z 677000000, (5, 4));
    (PyFloat.of_Z 800000000, (6, 5));
    (PyFloat.of_Z 1066000000, (7, 5)) ].

Definition ddr3_table : odict (Z * Z) :=
  [ (PyFloat.of_Z 800000000, (6, 5));
    (PyFloat.of_Z 1066000000, (7, 6));
    (PyFloat.of_Z 1333000000, (10, 7));
    (PyFloat.of_Z 1600000000, (11, 8)) ].

(** Every [(cl, cwl)] of the two tables. *)
Definition cl_cwl_bins : list (Z * Z) :=
  [(3, 2); (4, 3); (5, 4); (6, 5); (7, 5); (7, 6); (10, 7); (11, 8)].

(** ** Construction *)

(** The phase counts the PHY is written for (1:2 and 1:4). *)
Definition supported (N : Z) : Prop := N = 2 \/ N = 4.

(** The planner on one latency: system latency, command and data phase. *)
Definition plan (N L : Z) : result (Z * Z * Z) :=
  s <- get_sys_latency N L ;;
  '(c, d) <- get_sys_phases N s L ;;
  Ok (s, c, d).

Definition plan_ok (N L : Z) : bool :=
  match plan N L with
  | Ok (s, c, d) => (1 <=? s) && (0 <=? c) && (c <? N) && (0 <=? d) && (d <? N)
  | Raise _ => false
  end.

Definition no_entry_qualifies (m : string) (tck : PyFloat.float) : Prop :=
  exists table, f_to_cl_cwl m = Ok table
                /\ Forall (fun x => qualifies tck (fst x) = false) table.

(** The three failure cases the specification lists: unknown family, no
    table entry for the clock period, DDR3 with two phases. *)
Definition listed_failure (m : string) (N : Z) (sys : PyFloat.float) : Prop :=
  (m <> "DDR2"%string /\ m <> "DDR3"%string)
  \/ (exists tck, clock_period N sys = Ok tck /\ no_entry_qualifies m tck)
  \/ (m = "DDR3"%string /\ N = 2).

(** The failures of [2/(2*nphases*sys_clk_freq)], of
    [iodelay_tap_average[iodelay_clk_freq]] and of [math.floor]. *)
Definition further_failure (N : Z) (sys iod : PyFloat.float) : Prop :=
  clock_period N sys = Raise ZeroDivisionError
  \/ od_get iodelay_tap_average iod = Raise KeyError
  \/ (exists tck tap, clock_period N sys = Ok tck
                      /\ od_get iodelay_tap_average iod = Ok tap
                      /\ raises (half_taps tck tap)).

(** ** Flow control *)

(** A flag [f] seen [d] cycles late; nothing before cycle [d]. *)
Definition delayed (f : nat -> bool) (d t : nat) : bool :=
  if (d <=? t)%nat then f (t - d)%nat else false.

(** Write leveling is never active. *)
Definition wlevel_off (phy : S7DDRPHY) (ins : nat -> Inputs) : Prop :=
  forall t, with_odelay phy && wlevel_en (csr (ins t)) = false.

(** The strobe flags as the specification words them: the history bit one
    position outside the output-enable window [wl-1 .. wl+1], with the
    centre bit [wl] clear. *)
Definition worded_preamble (phy : S7DDRPHY) (st : State) : bool :=
  let wl := write_latency (settings phy) in
  Z.testbit (last_wrdata_en st) (wl - 2)
  && negb (Z.testbit (last_wrdata_en st) wl).

Definition worded_postamble (phy : S7DDRPHY) (st : State) : bool :=
  let wl := write_latency (settings phy) in
  Z.testbit (last_wrdata_en st) (wl + 2)
  && negb (Z.testbit (last_wrdata_en st) wl).

(** ** Calibration *)

(** Several consecutive clock edges. *)
Definition steps (idelaye2 : bool -> bool -> bool -> Z -> Z) (phy : S7DDRPHY)
    (st : State) (l : list Inputs) : State :=
  fold_left (step idelaye2 phy) l st.

Definition bitslip_of (st : State) (pin : nat) : Z :=
  nth pin (dq_bitslip_value st) 0.

Definition tap_of (st : State) (pin : nat) : Z :=
  nth pin (dq_idelay_tap st) 0.

Definition is_pin (st : State) (pin : nat) : Prop :=
  (pin < List.length (dq_bitslip_value st))%nat
  /\ (pin < List.length (dq_idelay_tap st))%nat.

(** Whether the lane-select mask of a cycle selects the lane of a pin. *)
Definition selected (ins : Inputs) (pin : nat) : bool :=
  lane_sel (csr ins) pin.

Definition bitslip_inc_pulse (ins : Inputs) (pin : nat) : Prop :=
  selected ins pin = true
  /\ rdly_dq_bitslip_rst (csr ins) = false
  /\ rdly_dq_bitslip (csr ins) = true.

Definition bitslip_reset_pulse (ins : Inputs) (pin : nat) : Prop :=
  selected ins pin = true /\ rdly_dq_bitslip_rst (csr ins) = true.

(** The same as decidable tests, and the number of increment pulses a pin
    sees in a run of cycles. *)
Definition bitslip_incb (ins : Inputs) (pin : nat) : bool :=
  selected ins pin
  && negb (rdly_dq_bitslip_rst (csr ins))
  && rdly_dq_bitslip (csr ins).

Definition bitslip_resetb (ins : Inputs) (pin : nat) : bool :=
  selected ins pin && rdly_dq_bitslip_rst (csr ins).

Definition inc_count (l : list Inputs) (pin : nat) : nat :=
  List.length (filter (fun ins => bitslip_incb ins pin) l).

(** The same inputs with the bitslip increment strobe withdrawn. *)
Definition without_bitslip_inc (ins : Inputs) : Inputs := {|
  dfi_phases := dfi_phases ins;
  csr := {|
    wlevel_en := wlevel_en (csr ins);
    wlevel_strobe := wlevel_strobe (csr ins);
    dly_sel := dly_sel (csr ins);
    rdly_dq_rst := rdly_dq_rst (csr ins);
    rdly_dq_inc := rdly_dq_inc (csr ins);
    rdly_dq_bitslip_rst := rdly_dq_bitslip_rst (csr ins);
    rdly_dq_bitslip := false |}
|}.

(** One cycle of calibration strobes on lane mask [sel], DFI idle. *)
Definition cal (sel : Z) (tap_rst tap_inc slip_rst slip_inc : bool) : Inputs := {|
  dfi_phases := repeat idle_phase dfi_nphases;
  csr := {|
    wlevel_en := false; wlevel_strobe := false; dly_sel := sel;
    rdly_dq_rst := tap_rst; rdly_dq_inc := tap_inc;
    rdly_dq_bitslip_rst := slip_rst; rdly_dq_bitslip := slip_inc |}
|}.

(** * Further vocabulary: the rest of the PHY and the module timings *)

(** ** Timing resolver and latency planner *)

(** Decidable: no later entry of a table has a smaller [cl] or [cwl]. *)
Fixpoint bins_nondecreasingb (items : odict (Z * Z)) : bool :=
  match items with
  | [] => true
  | (_, (c, w)) :: rest =>
      forallb (fun x => (c <=? fst (snd x)) && (w <=? snd (snd x))) rest
      && bins_nondecreasingb rest
  end.

(** Decidable: the threshold [2/f] of [f] is at most that of every entry. *)
Definition threshold_lowest (f : PyFloat.float) (items : odict (Z * Z)) : bool :=
  forallb (fun x => SFleb (two_over f) (two_over (fst x))) items.

(** The frequency of the last, fastest entry of each table. *)
Definition fastest (m : string) : PyFloat.float :=
  if String.eqb m "DDR2" then PyFloat.of_Z 1066000000
  else PyFloat.of_Z 1600000000.

(** ** Flow control *)

(** A write burst: the flag is set during cycles [T .. T + len - 1]. *)
Definition in_burst (T len u : nat) : bool :=
  (T <=? u)%nat && (u <? T + len)%nat.

(** The same inputs with other write-leveling registers, another DFI bus,
    or the calibration registers of [c]. *)
Definition with_wlevel (en strobe : bool) (ins : Inputs) : Inputs := {|
  dfi_phases := dfi_phases ins;
  csr := {|
    wlevel_en := en;
    wlevel_strobe := strobe;
    dly_sel := dly_sel (csr ins);
    rdly_dq_rst := rdly_dq_rst (csr ins);
    rdly_dq_inc := rdly_dq_inc (csr ins);
    rdly_dq_bitslip_rst := rdly_dq_bitslip_rst (csr ins);
    rdly_dq_bitslip := rdly_dq_bitslip (csr ins) |}
|}.

Definition with_dfi (phases : list DfiPhase) (ins : Inputs) : Inputs :=
  {| dfi_phases := phases; csr := csr ins |}.

Definition with_calibration (c : Csr) (ins : Inputs) : Inputs := {|
  dfi_phases := dfi_phases ins;
  csr := {|
    wlevel_en := wlevel_en (csr ins);
    wlevel_strobe := wlevel_strobe (csr ins);
    dly_sel := dly_sel c;
    rdly_dq_rst := rdly_dq_rst c;
    rdly_dq_inc := rdly_dq_inc c;
    rdly_dq_bitslip_rst := rdly_dq_bitslip_rst c;
    rdly_dq_bitslip := rdly_dq_bitslip c |}
|}.

(** The registers of the flow control, and those of the calibration. *)
Definition flow_regs (st : State) : list bool * list bool * Z * bool * bool :=
  (n_rddata_en st, rddata_valid st, last_wrdata_en st, oe_dqs st, oe_dq st).

Definition cal_regs (st : State) : list Z * list Z :=
  (dq_bitslip_value st, dq_idelay_tap st).


(** ** Data path wiring *)

(** The inputs [D1 .. D8] of the [OSERDESE2] of data pin [i], in that
    order: for each of the four DFI phases, bit [i] and bit [databits+i] of
    its write data, a signal of [2*databits] bits. *)
Definition dq_oserdes_inputs (databits : Z) (wrdata : list Z) (i : Z)
  : list bool :=
  let w (p : nat) := nth p wrdata 0 in
  [ Migen.bit (2 * databits) (w 0%nat) i;
    Migen.bit (2 * databits) (w 0%nat) (databits + i);
    Migen.bit (2 * databits) (w 1%nat) i;
    Migen.bit (2 * databits) (w 1%nat) (databits + i);
    Migen.bit (2 * databits) (w 2%nat) i;
    Migen.bit (2 * databits) (w 2%nat) (databits + i);
    Migen.bit (2 * databits) (w 3%nat) i;
    Migen.bit (2 * databits) (w 3%nat) (databits + i) ].

(** The word whose bit [k] is the [k]-th element of the list. *)
Fixpoint word_of_bits (l : list bool) : Z :=
  match l with
  | [] => 0
  | b :: rest => Z.b2z b + 2 * word_of_bits rest
  end.

(** The combinatorial assignments [phases[p].rddata[idx].eq(o[k])] made for
    data pin [i], whose [BitSlip] output is [o]: phase, bit index, value. *)
Definition rddata_assign (nphases databits : Z) (i : Z) (o : Z)
  : list (nat * Z * bool) :=
  if nphases =? 2 then
    [ (0%nat, i, Migen.bit 8 o 7); (0%nat, databits + i, Migen.bit 8 o 5);
      (1%nat, i, Migen.bit 8 o 6); (1%nat, databits + i, Migen.bit 8 o 7) ]
  else
    [ (0%nat, i, Migen.bit 8 o 0); (0%nat, databits + i, Migen.bit 8 o 1);
      (1%nat, i, Migen.bit 8 o 2); (1%nat, databits + i, Migen.bit 8 o 3);
      (2%nat, i, Migen.bit 8 o 4); (2%nat, databits + i, Migen.bit 8 o 5);
      (3%nat, i, Migen.bit 8 o 6); (3%nat, databits + i, Migen.bit 8 o 7) ].

(** The value of a signal of phase [p] under a list of single-bit
    assignments; a bit nothing drives keeps its reset value 0. *)
Definition drive (assigns : list (nat * Z * bool)) (p : nat) : Z :=
  fold_left
    (fun acc a =>
       let '(q, idx, v) := a in
       if Nat.eqb q p then Z.lor acc (Z.shiftl (Z.b2z v) idx) else acc)
    assigns 0.

(** [phases[p].rddata] when the [BitSlip] of data pin [i] outputs [o i]:
    the assignments of [for i in range(databits)]. *)
Definition dfi_rddata (nphases databits : Z) (o : nat -> Z) (p : nat) : Z :=
  drive (flat_map (fun i => rddata_assign nphases databits (Z.of_nat i) (o i))
                  (seq 0 (Z.to_nat databits))) p.

(** Whether an assignment drives bit [j] of phase [p] high. *)
Definition drives_high (p : nat) (j : Z) (a : nat * Z * bool) : bool :=
  let '(q, idx, v) := a in Nat.eqb q p && (idx =? j) && v.

(** ** Output delay lines *)

(** The registers the write calibration reads in a cycle: the lane mask
    [self._dly_sel.storage] and the [re] strobes of [_wdly_dq_rst],
    [_wdly_dq_inc], [_wdly_dqs_rst] and [_wdly_dqs_inc]. *)
Record WdlyCsr : Type := {
  wdly_sel : Z;
  wdly_dq_rst : bool;
  wdly_dq_inc : bool;
  wdly_dqs_rst : bool;
  wdly_dqs_inc : bool
}.

(** The taps of the [ODELAYE2] instances: one for the data mask and one for
    the strobe of every byte lane, one for every data pin. *)
Record OdelayTaps : Type := {
  dm_odelay_tap : list Z;
  dqs_odelay_tap : list Z;
  dq_odelay_tap : list Z
}.

Section OutputDelay.
(** The tap counter inside the vendor primitive [ODELAYE2], as a function
    of its [ODELAY_VALUE] attribute, of its [LD], [CE] and [INC] pins and of
    the current tap. *)
Variable odelaye2 : Z -> bool -> bool -> bool -> Z -> Z.

Variable phy : S7DDRPHY.

(** The instances exist only [if with_odelay]; each tap starts from its
    [ODELAY_VALUE]: 0 for data mask and data, [half_sys8x_taps] for the
    strobe. *)
Definition odelay_reset : OdelayTaps :=
  if with_odelay phy then {|
    dm_odelay_tap := repeat 0 (Z.to_nat (databits phy / 8));
    dqs_odelay_tap := repeat (half_sys8x_taps phy) (Z.to_nat (databits phy / 8));
    dq_odelay_tap := repeat 0 (Z.to_nat (databits phy))
  |} else {|
    dm_odelay_tap := []; dqs_odelay_tap := []; dq_odelay_tap := []
  |}.

(** One rising edge of the system clock; [i_INC] is tied to 1.  Lane [i]
    is gated by [dly_sel[i]], data pin [i] by [dly_sel[i//8]]. *)
Definition odelay_step (st : OdelayTaps) (c : WdlyCsr) : OdelayTaps := {|
  dm_odelay_tap :=
    per_pin (fun i => odelaye2 0
                        (Z.testbit (wdly_sel c) (Z.of_nat i) && wdly_dq_rst c)
                        (Z.testbit (wdly_sel c) (Z.of_nat i) && wdly_dq_inc c)
                        true)
            (dm_odelay_tap st);
  dqs_odelay_tap :=
    per_pin (fun i => odelaye2 (half_sys8x_taps phy)
                        (Z.testbit (wdly_sel c) (Z.of_nat i) && wdly_dqs_rst c)
                        (Z.testbit (wdly_sel c) (Z.of_nat i) && wdly_dqs_inc c)
                        true)
            (dqs_odelay_tap st);
  dq_odelay_tap :=
    per_pin (fun i => odelaye2 0
                        (Z.testbit (wdly_sel c) (lane_of i) && wdly_dq_rst c)
                        (Z.testbit (wdly_sel c) (lane_of i) && wdly_dq_inc c)
                        true)
            (dq_odelay_tap st)
|}.

Fixpoint odelay_run (ins : nat -> WdlyCsr) (t : nat) : OdelayTaps :=
  match t with
  | O => odelay_reset
  | S t' => odelay_step (odelay_run ins t') (ins t')
  end.

End OutputDelay.

(** The tap counter of an [ODELAYE2] in [VARIABLE] mode: 32 taps, [LD]
    reloads [ODELAY_VALUE], [CE] steps up or down. *)
Definition odelaye2_variable (value : Z) (ld ce inc : bool) (tap : Z) : Z :=
  if ld then value
  else if ce then (if inc then (tap + 1) mod 32 else (tap - 1) mod 32)
  else tap.

(** One cycle of write-calibration strobes on lane mask [sel]. *)
Definition wcal (sel : Z) (dq_rst dq_inc dqs_rst dqs_inc : bool) : WdlyCsr := {|
  wdly_sel := sel;
  wdly_dq_rst := dq_rst; wdly_dq_inc := dq_inc;
  wdly_dqs_rst := dqs_rst; wdly_dqs_inc := dqs_inc
|}.

(** The same strobes for the data delay with those of [c] for the strobe
    delay, and the converse. *)
Definition with_dqs_strobes (c : WdlyCsr) (ins : WdlyCsr) : WdlyCsr := {|
  wdly_sel := wdly_sel ins;
  wdly_dq_rst := wdly_dq_rst ins; wdly_dq_inc := wdly_dq_inc ins;
  wdly_dqs_rst := wdly_dqs_rst c; wdly_dqs_inc := wdly_dqs_inc c
|}.

Definition with_dq_strobes (c : WdlyCsr) (ins : WdlyCsr) : WdlyCsr := {|
  wdly_sel := wdly_sel ins;
  wdly_dq_rst := wdly_dq_rst c; wdly_dq_inc := wdly_dq_inc c;
  wdly_dqs_rst := wdly_dqs_rst ins; wdly_dqs_inc := wdly_dqs_inc ins
|}.

(** * Module timings (litedram/modules.py) *)

(** ** Python numbers in mixed [int]/[float] arithmetic *)

Module PyNum.

Inductive num : Type :=
| Int (n : Z)
| Float (x : PyFloat.float).

(** The conversion of an operand when the other one is a [float]. *)
Definition to_float (a : num) : result PyFloat.float :=
  match a with
  | Int n => PyFloat.of_int n
  | Float x => Ok x
  end.

(** [a / b], [a * b] and [a + b] when at least one operand is a [float]:
    both operands are converted, then the [float] operation is done. *)
Definition fdiv (a b : num) : result PyFloat.float :=
  x <- to_float a ;;
  y <- to_float b ;;
  PyFloat.div x y.

Definition fmul (a b : num) : result PyFloat.float :=
  x <- to_float a ;;
  y <- to_float b ;;
  Ok (PyFloat.mul x y).

(** [a + b]: exact on two [int]s. *)
Definition add (a b : num) : result num :=
  match a, b with
  | Int m, Int n => Ok (Int (m + n))
  | _, _ =>
      x <- to_float a ;;
      y <- to_float b ;;
      Ok (Float (SFadd PyFloat.prec PyFloat.emax x y))
  end.

End PyNum.

(** A [dict] with string keys, and [d[k]]. *)
Fixpoint sd_get {V : Type} (d : list (string * V)) (k : string) : result V :=
  match d with
  | [] => Raise KeyError
  | (k', v) :: d' => if String.eqb k' k then Ok v else sd_get d' k
  end.

(** ** [SDRAMModule]: conversions to controller cycles *)

(** The [d] of [ck_to_cycles]: memory clocks per controller cycle. *)
Definition ck_per_cycle : list (string * Z) :=
  [("1:1", 1); ("1:2", 2); ("1:4", 4)]%string.

(** [ck_to_cycles(c)] for a count [c] of memory clocks, an [int] in every
    module of the file. *)
Definition ck_to_cycles (rate : string) (c : Z) : result Z :=
  d <- sd_get ck_per_cycle rate ;;
  q <- PyFloat.int_true_div c d ;;
  PyFloat.ceil q.

(** [ns_to_cycles(t, margin)], with [self.clk_freq] and [self.rate]. *)
Definition ns_to_cycles (clk_freq : PyNum.num) (rate : string)
    (t : PyNum.num) (margin : bool) : result Z :=
  clk_period_ns <-
    PyNum.fdiv (PyNum.Float (PyFloat.of_Z 1000000000)) clk_freq ;;
  t <- (if margin then
          half <- PyNum.fdiv (PyNum.Float clk_period_ns) (PyNum.Int 2) ;;
          three <- PyNum.fmul (PyNum.Int 3) (PyNum.Float clk_period_ns) ;;
          three_quarters <- PyNum.fdiv (PyNum.Float three) (PyNum.Int 4) ;;
          let margins :=
            [("1:1", PyNum.Int 0);
             ("1:2", PyNum.Float half);
             ("1:4", PyNum.Float three_quarters)]%string in
          m <- sd_get margins rate ;;
          PyNum.add t m
        else Ok t) ;;
  q <- PyNum.fdiv t (PyNum.Float clk_period_ns) ;;
  PyFloat.ceil q.

(** [ck_ns_to_cycles(c, t)]: [None] counts as 0. *)
Definition ck_ns_to_cycles (clk_freq : PyNum.num) (rate : string)
    (c : option Z) (t : option PyNum.num) : result Z :=
  let c := match c with None => 0 | Some c => c end in
  let t := match t with None => PyNum.Int 0 | Some t => t end in
  a <- ck_to_cycles rate c ;;
  b <- ns_to_cycles clk_freq rate t true ;;
  Ok (Z.max a b).

(** A known rate, and a clock frequency that is zero. *)
Definition known_rate (rate : string) : bool :=
  String.eqb rate "1:1" || String.eqb rate "1:2" || String.eqb rate "1:4".

Definition zero_freq (clk_freq : PyNum.num) : bool :=
  match clk_freq with
  | PyNum.Int n => n =? 0
  | PyNum.Float x => PyFloat.is_zero x
  end.

(** ** Vocabulary of the further properties *)

(** The latency plan of a [PhySettings]: [cl], [cwl], [rdcmdphase],
    [rdphase], [wrcmdphase], [wrphase], [read_latency], [write_latency]. *)
Definition plan_of (s : PhySettings) : Z * Z * Z * Z * Z * Z * Z * Z :=
  (cl s, cwl s, rdcmdphase s, rdphase s, wrcmdphase s, wrphase s,
   read_latency s, write_latency s).

(** The four plans of DDR3 at four phases, one for each timing bin. *)
Definition ddr3_plans : list (Z * Z * Z * Z * Z * Z * Z * Z) :=
  [ (6, 5, 1, 2, 2, 3, 8, 2);
    (7, 6, 0, 1, 1, 2, 8, 2);
    (10, 7, 1, 2, 0, 1, 9, 2);
    (11, 8, 0, 1, 3, 0, 9, 2) ].

(** A DDR2 PHY at two phases, 100 MHz system clock and 200 MHz delay
    reference clock, with output delay lines. *)
Definition k7_ddr2 : S7DDRPHY := {|
  settings := {|
    memtype := "DDR2"; dfi_databits := 32; nranks := 1; nphases := 2;
    rdphase := 1; wrphase := 0; rdcmdphase := 0; wrcmdphase := 1;
    cl := 3; cwl := 2; read_latency := 8; write_latency := 1 |};
  with_odelay := true; databits := 16; half_sys8x_taps := 16;
  cwl_sys_latency := 1; dqs_sys_latency := 0
|}.

(** * Properties *)

(** ** Timing resolver *)

Lemma scan_items_ok items tck v :
  scan_items items tck = Ok v <-> exists i f, first_match items tck i f v.
Proof.
  induction items as [|[f [c w]] rest IH]; simpl.
  - split; [discriminate|].
    intros (i & f & H & _). destruct i; discriminate.
  - fold (qualifies tck f). destruct (qualifies tck f) eqn:Q.
    + split.
      * intros [= <-]. exists 0%nat, f. repeat split; auto.
        intros j g u Hj. lia.
      * intros (i & g & Hn & Hq & Hfirst). destruct i as [|i].
        -- simpl in Hn. now inversion Hn.
        -- specialize (Hfirst 0%nat f (c, w) (Nat.lt_0_succ i) eq_refl).
           congruence.
    + rewrite IH. split.
      * intros (i & g & Hn & Hq & Hfirst). exists (S i), g.
        repeat split; auto.
        intros [|j] h u Hj Hnth; simpl in Hnth.
        -- now inversion Hnth; subst.
        -- apply (Hfirst j h u); [lia|assumption].
      * intros (i & g & Hn & Hq & Hfirst). destruct i as [|i].
        -- simpl in Hn. inversion Hn; subst. congruence.
        -- exists i, g. repeat split; auto.
           intros j h u Hj Hnth. apply (Hfirst (S j) h u); [lia|assumption].
Qed.

Lemma scan_items_raise items tck e :
  scan_items items tck = Raise e ->
  e = ValueError /\ Forall (fun x => qualifies tck (fst x) = false) items.
Proof.
  induction items as [|[f [c w]] rest IH]; simpl.
  - intros [= <-]. auto.
  - fold (qualifies tck f). destruct (qualifies tck f) eqn:Q; [discriminate|].
    intros H. destruct (IH H). auto.
Qed.

Lemma scan_items_none items tck :
  Forall (fun x => qualifies tck (fst x) = false) items ->
  scan_items items tck = Raise ValueError.
Proof.
  induction 1 as [|[f [c w]] rest Hq _ IH]; simpl; auto.
  simpl in Hq. fold (qualifies tck f). now rewrite Hq.
Qed.

Lemma f_to_cl_cwl_ddr2 : f_to_cl_cwl "DDR2" = Ok ddr2_table.
Proof. vm_compute. reflexivity. Qed.

Lemma f_to_cl_cwl_ddr3 : f_to_cl_cwl "DDR3" = Ok ddr3_table.
Proof. vm_compute. reflexivity. Qed.

Lemma f_to_cl_cwl_other m :
  m <> "DDR2"%string -> m <> "DDR3"%string -> f_to_cl_cwl m = Raise ValueError.
Proof.
  intros H2 H3. unfold f_to_cl_cwl.
  apply String.eqb_neq in H2, H3. now rewrite H2, H3.
Qed.

Lemma ascendingb_sound items : ascendingb items = true -> ascending items.
Proof.
  induction items as [|[f v0] rest IH]; intros H i j a b v w Hij Hi Hj.
  - destruct i; discriminate.
  - simpl in H. apply andb_prop in H as [Hall Hrest].
    destruct j as [|j]; [lia|]. simpl in Hj.
    destruct i as [|i]; simpl in Hi.
    + inversion Hi; subst. rewrite forallb_forall in Hall.
      apply (Hall (b, w)). eapply nth_error_In; eauto.
    + apply (IH Hrest i j a b v w); auto. lia.
Qed.

(** [<] on floats is a strict order. *)
Lemma float_lt_asym (f g : PyFloat.float) :
  PyFloat.lt f g = true -> PyFloat.lt g f = false.
Proof.
  unfold PyFloat.lt, SFltb.
  destruct f as [s|s| |s m e], g as [s'|s'| |s' m' e']; simpl;
    try destruct s; try destruct s'; simpl; try discriminate; try reflexivity.
  all: pose proof (Pos.compare_cont_antisym m m' Eq) as A; simpl in A;
    rewrite (Z.compare_antisym e e'), <- A;
    destruct (e ?= e'); simpl; try discriminate; try reflexivity;
    destruct (Pos.compare_cont Eq m m'); simpl; try discriminate; reflexivity.
Qed.

Lemma float_lt_irrefl (f : PyFloat.float) : PyFloat.lt f f = false.
Proof.
  destruct (PyFloat.lt f f) eqn:E; [|reflexivity].
  now rewrite (float_lt_asym f f E) in E.
Qed.

Lemma two_over_800 :
  two_over (PyFloat.of_Z 800000000) = PyFloat.decimal 25 10.
Proof. vm_compute. reflexivity. Qed.

(** C1.  For both families [get_cl_cw] walks the family's table, whose
    minimum frequencies are in ascending order, and returns the [(cl, cwl)]
    of the first entry with [tck >= 2/f]; it is therefore the qualifying
    entry of lowest frequency.  For DDR3 every period of at least 2.5 ns
    yields [(6, 5)]. *)
Theorem get_cl_cw_first_qualifying (m : string) (tck : PyFloat.float) :
  m = "DDR2"%string \/ m = "DDR3"%string ->
  exists table,
    f_to_cl_cwl m = Ok table
    /\ ascending table
    /\ (forall v, get_cl_cw m tck = Ok v <->
                  exists i f, first_match table tck i f v)
    /\ (forall i f v, first_match table tck i f v ->
          forall j g w, nth_error table j = Some (g, w) ->
            qualifies tck g = true -> (i <= j)%nat /\ PyFloat.lt g f = false)
    /\ (m = "DDR3"%string -> PyFloat.ge tck (PyFloat.decimal 25 10) = true ->
          get_cl_cw m tck = Ok (6, 5)).
Proof.
  intros Hm.
  assert (Htab : exists table, f_to_cl_cwl m = Ok table
                               /\ ascendingb table = true
                               /\ (m = "DDR3"%string -> table = ddr3_table)).
  { destruct Hm as [-> | ->].
    - exists ddr2_table.
      split; [apply f_to_cl_cwl_ddr2|split; [vm_compute; reflexivity|discriminate]].
    - exists ddr3_table.
      split; [apply f_to_cl_cwl_ddr3|split; [vm_compute|]; reflexivity]. }
  destruct Htab as (table & Htab & Hasc & H3). exists table.
  apply ascendingb_sound in Hasc.
  split; [assumption|]. split; [assumption|].
  unfold get_cl_cw. rewrite Htab. simpl.
  split; [intros v; apply scan_items_ok|]. split.
  - intros i f v (Hi & Hq & Hfirst) j g w Hj Hg.
    assert (Hij : (i <= j)%nat).
    { destruct (Nat.le_gt_cases i j) as [|Hlt]; [assumption|].
      rewrite (Hfirst j g w Hlt Hj) in Hg. discriminate. }
    split; [assumption|].
    destruct (Nat.eq_dec i j) as [->|Hne].
    + rewrite Hj in Hi. inversion Hi; subst. apply float_lt_irrefl.
    + apply float_lt_asym. apply (Hasc i j f g v w); [lia|assumption..].
  - intros -> Hge. rewrite (H3 eq_refl). unfold ddr3_table.
    cbn [scan_items]. now rewrite two_over_800, Hge.
Qed.


Lemma get_cl_cw_first_qualifying_witness :
  ("DDR3" = "DDR2" \/ "DDR3" = "DDR3")%string
  /\ PyFloat.ge (PyFloat.decimal 3 9) (PyFloat.decimal 25 10) = true
  /\ get_cl_cw "DDR3" (PyFloat.decimal 3 9) = Ok (6, 5).
Proof.
  assert (Hm : ("DDR3" = "DDR2" \/ "DDR3" = "DDR3")%string)
    by (right; reflexivity).
  split; [exact Hm|]. split; [vm_compute; reflexivity|].
  destruct (get_cl_cw_first_qualifying "DDR3" (PyFloat.decimal 3 9) Hm)
    as (table & _ & _ & _ & _ & K).
  apply K; [reflexivity|vm_compute; reflexivity].
Defined.

(** ** Latency planner *)

(** Exactness of the binary64 quotient [L / 2^k] for [L < 2^53]: the
    division core finds a 54-bit quotient with no remainder, and rounding
    only drops its zero low bit. *)

Lemma digits2_pos_size p : digits2_pos p = Pos.size p.
Proof. induction p; simpl; congruence. Qed.

Lemma Zdigits2_log2 n : 0 < n -> Zdigits2 n = Z.log2 n + 1.
Proof.
  destruct n as [|p|p]; try lia. intros _. simpl.
  rewrite digits2_pos_size.
  destruct p; simpl; try lia.
Qed.

Lemma div_core L k :
  1 <= L < 2 ^ 53 -> 1 <= k <= 2 ->
  SFdiv_core_binary 53 1024 L 0 (2 ^ k) 0 =
    (L * 2 ^ (53 - Z.log2 L), Z.log2 L - k - 53, loc_Exact).
Proof.
  intros HL Hk. unfold SFdiv_core_binary.
  assert (Hlog : 0 <= Z.log2 L < 53).
  { split. apply Z.log2_nonneg. apply Z.log2_lt_pow2; lia. }
  rewrite (Zdigits2_log2 L) by lia.
  rewrite (Zdigits2_log2 (2 ^ k)) by (apply Z.pow_pos_nonneg; lia).
  rewrite Z.log2_pow2 by lia.
  unfold fexp, emin.
  replace (Z.min _ _) with (Z.log2 L - k - 53) by lia.
  replace (0 - 0 - (Z.log2 L - k - 53)) with (53 + k - Z.log2 L) by lia.
  destruct (53 + k - Z.log2 L) as [|s|s] eqn:Es; try lia.
  rewrite Z.shiftl_mul_pow2 by lia.
  assert (Hdiv : Z.div_eucl (L * 2 ^ Z.pos s) (2 ^ k) = (L * 2 ^ (53 - Z.log2 L), 0)).
  { pose proof (Z.div_eucl_eq (L * 2 ^ Z.pos s) (2 ^ k)) as E.
    assert (P : 0 < 2 ^ k) by (apply Z.pow_pos_nonneg; lia).
    unfold Z.div, Z.modulo.
    replace (L * 2 ^ Z.pos s) with (L * 2 ^ (53 - Z.log2 L) * 2 ^ k).
    2:{ rewrite <- Z.mul_assoc, <- Z.pow_add_r by lia. f_equal. f_equal. lia. }
    pose proof (Z.div_mul (L * 2 ^ (53 - Z.log2 L)) (2 ^ k) ltac:(lia)) as D.
    pose proof (Z.mod_mul (L * 2 ^ (53 - Z.log2 L)) (2 ^ k) ltac:(lia)) as M.
    unfold Z.div, Z.modulo in D, M.
    destruct (Z.div_eucl (L * 2 ^ (53 - Z.log2 L) * 2 ^ k) (2 ^ k)) as [q r].
    simpl in *. congruence. }
  rewrite Hdiv.
  f_equal. unfold new_location.
  destruct Hk as [Hk1 Hk2].
  assert (k = 1 \/ k = 2) as [-> | ->] by lia; reflexivity.
Qed.

Lemma round_aux_exact (p : positive) (e : Z) :
  Z.log2 (Z.pos p) = 52 -> -1074 <= e + 1 <= 971 ->
  binary_round_aux 53 1024 false (Z.pos p~0) e loc_Exact
  = S754_finite false p (e + 1).
Proof.
  intros Hp He. unfold binary_round_aux, shr_fexp.
  assert (Hd : Z.log2 (Z.pos p~0) = 53).
  { change (Z.pos p~0) with (2 * Z.pos p). rewrite Z.log2_double; lia. }
  rewrite (Zdigits2_log2 (Z.pos p~0)), Hd by lia.
  unfold fexp, emin.
  replace (Z.max (53 + 1 + e - 53) (3 - 1024 - 53) - e) with 1 by lia.
  cbn [shr shr_record_of_loc iter_pos shr_1 shr_m loc_of_shr_record
       round_nearest_even orb].
  rewrite (Zdigits2_log2 (Z.pos p)) by lia. rewrite Hp.
  replace (Z.max (52 + 1 + (e + 1) - 53) (3 - 1024 - 53) - (e + 1)) with 0 by lia.
  cbn [shr shr_m].
  replace (e + 1 <=? 1024 - 53) with true by (symmetry; apply Z.leb_le; lia).
  reflexivity.
Qed.

Lemma int_true_div_pow2 L k :
  1 <= L < 2 ^ 53 -> 1 <= k <= 2 ->
  PyFloat.int_true_div L (2 ^ k) =
    Ok (S754_finite false (Z.to_pos (L * 2 ^ (52 - Z.log2 L)))
                    (Z.log2 L - k - 52)).
Proof.
  intros HL Hk.
  destruct L as [|l|l]; try lia.
  assert (Hlog : 0 <= Z.log2 (Z.pos l) < 53).
  { split. apply Z.log2_nonneg. apply Z.log2_lt_pow2; lia. }
  assert (P : 0 < 2 ^ k) by (apply Z.pow_pos_nonneg; lia).
  assert (Q : 0 < 2 ^ (52 - Z.log2 (Z.pos l))) by (apply Z.pow_pos_nonneg; lia).
  assert (R : 0 < Z.pos l * 2 ^ (52 - Z.log2 (Z.pos l))) by nia.
  unfold PyFloat.int_true_div.
  destruct (2 ^ k) as [|n|n] eqn:EN; try lia.
  cbn [Z.ltb Z.compare xorb Z.abs Z.to_pos].
  unfold SFdiv.
  rewrite <- EN. change PyFloat.prec with 53. change PyFloat.emax with 1024.
  rewrite div_core by lia.
  replace (Z.pos l * 2 ^ (53 - Z.log2 (Z.pos l)))
    with (Z.pos (Z.to_pos (Z.pos l * 2 ^ (52 - Z.log2 (Z.pos l))))~0).
  2:{ rewrite Pos2Z.inj_xO, Z2Pos.id by exact R.
      replace (53 - Z.log2 (Z.pos l)) with (1 + (52 - Z.log2 (Z.pos l))) by lia.
      rewrite Z.pow_add_r by lia. lia. }
  cbn [xorb].
  rewrite round_aux_exact.
  - replace (Z.log2 (Z.pos l) - k - 53 + 1) with (Z.log2 (Z.pos l) - k - 52) by lia.
    reflexivity.
  - rewrite Z2Pos.id by exact R. rewrite Z.log2_mul_pow2 by lia. lia.
  - lia.
Qed.

Lemma get_sys_latency_pow2 L k :
  1 <= L < 2 ^ 53 -> 1 <= k <= 2 ->
  get_sys_latency (2 ^ k) L = Ok (- ((- L) / 2 ^ k)).
Proof.
  intros HL Hk. unfold get_sys_latency.
  rewrite int_true_div_pow2 by assumption. cbn [bind PyFloat.ceil].
  assert (Hlog : 0 <= Z.log2 L < 53).
  { split. apply Z.log2_nonneg. apply Z.log2_lt_pow2; lia. }
  assert (Q : 0 < 2 ^ (52 - Z.log2 L)) by (apply Z.pow_pos_nonneg; lia).
  assert (P : 0 < 2 ^ k) by (apply Z.pow_pos_nonneg; lia).
  replace (0 <=? Z.log2 L - k - 52) with false by (symmetry; apply Z.leb_gt; lia).
  rewrite Z2Pos.id by nia.
  replace (- (Z.log2 L - k - 52)) with (k + (52 - Z.log2 L)) by lia.
  rewrite Z.pow_add_r by lia.
  rewrite <- Z.mul_opp_l.
  rewrite Z.div_mul_cancel_r by lia. reflexivity.
Qed.

Lemma get_sys_latency_53 (N : Z) :
  N = 2 \/ N = 4 -> get_sys_latency N (2 ^ 53) = Ok (2 ^ 53 / N).
Proof. intros [-> | ->]; vm_compute; reflexivity. Qed.

Lemma ceil_bounds (L N : Z) :
  0 < N -> (- (- L / N) - 1) * N < L <= - (- L / N) * N.
Proof.
  intros HN. pose proof (Z.div_mod (- L) N ltac:(lia)) as D.
  pose proof (Z.mod_pos_bound (- L) N HN) as B. nia.
Qed.

(** C2 (amended).  For [N] in {2, 4} and every latency [1 <= L <= 2^53],
    [get_sys_latency N L] returns the ceiling of [L / N], that is the
    [k] with [(k - 1) * N < L <= k * N]; [get_sys_phases N s L] returns
    [dat_phase = s * N - L] and [cmd_phase = (dat_phase - 1) mod N], the
    residue of [dat_phase - 1] in [0, N). *)
Theorem get_sys_latency_is_ceil (N L : Z) :
  N = 2 \/ N = 4 -> 1 <= L <= 2 ^ 53 ->
  (exists k, get_sys_latency N L = Ok k /\ (k - 1) * N < L <= k * N)
  /\ forall s, exists cmd_phase dat_phase,
       get_sys_phases N s L = Ok (cmd_phase, dat_phase)
       /\ dat_phase = s * N - L
       /\ cmd_phase = (dat_phase - 1) mod N
       /\ 0 <= cmd_phase < N
       /\ exists q, dat_phase - 1 = q * N + cmd_phase.
Proof.
  intros HN HL. split.
  - destruct (Z.eq_dec L (2 ^ 53)) as [->|Hne].
    + exists (2 ^ 53 / N). split; [now apply get_sys_latency_53|].
      destruct HN as [-> | ->]; vm_compute; split; congruence.
    + exists (- (- L / N)). split.
      * destruct HN as [-> | ->].
        -- apply (get_sys_latency_pow2 L 1); lia.
        -- apply (get_sys_latency_pow2 L 2); lia.
      * apply ceil_bounds. lia.
  - intros s. exists ((s * N - L - 1) mod N), (s * N - L).
    assert (N0 : (N =? 0) = false) by (apply Z.eqb_neq; lia).
    unfold get_sys_phases, py_mod. rewrite N0. cbn [bind].
    repeat split; try (apply Z.mod_pos_bound; lia).
    exists ((s * N - L - 1) / N).
    rewrite (Z.div_mod (s * N - L - 1) N) at 1 by lia. lia.
Qed.

Lemma get_sys_latency_is_ceil_witness :
  (4 = 2 \/ 4 = 4) /\ 1 <= 6 <= 2 ^ 53
  /\ exists k, get_sys_latency 4 6 = Ok k /\ (k - 1) * 4 < 6 <= k * 4.
Proof.
  split; [right; reflexivity|]. split; [lia|].
  apply (get_sys_latency_is_ceil 4 6); [right; reflexivity|lia].
Defined.

(** C2 as stated fails above [2^53]: the quotient [(2^53 + 1) / 4] is
    rounded to [2^51] before [math.ceil] sees it. *)
Lemma get_sys_latency_not_ceil :
  1 <= 2 ^ 53 + 1
  /\ get_sys_latency 4 (2 ^ 53 + 1) = Ok (2 ^ 51)
  /\ ~ ((2 ^ 51 - 1) * 4 < 2 ^ 53 + 1 <= 2 ^ 51 * 4).
Proof.
  split; [lia|]. split; [vm_compute; reflexivity|lia].
Qed.

(** ** Construction *)

Lemma bind_ok {A B} (r : result A) (k : A -> result B) b :
  bind r k = Ok b -> exists a, r = Ok a /\ k a = Ok b.
Proof. destruct r; simpl; [eauto|discriminate]. Qed.

Lemma get_cl_cw_ok m tck cl cwl :
  get_cl_cw m tck = Ok (cl, cwl) ->
  (m = "DDR2"%string \/ m = "DDR3"%string) /\ In (cl, cwl) cl_cwl_bins.
Proof.
  unfold get_cl_cw. intros H. apply bind_ok in H as (table & Ht & Hs).
  apply scan_items_ok in Hs as (i & f & Hn & _).
  apply nth_error_In in Hn.
  unfold f_to_cl_cwl in Ht.
  destruct (String.eqb_spec m "DDR2") as [->|H2].
  - split; [now left|]. change (Ok ddr2_table = Ok table) in Ht.
    injection Ht as <-. simpl in Hn.
    repeat (destruct Hn as [Hn|Hn]; [injection Hn as _ <- <-; simpl; tauto|]).
    destruct Hn.
  - destruct (String.eqb_spec m "DDR3") as [->|H3]; [|discriminate].
    split; [now right|]. change (Ok ddr3_table = Ok table) in Ht.
    injection Ht as <-. simpl in Hn.
    repeat (destruct Hn as [Hn|Hn]; [injection Hn as _ <- <-; simpl; tauto|]).
    destruct Hn.
Qed.

Lemma plan_bins N cl cwl :
  supported N -> In (cl, cwl) cl_cwl_bins ->
  plan_ok N cl = true /\ plan_ok N cwl = true.
Proof.
  intros [-> | ->] H; simpl in H;
    repeat (destruct H as [H|H]; [injection H as <- <-; split; vm_compute; reflexivity|]);
    destruct H.
Qed.

Lemma plan_ok_inv N L :
  plan_ok N L = true ->
  exists s c d, get_sys_latency N L = Ok s /\ get_sys_phases N s L = Ok (c, d)
                /\ 1 <= s /\ 0 <= c < N /\ 0 <= d < N.
Proof.
  unfold plan_ok, plan.
  destruct (get_sys_latency N L) as [s|]; cbn [bind]; [|discriminate].
  destruct (get_sys_phases N s L) as [[c d]|] eqn:E; cbn [bind]; [|discriminate].
  intros H. exists s, c, d.
  repeat (let K := fresh in apply andb_prop in H as [H K]).
  apply Z.leb_le in H.
  repeat match goal with
         | K : (_ <=? _) = true |- _ => apply Z.leb_le in K
         | K : (_ <? _) = true |- _ => apply Z.ltb_lt in K
         end.
  repeat split; try reflexivity; assumption.
Qed.

Lemma choose_dqs_ok m wo w :
  m = "DDR2"%string \/ m = "DDR3"%string ->
  choose_dqs_sys_latency m wo w =
    Ok (if String.eqb m "DDR3" && negb wo then w else w - 1).
Proof. intros [-> | ->]; destruct wo; reflexivity. Qed.

(** What a successful construction computed. *)
Lemma S7DDRPHY_init_inv pads wo m N sys iod phy :
  supported N ->
  S7DDRPHY_init pads wo m N sys iod = Ok phy ->
  exists tck tap cl cwl cls cwls rdc rd wrc wr,
    clock_period N sys = Ok tck
    /\ od_get iodelay_tap_average iod = Ok tap
    /\ half_taps tck tap = Ok (half_sys8x_taps phy)
    /\ get_cl_cw m tck = Ok (cl, cwl)
    /\ get_sys_latency N cl = Ok cls
    /\ get_sys_latency N cwl = Ok cwls
    /\ get_sys_phases N cls cl = Ok (rdc, rd)
    /\ get_sys_phases N cwls cwl = Ok (wrc, wr)
    /\ 1 <= cls /\ 1 <= cwls
    /\ 0 <= rdc < N /\ 0 <= rd < N /\ 0 <= wrc < N /\ 0 <= wr < N
    /\ settings phy = {|
         memtype := m; dfi_databits := 2 * pads_dq pads;
         nranks := match pads_cs_n pads with None => 1 | Some n => n end;
         nphases := N; rdphase := rd; wrphase := wr;
         rdcmdphase := rdc; wrcmdphase := wrc; cl := cl; cwl := cwl;
         read_latency := 2 + cls + 2 + 3 - 1; write_latency := cwls |}
    /\ with_odelay phy = wo
    /\ databits phy = pads_dq pads
    /\ cwl_sys_latency phy = cwls
    /\ dqs_sys_latency phy =
         (if String.eqb m "DDR3" && negb wo then cwls else cwls - 1).
Proof.
  intros HN. unfold S7DDRPHY_init.
  destruct (String.eqb m "DDR3" && (N =? 2)); [discriminate|].
  intros H.
  apply bind_ok in H as (tck & Htck & H).
  apply bind_ok in H as (tap & Htap & H).
  apply bind_ok in H as (taps & Htaps & H).
  apply bind_ok in H as ([cl cwl] & Hcl & H). cbn beta iota in H.
  destruct (get_cl_cw_ok _ _ _ _ Hcl) as [Hm Hin].
  destruct (plan_bins N cl cwl HN Hin) as [P1 P2].
  apply plan_ok_inv in P1 as (cls & rdc & rd & L1 & Ph1 & B1 & B2 & B3).
  apply plan_ok_inv in P2 as (cwls & wrc & wr & L2 & Ph2 & C1 & C2 & C3).
  rewrite L1 in H. cbn [bind] in H. rewrite L2 in H. cbn [bind] in H.
  rewrite Ph1 in H. cbn [bind] in H. rewrite Ph2 in H. cbn [bind] in H.
  rewrite (choose_dqs_ok m wo cwls Hm) in H. cbn [bind] in H.
  injection H as <-.
  exists tck, tap, cl, cwl, cls, cwls, rdc, rd, wrc, wr.
  cbn [settings with_odelay databits half_sys8x_taps cwl_sys_latency
       dqs_sys_latency].
  repeat split; try assumption; try lia.
Qed.

(** C8.  Whenever construction succeeds for a supported phase count [N],
    the four phase indices of the settings lie in [0, N) and both latencies
    are non-negative; the settings are a field of the instance, which no
    clock edge changes ([step] produces a [State], never an [S7DDRPHY]). *)
Theorem phy_settings_in_range pads wo m N sys iod phy :
  supported N ->
  S7DDRPHY_init pads wo m N sys iod = Ok phy ->
  let s := settings phy in
  nphases s = N
  /\ 0 <= rdphase s < N /\ 0 <= wrphase s < N
  /\ 0 <= rdcmdphase s < N /\ 0 <= wrcmdphase s < N
  /\ 0 <= read_latency s /\ 0 <= write_latency s.
Proof.
  intros HN H.
  destruct (S7DDRPHY_init_inv _ _ _ _ _ _ _ HN H)
    as (tck & tap & cl & cwl & cls & cwls & rdc & rd & wrc & wr & _ & _ & _
        & _ & _ & _ & _ & _ & ? & ? & ? & ? & ? & ? & E & _).
  rewrite E.
  cbn [nphases rdphase wrphase rdcmdphase wrcmdphase read_latency write_latency].
  repeat split; lia.
Qed.


Lemma phy_settings_in_range_witness :
  supported 2
  /\ K7DDRPHY_init pads16 "DDR2" 2 (mhz 100) (mhz 200) <> Raise ValueError
  /\ forall phy, K7DDRPHY_init pads16 "DDR2" 2 (mhz 100) (mhz 200) = Ok phy ->
       0 <= rdphase (settings phy) < 2 /\ 0 <= wrphase (settings phy) < 2.
Proof.
  assert (HN : supported 2) by (left; reflexivity).
  split; [exact HN|]. split; [vm_compute; discriminate|].
  intros phy H.
  destruct (phy_settings_in_range pads16 true "DDR2" 2 (mhz 100) (mhz 200)
              phy HN H) as (_ & K1 & K2 & _).
  split; [exact K1|exact K2].
Defined.

Lemma od_get_raise {V} (d : odict V) k e : od_get d k = Raise e -> e = KeyError.
Proof.
  induction d as [|[k' v] d IH]; simpl.
  - now intros [= <-].
  - destruct (PyFloat.eq k' k); [discriminate|exact IH].
Qed.

Lemma clock_period_raise N sys e :
  supported N -> clock_period N sys = Raise e -> e = ZeroDivisionError.
Proof.
  unfold clock_period, PyFloat.div.
  intros [-> | ->]; cbn [bind];
    match goal with |- context [PyFloat.of_int ?n] =>
      let v := eval vm_compute in (PyFloat.of_int n) in
      change (PyFloat.of_int n) with v end; cbn [bind];
    destruct (PyFloat.is_zero _); congruence.
Qed.

Lemma f_to_cl_cwl_raise m e :
  f_to_cl_cwl m = Raise e -> m <> "DDR2"%string /\ m <> "DDR3"%string.
Proof.
  unfold f_to_cl_cwl.
  destruct (String.eqb_spec m "DDR2"); [discriminate|].
  destruct (String.eqb_spec m "DDR3"); [discriminate|]. auto.
Qed.

Lemma get_cl_cw_raise m tck e :
  get_cl_cw m tck = Raise e ->
  (m <> "DDR2"%string /\ m <> "DDR3"%string) \/ no_entry_qualifies m tck.
Proof.
  unfold get_cl_cw. destruct (f_to_cl_cwl m) as [table|e'] eqn:T; cbn [bind].
  - intros H. right. exists table. split; [exact T|].
    now apply scan_items_raise in H.
  - intros _. left. eapply f_to_cl_cwl_raise; eauto.
Qed.

Lemma no_entry_get_cl_cw m tck :
  no_entry_qualifies m tck -> get_cl_cw m tck = Raise ValueError.
Proof.
  intros (table & T & F). unfold get_cl_cw. rewrite T. cbn [bind].
  now apply scan_items_none.
Qed.

Lemma assert_spec m N :
  String.eqb m "DDR3" && (N =? 2) = true <-> m = "DDR3"%string /\ N = 2.
Proof. now rewrite andb_true_iff, String.eqb_eq, Z.eqb_eq. Qed.

(** C9 (amended).  For a supported phase count, construction fails exactly
    when the family is neither DDR2 nor DDR3, or no table entry of the
    family satisfies the clock period, or the family is DDR3 with two
    phases, or -- beyond the listed cases -- [2*nphases*sys_clk_freq] is
    zero, [iodelay_clk_freq] is not a key of [iodelay_tap_average], or
    [math.floor] rejects the tap quotient. *)
Theorem init_fails_iff pads wo m N sys iod :
  supported N ->
  raises (S7DDRPHY_init pads wo m N sys iod) <->
  listed_failure m N sys \/ further_failure N sys iod.
Proof.
  intros HN. unfold listed_failure, further_failure.
  destruct (S7DDRPHY_init pads wo m N sys iod) as [phy|e] eqn:I.
  - split; [intros [e He]; discriminate|]. intros F. exfalso.
    destruct (S7DDRPHY_init_inv _ _ _ _ _ _ _ HN I)
      as (tck & tap & cl & cwl & cls & cwls & rdc & rd & wrc & wr & Htck & Htap
          & Htaps & Hcl & _).
    destruct (get_cl_cw_ok _ _ _ _ Hcl) as [Hm _].
    unfold S7DDRPHY_init in I.
    destruct (String.eqb m "DDR3" && (N =? 2)) eqn:A; [discriminate|].
    destruct F as [[[H2 H3]|[(t & Ht & Hno)|HA]]|[Hz|[Hk|(t & p & Ht & Hp & [e He])]]].
    + destruct Hm; contradiction.
    + rewrite Htck in Ht. injection Ht as <-.
      rewrite (no_entry_get_cl_cw _ _ Hno) in Hcl. discriminate.
    + apply assert_spec in HA. congruence.
    + congruence.
    + congruence.
    + rewrite Htck in Ht. injection Ht as <-.
      rewrite Htap in Hp. injection Hp as <-. congruence.
  - split; [intros _|intros _; now exists e].
    unfold S7DDRPHY_init in I.
    destruct (String.eqb m "DDR3" && (N =? 2)) eqn:A.
    { left. right. right. now apply assert_spec. }
    destruct (clock_period N sys) as [tck|e1] eqn:Htck; cbn [bind] in I.
    2:{ right. left. f_equal. eapply clock_period_raise; eauto. }
    destruct (od_get iodelay_tap_average iod) as [tap|e2] eqn:Htap; cbn [bind] in I.
    2:{ right. right. left. f_equal. eapply od_get_raise; eauto. }
    destruct (half_taps tck tap) as [taps|e3] eqn:Htaps; cbn [bind] in I.
    2:{ right. right. right. exists tck, tap. repeat split. now exists e3. }
    destruct (get_cl_cw m tck) as [[cl cwl]|e4] eqn:Hcl; cbn [bind] in I.
    2:{ left. destruct (get_cl_cw_raise _ _ _ Hcl) as [U|U]; [now left|].
        right. left. now exists tck. }
    exfalso. cbn beta iota in I.
    destruct (get_cl_cw_ok _ _ _ _ Hcl) as [Hm Hin].
    destruct (plan_bins N cl cwl HN Hin) as [P1 P2].
    apply plan_ok_inv in P1 as (cls & rdc & rd & L1 & Ph1 & _).
    apply plan_ok_inv in P2 as (cwls & wrc & wr & L2 & Ph2 & _).
    rewrite L1 in I. cbn [bind] in I. rewrite L2 in I. cbn [bind] in I.
    rewrite Ph1 in I. cbn [bind] in I. rewrite Ph2 in I. cbn [bind] in I.
    rewrite (choose_dqs_ok m wo cwls Hm) in I. discriminate.
Qed.

Lemma init_fails_iff_witness :
  supported 4
  /\ listed_failure "DDR4" 4 (mhz 100)
  /\ raises (K7DDRPHY_init pads16 "DDR4" 4 (mhz 100) (mhz 200)).
Proof.
  assert (HN : supported 4) by (right; reflexivity).
  assert (HL : listed_failure "DDR4" 4 (mhz 100))
    by (left; split; discriminate).
  split; [exact HN|]. split; [exact HL|].
  apply (init_fails_iff pads16 true "DDR4" 4 (mhz 100) (mhz 200) HN).
  left. exact HL.
Defined.

(** C9 as stated fails: a 500 MHz delay reference clock is none of the
    listed cases, and construction raises [KeyError]. *)
Lemma init_fails_outside_listed_cases :
  K7DDRPHY_init pads16 "DDR3" 4 (mhz 100) (mhz 500) = Raise KeyError
  /\ ~ listed_failure "DDR3" 4 (mhz 100).
Proof.
  split; [vm_compute; reflexivity|].
  intros [[_ H]|[(tck & Ht & (table & Htab & F))|[_ H]]].
  - now apply H.
  - vm_compute in Ht. injection Ht as <-.
    rewrite f_to_cl_cwl_ddr3 in Htab. injection Htab as <-.
    inversion F as [|x l Hq _]. vm_compute in Hq. discriminate.
  - discriminate.
Qed.

(** ** Flow control: the two delay lines *)

Lemma delayed_succ f d t : delayed f (S d) (S t) = delayed f d t.
Proof. unfold delayed. reflexivity. Qed.

Lemma delayed_zero f d : delayed f (S d) 0 = false.
Proof. reflexivity. Qed.

Lemma delayed_now f t : delayed f 0 t = f t.
Proof. unfold delayed. cbn. now rewrite Nat.sub_0_r. Qed.

Lemma delayed_pulse T d t :
  delayed (fun u => Nat.eqb u T) d t = Nat.eqb t (T + d).
Proof.
  unfold delayed. destruct (Nat.leb_spec d t).
  - destruct (Nat.eqb_spec (t - d) T), (Nat.eqb_spec t (T + d)); auto; lia.
  - symmetry. apply Nat.eqb_neq. lia.
Qed.

Lemma nth_removelast {A} (l : list A) i d :
  (S i < List.length l)%nat -> nth i (removelast l) d = nth i l d.
Proof.
  revert i. induction l as [|a l IH]; intros i H; [simpl in H; lia|].
  destruct l as [|b l]; [simpl in H; lia|].
  destruct i; [reflexivity|].
  change (nth i (removelast (b :: l)) d = nth i (b :: l) d).
  apply IH. simpl in *. lia.
Qed.

Lemma length_removelast {A} (a : A) (l : list A) :
  List.length (removelast (a :: l)) = List.length l.
Proof.
  revert a. induction l as [|b l IH]; intros a; [reflexivity|].
  change (S (List.length (removelast (b :: l))) = S (List.length l)).
  now rewrite IH.
Qed.

Lemma last_is_nth {A} (a : A) (l : list A) d :
  last (a :: l) d = nth (List.length l) (a :: l) d.
Proof.
  revert a. induction l as [|b l IH]; intros a; [reflexivity|].
  change (last (b :: l) d = nth (List.length l) (b :: l) d). apply IH.
Qed.

Lemma testbit_b2z b i : Z.testbit (Z.b2z b) i = b && (i =? 0).
Proof.
  destruct b; cbn [Z.b2z andb]; [|apply Z.bits_0].
  destruct i; reflexivity.
Qed.

Lemma cat_shift_bit n b v i :
  1 <= n -> 0 <= i ->
  Z.testbit (Migen.cat_shift n b v) i =
    if i =? 0 then b else Z.testbit v (i - 1) && (i <? n).
Proof.
  intros Hn Hi. unfold Migen.cat_shift.
  rewrite Z.lor_spec, testbit_b2z.
  destruct (Z.eqb_spec i 0) as [->|Hne].
  - rewrite Z.shiftl_spec_low by lia. now rewrite andb_true_r, orb_false_r.
  - rewrite andb_false_r, orb_false_l.
    rewrite Z.shiftl_spec, Z.land_spec by lia.
    f_equal. destruct (Z.ltb_spec i n).
    + apply Z.ones_spec_low. lia.
    + apply Z.ones_spec_high. lia.
Qed.

Section FlowControl.
Variable idelaye2 : bool -> bool -> bool -> Z -> Z.
Variable phy : S7DDRPHY.
Variable ins : nat -> Inputs.

Let st (t : nat) : State := run idelaye2 phy ins t.
Let ren (t : nat) : bool := rdphase_en phy (ins t).
Let wen (t : nat) : bool := wrphase_en phy (ins t).
Let depth : nat := Z.to_nat (read_latency (settings phy) - 1).

Lemma run_succ t : st (S t) = step idelaye2 phy (st t) (ins t).
Proof. reflexivity. Qed.

Lemma chain_length t : List.length (n_rddata_en (st t)) = depth.
Proof.
  induction t as [|t IH].
  - apply repeat_length.
  - rewrite run_succ. unfold step. cbn [n_rddata_en].
    rewrite length_removelast. exact IH.
Qed.

Lemma chain_stage t i :
  (i <= depth)%nat ->
  nth i (rdphase_en phy (ins t) :: n_rddata_en (st t)) false = delayed ren i t.
Proof.
  revert i. induction t as [|t IH]; intros i Hi.
  - destruct i as [|i]; [now rewrite delayed_now|].
    cbn [nth]. unfold st, run, reset. cbn [n_rddata_en].
    rewrite nth_repeat. reflexivity.
  - destruct i as [|i]; [now rewrite delayed_now|].
    rewrite delayed_succ. cbn [nth].
    rewrite run_succ. unfold step. cbn [n_rddata_en].
    rewrite nth_removelast by (cbn [List.length]; rewrite chain_length; lia).
    apply IH. lia.
Qed.

Lemma rddata_valid_delay t :
  wlevel_off phy ins ->
  rddata_valid (st t) = repeat (delayed ren (S depth) t) dfi_nphases.
Proof.
  intros Hoff. destruct t as [|t]; [reflexivity|].
  rewrite delayed_succ, run_succ. unfold step. cbn [rddata_valid]. f_equal.
  rewrite last_is_nth, chain_length.
  rewrite (chain_stage t depth (Nat.le_refl _)).
  specialize (Hoff t). destruct (with_odelay phy); [|reflexivity].
  cbn in Hoff. rewrite Hoff. apply orb_false_r.
Qed.

Lemma chain_last t :
  (1 <= depth)%nat ->
  last (n_rddata_en (st t)) false = delayed ren depth t.
Proof.
  intros Hd. rewrite <- (chain_stage t depth (Nat.le_refl _)).
  pose proof (chain_length t) as L.
  destruct (n_rddata_en (st t)) as [|a l] eqn:E; [cbn in L; lia|].
  rewrite last_is_nth. cbn [List.length] in L.
  replace depth with (S (List.length l)) by lia. reflexivity.
Qed.

Let n : Z := cwl_sys_latency phy + 2.

Hypothesis n_pos : 1 <= n.

Lemma history_bit t (i : nat) :
  Z.testbit (last_wrdata_en (st t)) (Z.of_nat i) =
    delayed wen (S i) t && (Z.of_nat i <? n).
Proof.
  revert i. induction t as [|t IH]; intros i.
  - rewrite delayed_zero. apply Z.bits_0.
  - rewrite delayed_succ, run_succ. unfold step. cbn [last_wrdata_en].
    rewrite cat_shift_bit by lia. fold n.
    destruct i as [|i].
    + cbn [Z.of_nat Z.eqb]. rewrite delayed_now.
      replace (0 <? n) with true by (symmetry; apply Z.ltb_lt; lia).
      now rewrite andb_true_r.
    + replace (Z.of_nat (S i) =? 0) with false by (symmetry; apply Z.eqb_neq; lia).
      replace (Z.of_nat (S i) - 1) with (Z.of_nat i) by lia.
      rewrite IH. rewrite <- andb_assoc. f_equal.
      destruct (Z.ltb_spec (Z.of_nat i) n), (Z.ltb_spec (Z.of_nat (S i)) n);
        try reflexivity; lia.
Qed.

Lemma bit_history t (k : Z) :
  0 <= k < n ->
  Migen.bit n (last_wrdata_en (st t)) k = delayed wen (S (Z.to_nat k)) t.
Proof.
  intros Hk. unfold Migen.bit.
  replace (k <? 0) with false by (symmetry; apply Z.ltb_ge; lia).
  rewrite <- (Z2Nat.id k) at 1 by lia. rewrite history_bit.
  replace (Z.of_nat (Z.to_nat k) <? n) with true
    by (symmetry; apply Z.ltb_lt; lia).
  apply andb_true_r.
Qed.

Lemma oe_delay t :
  1 <= cwl_sys_latency phy ->
  let w := Z.to_nat (cwl_sys_latency phy) in
  oe phy (st t) =
    delayed wen w t || delayed wen (S w) t || delayed wen (S (S w)) t.
Proof.
  intros Hw w. unfold oe. fold n.
  rewrite !bit_history by (unfold n; lia).
  replace (S (Z.to_nat (cwl_sys_latency phy - 1))) with w by lia.
  replace (Z.to_nat (cwl_sys_latency phy + 1)) with (S w) by lia.
  reflexivity.
Qed.

End FlowControl.

(** ** Flow control of a constructed PHY *)

Lemma constructed_latencies pads wo m N sys iod phy :
  supported N ->
  S7DDRPHY_init pads wo m N sys iod = Ok phy ->
  7 <= read_latency (settings phy)
  /\ 1 <= write_latency (settings phy)
  /\ cwl_sys_latency phy = write_latency (settings phy)
  /\ dqs_sys_latency phy =
       (if String.eqb m "DDR3" && negb wo
        then write_latency (settings phy)
        else write_latency (settings phy) - 1).
Proof.
  intros HN H.
  destruct (S7DDRPHY_init_inv _ _ _ _ _ _ _ HN H)
    as (tck & tap & cl & cwl & cls & cwls & rdc & rd & wrc & wr & _ & _ & _
        & _ & _ & _ & _ & _ & ? & ? & _ & _ & _ & _ & E & _ & _ & E1 & E2).
  rewrite E, E1, E2. cbn [read_latency write_latency].
  repeat split; lia.
Qed.

(** C3 (amended).  With write leveling off, the read-enable flag of the
    read phase goes through the [read_latency - 1] registers of the
    [n_rddata_en] chain and then through the [rddata_valid] register of
    every DFI phase (the bus has four, the [N] in use among them): all
    phases show, in cycle [t], the flag of cycle [t - read_latency].  A pulse injected in cycle [T] is at the end of the
    chain in cycle [T + read_latency - 1] and valid on all phases in cycle
    [T + read_latency], and in no other cycle. *)
Theorem rddata_valid_after_read_latency
    idelaye2 pads wo m N sys iod phy (ins : nat -> Inputs) :
  supported N ->
  S7DDRPHY_init pads wo m N sys iod = Ok phy ->
  wlevel_off phy ins ->
  let RL := Z.to_nat (read_latency (settings phy)) in
  forall t,
    List.length (n_rddata_en (run idelaye2 phy ins t)) = (RL - 1)%nat
    /\ rddata_valid (run idelaye2 phy ins t) =
         repeat (delayed (fun u => rdphase_en phy (ins u)) RL t) dfi_nphases
    /\ forall T, (forall u, rdphase_en phy (ins u) = Nat.eqb u T) ->
         last (n_rddata_en (run idelaye2 phy ins t)) false
         = Nat.eqb t (T + RL - 1)
         /\ forall p, (p < dfi_nphases)%nat ->
              nth p (rddata_valid (run idelaye2 phy ins t)) false
              = Nat.eqb t (T + RL).
Proof.
  intros HN H Hoff RL t.
  destruct (constructed_latencies _ _ _ _ _ _ _ HN H) as (HRL & _).
  assert (ERL : RL = S (Z.to_nat (read_latency (settings phy) - 1)))
    by (unfold RL; lia).
  split; [rewrite chain_length; lia|].
  assert (V := rddata_valid_delay idelaye2 phy ins t Hoff).
  rewrite <- ERL in V. split; [exact V|].
  intros T HT.
  assert (E : forall d, delayed (fun u => rdphase_en phy (ins u)) d t
                        = Nat.eqb t (T + d)).
  { intros d. rewrite <- (delayed_pulse T d t). unfold delayed.
    destruct (d <=? t)%nat; [apply HT|reflexivity]. }
  split.
  - rewrite chain_last by lia. rewrite E. f_equal. lia.
  - intros p Hp. rewrite V, nth_repeat_lt by exact Hp. apply E.
Qed.

Lemma rddata_valid_after_read_latency_witness :
  supported 4
  /\ A7DDRPHY_init pads16 "DDR3" 4 (mhz 100) (mhz 200) = Ok a7_ddr3
  /\ wlevel_off a7_ddr3 (rd_pulse 2 1)
  /\ nth 0 (rddata_valid (run idelaye2_variable a7_ddr3 (rd_pulse 2 1) 9))
         false = true.
Proof.
  assert (HN : supported 4) by (right; reflexivity).
  assert (HI : A7DDRPHY_init pads16 "DDR3" 4 (mhz 100) (mhz 200) = Ok a7_ddr3)
    by (vm_compute; reflexivity).
  assert (HW : wlevel_off a7_ddr3 (rd_pulse 2 1)) by (intros t; reflexivity).
  split; [exact HN|]. split; [exact HI|]. split; [exact HW|].
  destruct (rddata_valid_after_read_latency idelaye2_variable pads16 false
              "DDR3" 4 (mhz 100) (mhz 200) a7_ddr3 (rd_pulse 2 1) HN HI HW 9%nat)
    as (_ & _ & K).
  destruct (K 1%nat (fun u => eq_refl)) as [_ K'].
  rewrite K'; [reflexivity|]. unfold dfi_nphases. lia.
Defined.

(** C3 as stated fails: on the Artix-7 DDR3 PHY at 100 MHz with four
    phases ([read_latency = 8]) a pulse injected in cycle 1 is not valid in
    cycle [1 + 8 - 1]; it is valid in cycle [1 + 8]. *)
Lemma rddata_valid_not_one_cycle_earlier :
  A7DDRPHY_init pads16 "DDR3" 4 (mhz 100) (mhz 200) = Ok a7_ddr3
  /\ read_latency (settings a7_ddr3) = 8
  /\ rdphase_en a7_ddr3 (rd_pulse 2 1 1) = true
  /\ rddata_valid (run idelaye2_variable a7_ddr3 (rd_pulse 2 1) (1 + 8 - 1))
     = [false; false; false; false]
  /\ rddata_valid (run idelaye2_variable a7_ddr3 (rd_pulse 2 1) (1 + 8))
     = [true; true; true; true].
Proof. repeat split; vm_compute; reflexivity. Qed.

(** C4.  The output enable is the OR of bits [wl - 1], [wl] and [wl + 1] of
    [last_wrdata_en], a register of [wl + 2] bits that takes the write-enable
    flag of the write phase into bit 0 on every clock edge and moves the
    other bits up by one.  A flag pulsed in cycle [T] alone reaches position
    [i] in cycle [T + 1 + i], so the output enable rises exactly [wl] cycles
    after the pulse and holds during exactly the three consecutive cycles
    [T + wl], [T + wl + 1], [T + wl + 2], in the middle one of which the
    flag sits at the centre position [wl] of the window.  Outside
    write leveling the tri-state controls [oe_dq] and [oe_dqs] of the pins
    are [oe] registered once more. *)
Theorem oe_three_cycle_window
    idelaye2 pads wo m N sys iod phy (ins : nat -> Inputs) :
  supported N ->
  S7DDRPHY_init pads wo m N sys iod = Ok phy ->
  let wl := write_latency (settings phy) in
  let lw t := last_wrdata_en (run idelaye2 phy ins t) in
  (forall st, oe phy st =
                Z.testbit (last_wrdata_en st) (wl - 1)
                || Z.testbit (last_wrdata_en st) wl
                || Z.testbit (last_wrdata_en st) (wl + 1))
  /\ (forall t, Z.testbit (lw (S t)) 0 = wrphase_en phy (ins t))
  /\ (forall t i, 1 <= i < wl + 2 ->
        Z.testbit (lw (S t)) i = Z.testbit (lw t) (i - 1))
  /\ (forall t i, wl + 2 <= i -> Z.testbit (lw t) i = false)
  /\ (forall t, with_odelay phy && wlevel_en (csr (ins t)) = false ->
        oe_dq (run idelaye2 phy ins (S t)) = oe phy (run idelaye2 phy ins t)
        /\ oe_dqs (run idelaye2 phy ins (S t))
           = oe phy (run idelaye2 phy ins t))
  /\ forall T, (forall u, wrphase_en phy (ins u) = Nat.eqb u T) ->
       (forall t, oe phy (run idelaye2 phy ins t) = true <->
                  (T + Z.to_nat wl <= t <= T + Z.to_nat wl + 2)%nat)
       /\ Z.testbit (lw (T + Z.to_nat wl + 1)%nat) wl = true.
Proof.
  intros HN H wl lw.
  destruct (constructed_latencies _ _ _ _ _ _ _ HN H) as (_ & Hwl & Ecwl & _).
  fold wl in Hwl, Ecwl.
  assert (Hn : 1 <= cwl_sys_latency phy + 2) by lia.
  split; [|split; [|split; [|split; [|split]]]].
  - intros st. unfold oe, Migen.bit. rewrite Ecwl.
    replace (wl - 1 <? 0) with false by (symmetry; apply Z.ltb_ge; lia).
    replace (wl <? 0) with false by (symmetry; apply Z.ltb_ge; lia).
    replace (wl + 1 <? 0) with false by (symmetry; apply Z.ltb_ge; lia).
    reflexivity.
  - intros t. unfold lw. cbn [run]. unfold step at 1. cbn [last_wrdata_en].
    now rewrite cat_shift_bit by lia.
  - intros t i Hi. unfold lw. cbn [run]. unfold step at 1. cbn [last_wrdata_en].
    rewrite cat_shift_bit by lia.
    replace (i =? 0) with false by (symmetry; apply Z.eqb_neq; lia).
    replace (i <? cwl_sys_latency phy + 2) with true
      by (symmetry; apply Z.ltb_lt; lia).
    apply andb_true_r.
  - intros t i Hi. unfold lw. rewrite <- (Z2Nat.id i) by lia.
    rewrite (history_bit idelaye2 phy ins Hn).
    replace (Z.of_nat (Z.to_nat i) <? cwl_sys_latency phy + 2) with false
      by (symmetry; apply Z.ltb_ge; lia).
    apply andb_false_r.
  - intros t Hoff. cbn [run].
    set (s := run idelaye2 phy ins t). unfold step. cbn [oe_dq oe_dqs].
    rewrite Hoff. split; reflexivity.
  - intros T HT. split.
    + intros t.
      rewrite (oe_delay idelaye2 phy ins Hn t) by lia. rewrite Ecwl. fold wl.
      assert (E : forall d, delayed (fun u => wrphase_en phy (ins u)) d t
                            = Nat.eqb t (T + d)).
      { intros d. rewrite <- (delayed_pulse T d t). unfold delayed.
        destruct (d <=? t)%nat; [apply HT|reflexivity]. }
      rewrite !E, !orb_true_iff, !Nat.eqb_eq. lia.
    + unfold lw. rewrite <- (Z2Nat.id wl) at 2 by lia.
      rewrite (history_bit idelaye2 phy ins Hn).
      replace (Z.of_nat (Z.to_nat wl) <? cwl_sys_latency phy + 2) with true
        by (symmetry; apply Z.ltb_lt; lia).
      rewrite andb_true_r.
      replace (T + Z.to_nat wl + 1)%nat with (S (Z.to_nat wl) + T)%nat by lia.
      unfold delayed.
      replace (S (Z.to_nat wl) <=? S (Z.to_nat wl) + T)%nat with true
        by (symmetry; apply Nat.leb_le; lia).
      rewrite HT. apply Nat.eqb_eq. lia.
Qed.

Lemma oe_three_cycle_window_witness :
  supported 4
  /\ A7DDRPHY_init pads16 "DDR3" 4 (mhz 100) (mhz 200) = Ok a7_ddr3
  /\ forall t, oe a7_ddr3 (run idelaye2_variable a7_ddr3 (wr_pulse 3 1) t) = true
               <-> (1 + 2 <= t <= 1 + 2 + 2)%nat.
Proof.
  assert (HN : supported 4) by (right; reflexivity).
  assert (HI : A7DDRPHY_init pads16 "DDR3" 4 (mhz 100) (mhz 200) = Ok a7_ddr3)
    by (vm_compute; reflexivity).
  split; [exact HN|]. split; [exact HI|].
  destruct (oe_three_cycle_window idelaye2_variable pads16 false
              "DDR3" 4 (mhz 100) (mhz 200) a7_ddr3 (wr_pulse 3 1) HN HI)
    as (_ & _ & _ & _ & _ & K).
  destruct (K 1%nat (fun u => eq_refl)) as [K' _]. exact K'.
Defined.

(** C5 (amended).  The strobe flags look at [dqs_sys_latency], which is
    [write_latency] on DDR3 without output delay lines and
    [write_latency - 1] otherwise: the preamble holds exactly when history
    bit [dqs_sys_latency - 1] is set and bit [dqs_sys_latency] is clear, the
    postamble exactly when bit [dqs_sys_latency + 1] is set and bit
    [dqs_sys_latency] is clear (for [dqs_sys_latency >= 1]). *)
Theorem dqs_pre_postamble_bits pads wo m N sys iod phy :
  supported N ->
  S7DDRPHY_init pads wo m N sys iod = Ok phy ->
  let wl := write_latency (settings phy) in
  let d := dqs_sys_latency phy in
  d = (if String.eqb m "DDR3" && negb wo then wl else wl - 1)
  /\ (1 <= d -> forall st,
        dqs_preamble phy st =
          Z.testbit (last_wrdata_en st) (d - 1)
          && negb (Z.testbit (last_wrdata_en st) d)
        /\ dqs_postamble phy st =
          Z.testbit (last_wrdata_en st) (d + 1)
          && negb (Z.testbit (last_wrdata_en st) d)).
Proof.
  intros HN H wl d.
  destruct (constructed_latencies _ _ _ _ _ _ _ HN H) as (_ & Hwl & Ecwl & Ed).
  split; [exact Ed|]. intros Hd st.
  unfold dqs_preamble, dqs_postamble, Migen.bit. fold d.
  replace (d - 1 <? 0) with false by (symmetry; apply Z.ltb_ge; lia).
  replace (d <? 0) with false by (symmetry; apply Z.ltb_ge; lia).
  replace (d + 1 <? 0) with false by (symmetry; apply Z.ltb_ge; lia).
  split; reflexivity.
Qed.

Lemma dqs_pre_postamble_bits_witness :
  supported 4
  /\ A7DDRPHY_init pads16 "DDR3" 4 (mhz 100) (mhz 200) = Ok a7_ddr3
  /\ 1 <= dqs_sys_latency a7_ddr3
  /\ forall st, dqs_preamble a7_ddr3 st =
       Z.testbit (last_wrdata_en st) 1 && negb (Z.testbit (last_wrdata_en st) 2).
Proof.
  assert (HN : supported 4) by (right; reflexivity).
  assert (HI : A7DDRPHY_init pads16 "DDR3" 4 (mhz 100) (mhz 200) = Ok a7_ddr3)
    by (vm_compute; reflexivity).
  assert (HD : 1 <= dqs_sys_latency a7_ddr3) by (cbn; lia).
  split; [exact HN|]. split; [exact HI|]. split; [exact HD|].
  intros st.
  destruct (dqs_pre_postamble_bits pads16 false "DDR3" 4 (mhz 100) (mhz 200)
              a7_ddr3 HN HI) as (_ & K).
  exact (proj1 (K HD st)).
Defined.

(** C5 as stated fails on both variants.  Without output delay lines a
    lone write-enable flag at position [wl - 2] (one before the window)
    raises no preamble; with them, a two-cycle burst at positions [wl - 2]
    and [wl - 1] raises none either, though bit [wl] is clear.  The bit one
    position after the window does not exist, while the postamble does
    assert. *)
Lemma dqs_flags_differ_from_wording :
  A7DDRPHY_init pads16 "DDR3" 4 (mhz 100) (mhz 200) = Ok a7_ddr3
  /\ K7DDRPHY_init pads16 "DDR3" 4 (mhz 100) (mhz 200) = Ok k7_ddr3
  /\ (let st := run idelaye2_variable a7_ddr3 (wr_pulse 3 1) 2 in
      last_wrdata_en st = 1
      /\ worded_preamble a7_ddr3 st = true
      /\ dqs_preamble a7_ddr3 st = false)
  /\ (let st := run idelaye2_variable k7_ddr3 (wr_burst 3 0 2) 2 in
      last_wrdata_en st = 3
      /\ worded_preamble k7_ddr3 st = true
      /\ dqs_preamble k7_ddr3 st = false)
  /\ (let st := run idelaye2_variable a7_ddr3 (wr_pulse 3 1) 5 in
      last_wrdata_en st = 8
      /\ worded_postamble a7_ddr3 st = false
      /\ dqs_postamble a7_ddr3 st = true).
Proof. repeat split; vm_compute; reflexivity. Qed.

(** With [dqs_sys_latency = 0] (DDR2, and DDR3 with output delay lines, at
    [write_latency = 1]) the index [dqs_sys_latency - 1] is [-1], which
    selects the top bit of the history. *)
Remark dqs_preamble_at_zero (phy : S7DDRPHY) (st : State) :
  dqs_sys_latency phy = 0 -> 1 <= cwl_sys_latency phy ->
  dqs_preamble phy st =
    Z.testbit (last_wrdata_en st) (cwl_sys_latency phy + 1)
    && negb (Z.testbit (last_wrdata_en st) 0).
Proof.
  intros Hd Hw. unfold dqs_preamble, Migen.bit. rewrite Hd.
  change (0 - 1 <? 0) with true. change (0 <? 0) with false. cbn iota.
  replace (0 - 1 + (cwl_sys_latency phy + 2)) with (cwl_sys_latency phy + 1)
    by lia.
  reflexivity.
Qed.

(** ** Calibration: per-pin registers *)

Lemma per_pin_length f l : List.length (per_pin f l) = List.length l.
Proof. unfold per_pin. now rewrite length_map, length_seq. Qed.

Lemma per_pin_nth f l pin :
  (pin < List.length l)%nat -> nth pin (per_pin f l) 0 = f pin (nth pin l 0).
Proof.
  intros H. unfold per_pin.
  rewrite (nth_indep _ 0 (f 0%nat (nth 0 l 0)))
    by (now rewrite length_map, length_seq).
  rewrite (map_nth (fun i => f i (nth i l 0)) (seq 0 (List.length l)) 0%nat pin).
  now rewrite seq_nth.
Qed.

Section Calibration.
Variable idelaye2 : bool -> bool -> bool -> Z -> Z.
Variable phy : S7DDRPHY.


Lemma step_is_pin st ins pin : is_pin st pin -> is_pin (step idelaye2 phy st ins) pin.
Proof.
  unfold is_pin, step. cbn [dq_bitslip_value dq_idelay_tap].
  now rewrite !per_pin_length.
Qed.

Lemma step_bitslip st ins pin :
  is_pin st pin ->
  bitslip_of (step idelaye2 phy st ins) pin =
    bitslip_next (selected ins pin) (rdly_dq_bitslip_rst (csr ins))
                 (rdly_dq_bitslip (csr ins)) (bitslip_of st pin).
Proof.
  intros [H _]. unfold bitslip_of, step. cbn [dq_bitslip_value].
  now rewrite per_pin_nth.
Qed.

Lemma step_tap st ins pin :
  is_pin st pin ->
  tap_of (step idelaye2 phy st ins) pin =
    idelaye2 (selected ins pin && rdly_dq_rst (csr ins))
             (selected ins pin && rdly_dq_inc (csr ins)) true (tap_of st pin).
Proof.
  intros [_ H]. unfold tap_of, step. cbn [dq_idelay_tap].
  now rewrite per_pin_nth.
Qed.

(** A pin's registers evolve on their own: two states that agree on a pin
    keep agreeing under the same inputs. *)
Lemma steps_pin_local st1 st2 pin l :
  is_pin st1 pin -> is_pin st2 pin ->
  bitslip_of st1 pin = bitslip_of st2 pin ->
  tap_of st1 pin = tap_of st2 pin ->
  bitslip_of (steps idelaye2 phy st1 l) pin = bitslip_of (steps idelaye2 phy st2 l) pin
  /\ tap_of (steps idelaye2 phy st1 l) pin = tap_of (steps idelaye2 phy st2 l) pin.
Proof.
  revert st1 st2. induction l as [|i l IH]; intros st1 st2 P1 P2 Hb Ht.
  - now split.
  - cbn [steps fold_left]. apply IH; try now apply step_is_pin.
    + now rewrite !step_bitslip, Hb.
    + now rewrite !step_tap, Ht.
Qed.

(** Between resets the rotation counts the increment pulses modulo the
    window width; cycles without a pulse for the pin leave it alone. *)
Lemma bitslip_counts st pin l :
  is_pin st pin ->
  0 <= bitslip_of st pin < bitslip_width ->
  (forall ins, In ins l -> bitslip_resetb ins pin = false) ->
  bitslip_of (steps idelaye2 phy st l) pin =
    (bitslip_of st pin + Z.of_nat (inc_count l pin)) mod bitslip_width.
Proof.
  revert st. induction l as [|i l IH]; intros st P B R.
  - cbn. rewrite Z.add_0_r. symmetry. now apply Z.mod_small.
  - cbn [steps fold_left]. fold (steps idelaye2 phy (step idelaye2 phy st i) l).
    assert (Ri : bitslip_resetb i pin = false) by (apply R; now left).
    assert (E : bitslip_of (step idelaye2 phy st i) pin =
                if bitslip_incb i pin
                then (bitslip_of st pin + 1) mod bitslip_width
                else bitslip_of st pin).
    { rewrite step_bitslip by assumption.
      unfold bitslip_next, bitslip_incb, bitslip_resetb in *.
      destruct (selected i pin); [|reflexivity]. cbn [andb] in *.
      rewrite Ri. reflexivity. }
    rewrite IH; [|now apply step_is_pin| |intros j Hj; apply R; now right].
    + rewrite E. unfold inc_count. cbn [filter].
      destruct (bitslip_incb i pin); cbn [List.length].
      * rewrite Zplus_mod_idemp_l. f_equal. lia.
      * reflexivity.
    + rewrite E. destruct (bitslip_incb i pin); [|exact B].
      apply Z.mod_pos_bound. reflexivity.
Qed.

End Calibration.

(** ** Calibration registers *)

Section CalibrationClaims.
Variable idelaye2 : bool -> bool -> bool -> Z -> Z.
Variable phy : S7DDRPHY.

(** C6.  On a pin whose lane is selected, an increment pulse takes the
    bitslip rotation to its successor modulo 8 and a reset pulse takes it
    to 0; after a reset, any run of cycles that brings the pin 8 increment
    pulses and no reset, idle cycles in between or not, ends at 0 again, the
    value right after the reset. *)
Theorem bitslip_cyclic_mod_8 (st : State) (pin : nat) :
  is_pin st pin ->
  (forall ins, bitslip_inc_pulse ins pin ->
     bitslip_of (step idelaye2 phy st ins) pin = (bitslip_of st pin + 1) mod 8)
  /\ (forall ins, bitslip_reset_pulse ins pin ->
        bitslip_of (step idelaye2 phy st ins) pin = 0)
  /\ (forall r l,
        bitslip_reset_pulse r pin ->
        (forall ins, In ins l -> bitslip_resetb ins pin = false) ->
        inc_count l pin = 8%nat ->
        bitslip_of (steps idelaye2 phy st (r :: l)) pin = 0
        /\ bitslip_of (steps idelaye2 phy st (r :: l)) pin
           = bitslip_of (step idelaye2 phy st r) pin).
Proof.
  intros P.
  assert (R : forall ins, bitslip_reset_pulse ins pin ->
                bitslip_of (step idelaye2 phy st ins) pin = 0).
  { intros ins [Hs Hr]. rewrite step_bitslip by assumption.
    unfold bitslip_next. now rewrite Hs, Hr. }
  split; [|split; [exact R|]].
  - intros ins [Hs [Hr Hi]]. rewrite step_bitslip by assumption.
    unfold bitslip_next. now rewrite Hs, Hr, Hi.
  - intros r l Hr F L.
    assert (E : bitslip_of (steps idelaye2 phy st (r :: l)) pin = 0).
    { cbn [steps fold_left]. fold (steps idelaye2 phy (step idelaye2 phy st r) l).
      rewrite bitslip_counts; try assumption.
      - rewrite (R r Hr), L. reflexivity.
      - now apply step_is_pin.
      - rewrite (R r Hr). unfold bitslip_width. lia. }
    split; [exact E|]. now rewrite E, (R r Hr).
Qed.

(** C10.  When the reset and the increment strobe of the bitslip come in
    the same cycle on a selected pin, the rotation becomes 0, and nothing
    of the increment survives: then and after any further inputs the pin is
    as if the increment strobe had not been there. *)
Theorem bitslip_reset_wins (st : State) (ins : Inputs) (pin : nat) :
  is_pin st pin ->
  selected ins pin = true ->
  rdly_dq_bitslip_rst (csr ins) = true ->
  rdly_dq_bitslip (csr ins) = true ->
  bitslip_of (step idelaye2 phy st ins) pin = 0
  /\ forall rest,
       bitslip_of (steps idelaye2 phy st (ins :: rest)) pin
       = bitslip_of (steps idelaye2 phy st (without_bitslip_inc ins :: rest)) pin.
Proof.
  intros P Hs Hr Hi.
  assert (E : forall i, selected i pin = true ->
                rdly_dq_bitslip_rst (csr i) = true ->
                bitslip_of (step idelaye2 phy st i) pin = 0).
  { intros i Hsi Hri. rewrite step_bitslip by assumption.
    unfold bitslip_next. now rewrite Hsi, Hri. }
  split; [now apply E|].
  intros rest. cbn [steps fold_left].
  apply steps_pin_local; try now apply step_is_pin.
  - rewrite (E ins Hs Hr). symmetry. now apply E.
  - now rewrite !step_tap.
Qed.

(** The vendor primitive holds its tap while neither [LD] nor [CE] is
    asserted. *)
Hypothesis idelaye2_hold : forall inc tap, idelaye2 false false inc tap = tap.

(** C7.  A cycle whose lane-select mask excludes lane [k] does nothing to
    the pins of lane [k], whatever strobes it carries: their input delay tap
    and bitslip rotation keep their values, and after any further inputs
    they are what they would be had that cycle not happened, so the strobe
    is dropped and not queued.  The pins of the lanes the mask selects see
    the strobes: their rotation is reset or incremented and their
    [IDELAYE2] gets [LD] and [CE]. *)
Theorem masked_lane_untouched (st : State) (ins : Inputs) (k : Z) (pin : nat) :
  is_pin st pin ->
  lane_of pin = k ->
  Z.testbit (dly_sel (csr ins)) k = false ->
  bitslip_of (step idelaye2 phy st ins) pin = bitslip_of st pin
  /\ tap_of (step idelaye2 phy st ins) pin = tap_of st pin
  /\ (forall rest,
        bitslip_of (steps idelaye2 phy st (ins :: rest)) pin
        = bitslip_of (steps idelaye2 phy st rest) pin
        /\ tap_of (steps idelaye2 phy st (ins :: rest)) pin
           = tap_of (steps idelaye2 phy st rest) pin)
  /\ (forall other, is_pin st other ->
        Z.testbit (dly_sel (csr ins)) (lane_of other) = true ->
        bitslip_of (step idelaye2 phy st ins) other
        = (if rdly_dq_bitslip_rst (csr ins) then 0
           else if rdly_dq_bitslip (csr ins)
                then (bitslip_of st other + 1) mod 8
                else bitslip_of st other)
        /\ tap_of (step idelaye2 phy st ins) other
           = idelaye2 (rdly_dq_rst (csr ins)) (rdly_dq_inc (csr ins)) true
                      (tap_of st other)).
Proof.
  intros P Hk Hoff.
  assert (Hs : selected ins pin = false)
    by (unfold selected, lane_sel; now rewrite Hk).
  assert (Eb : bitslip_of (step idelaye2 phy st ins) pin = bitslip_of st pin).
  { rewrite step_bitslip by assumption. now rewrite Hs. }
  assert (Et : tap_of (step idelaye2 phy st ins) pin = tap_of st pin).
  { rewrite step_tap by assumption. rewrite Hs. apply idelaye2_hold. }
  split; [exact Eb|]. split; [exact Et|]. split.
  - intros rest. cbn [steps fold_left].
    apply steps_pin_local; try assumption. now apply step_is_pin.
  - intros other Po Hon. split.
    + rewrite step_bitslip by assumption. unfold selected, lane_sel.
      now rewrite Hon.
    + rewrite step_tap by assumption. unfold selected, lane_sel.
      now rewrite Hon.
Qed.

End CalibrationClaims.

Lemma bitslip_cyclic_mod_8_witness :
  let st := reset a7_ddr3 in
  is_pin st 3
  /\ bitslip_of (steps idelaye2_variable a7_ddr3 st
                   (cal 1 false false true false
                    :: repeat (cal 1 false false false true) 3
                    ++ cal 0 false false false false
                    :: repeat (cal 1 false false false true) 5)) 3 = 0.
Proof.
  assert (P : is_pin (reset a7_ddr3) 3) by (split; apply Nat.ltb_lt; vm_compute; reflexivity).
  split; [exact P|].
  destruct (bitslip_cyclic_mod_8 idelaye2_variable a7_ddr3 (reset a7_ddr3) 3 P)
    as (_ & _ & K).
  apply K.
  - split; reflexivity.
  - intros ins Hin. cbn in Hin.
    repeat (destruct Hin as [<-|Hin]; [reflexivity|]). destruct Hin.
  - reflexivity.
Defined.

Lemma bitslip_reset_wins_witness :
  let st := step idelaye2_variable a7_ddr3 (reset a7_ddr3)
              (cal 1 false false false true) in
  is_pin st 3
  /\ bitslip_of st 3 = 1
  /\ bitslip_of (step idelaye2_variable a7_ddr3 st
                   (cal 1 false false true true)) 3 = 0.
Proof.
  set (st := step idelaye2_variable a7_ddr3 (reset a7_ddr3)
               (cal 1 false false false true)).
  assert (P : is_pin st 3) by (split; apply Nat.ltb_lt; vm_compute; reflexivity).
  split; [exact P|]. split; [reflexivity|].
  exact (proj1 (bitslip_reset_wins idelaye2_variable a7_ddr3 st
                  (cal 1 false false true true) 3 P eq_refl eq_refl eq_refl)).
Defined.

Lemma masked_lane_untouched_witness :
  let st := reset a7_ddr3 in
  let ins := cal 1 false true false true in
  (forall inc tap, idelaye2_variable false false inc tap = tap)
  /\ is_pin st 9 /\ lane_of 9 = 1
  /\ Z.testbit (dly_sel (csr ins)) 1 = false
  /\ bitslip_of (step idelaye2_variable a7_ddr3 st ins) 9 = bitslip_of st 9
  /\ tap_of (step idelaye2_variable a7_ddr3 st ins) 9 = tap_of st 9.
Proof.
  assert (Hh : forall inc tap, idelaye2_variable false false inc tap = tap)
    by (intros inc tap; reflexivity).
  assert (P : is_pin (reset a7_ddr3) 9) by (split; apply Nat.ltb_lt; vm_compute; reflexivity).
  split; [exact Hh|]. split; [exact P|].
  split; [reflexivity|]. split; [reflexivity|].
  destruct (masked_lane_untouched idelaye2_variable a7_ddr3 Hh (reset a7_ddr3)
              (cal 1 false true false true) 1 9 P eq_refl eq_refl)
    as (Kb & Kt & _).
  split; [exact Kb|exact Kt].
Defined.

(** * Further properties *)

(** ** Timing resolver: order of the clock periods *)

Lemma float_le_trans (a b c : PyFloat.float) :
  SFleb a b = true -> SFleb b c = true -> SFleb a c = true.
Proof.
  unfold SFleb, SFcompare.
  destruct a as [sa|sa| |sa ma ea], b as [sb|sb| |sb mb eb],
           c as [sc|sc| |sc mc ec];
    try destruct sa; try destruct sb; try destruct sc;
    try (intros; reflexivity); try (intros; discriminate).
  all: rewrite !Pos.compare_cont_spec; cbn [Pos.switch_Eq];
    destruct (Z.compare_spec ea eb), (Z.compare_spec eb ec),
             (Z.compare_spec ea ec);
    try lia; try (intros; reflexivity); try (intros; discriminate);
    destruct (Pos.compare_spec ma mb), (Pos.compare_spec mb mc),
             (Pos.compare_spec ma mc);
    cbn [CompOpp];
    try lia; try (intros; reflexivity); try (intros; discriminate).
Qed.

Lemma qualifies_longer (t1 t2 f : PyFloat.float) :
  PyFloat.ge t2 t1 = true -> qualifies t1 f = true -> qualifies t2 f = true.
Proof.
  unfold qualifies, PyFloat.ge. intros H12 H1.
  exact (float_le_trans _ _ _ H1 H12).
Qed.

(** An entry that qualifies makes the scan stop at it or before it. *)
Lemma scan_items_some items tck j g w :
  nth_error items j = Some (g, w) -> qualifies tck g = true ->
  exists i f v, (i <= j)%nat /\ first_match items tck i f v.
Proof.
  revert j. induction items as [|[f [c u]] rest IH]; intros j Hj Hq.
  - destruct j; discriminate.
  - destruct (qualifies tck f) eqn:Q.
    + exists 0%nat, f, (c, u). split; [lia|]. repeat split; auto.
      intros k h x Hk. lia.
    + destruct j as [|j]; [simpl in Hj; inversion Hj; subst; congruence|].
      simpl in Hj. destruct (IH j Hj Hq) as (i & f' & v & Hi & Hn & Hqf & Hfirst).
      exists (S i), f', v. split; [lia|]. repeat split; auto.
      intros [|k] h x Hk Hnth; simpl in Hnth.
      * inversion Hnth; subst. exact Q.
      * apply (Hfirst k h x); [lia|assumption].
Qed.

Lemma bins_nondecreasingb_sound items :
  bins_nondecreasingb items = true ->
  forall i j f g c w c' w', (i <= j)%nat ->
    nth_error items i = Some (f, (c, w)) ->
    nth_error items j = Some (g, (c', w')) -> c <= c' /\ w <= w'.
Proof.
  induction items as [|[f0 [c0 w0]] rest IH];
    intros H i j f g c w c' w' Hij Hi Hj.
  - destruct i; discriminate.
  - simpl in H. apply andb_prop in H as [Hall Hrest].
    destruct i as [|i]; simpl in Hi.
    + inversion Hi; subst. destruct j as [|j]; simpl in Hj.
      * inversion Hj; subst. lia.
      * rewrite forallb_forall in Hall.
        apply nth_error_In in Hj. specialize (Hall _ Hj). cbn in Hall.
        apply andb_prop in Hall as [A B].
        apply Z.leb_le in A, B. lia.
    + destruct j as [|j]; [lia|]. simpl in Hj.
      apply (IH Hrest i j f g c w c' w'); auto. lia.
Qed.

Lemma family_table m :
  m = "DDR2"%string \/ m = "DDR3"%string ->
  exists table, f_to_cl_cwl m = Ok table
    /\ bins_nondecreasingb table = true
    /\ threshold_lowest (fastest m) table = true
    /\ exists v, In (fastest m, v) table.
Proof.
  intros [-> | ->].
  - exists ddr2_table. split; [apply f_to_cl_cwl_ddr2|].
    split; [vm_compute; reflexivity|]. split; [vm_compute; reflexivity|].
    exists (7, 5). cbn. tauto.
  - exists ddr3_table. split; [apply f_to_cl_cwl_ddr3|].
    split; [vm_compute; reflexivity|]. split; [vm_compute; reflexivity|].
    exists (11, 8). cbn. tauto.
Qed.

Lemma get_cl_cw_family m tck v :
  get_cl_cw m tck = Ok v -> m = "DDR2"%string \/ m = "DDR3"%string.
Proof. destruct v as [c w]. intros H. exact (proj1 (get_cl_cw_ok _ _ _ _ H)). Qed.

(** X1.  A longer clock period never selects a faster bin: when
    [get_cl_cw] succeeds for [t1], it succeeds for every [t2 >= t1], with
    latencies that are not larger. *)
Theorem get_cl_cw_monotone (m : string) (t1 t2 : PyFloat.float) (cl1 cwl1 : Z) :
  PyFloat.ge t2 t1 = true ->
  get_cl_cw m t1 = Ok (cl1, cwl1) ->
  exists cl2 cwl2,
    get_cl_cw m t2 = Ok (cl2, cwl2) /\ cl2 <= cl1 /\ cwl2 <= cwl1.
Proof.
  intros H12 H1.
  destruct (family_table m (get_cl_cw_family _ _ _ H1))
    as (table & Htab & Hnd & _).
  unfold get_cl_cw in *. rewrite Htab in *. cbn [bind] in *.
  apply scan_items_ok in H1 as (i1 & f1 & Hn1 & Hq1 & _).
  destruct (scan_items_some table t2 i1 f1 (cl1, cwl1) Hn1
              (qualifies_longer _ _ _ H12 Hq1))
    as (i2 & f2 & [cl2 cwl2] & Hle & Hm2).
  exists cl2, cwl2. split.
  - apply scan_items_ok. now exists i2, f2.
  - destruct Hm2 as (Hn2 & _).
    exact (bins_nondecreasingb_sound table Hnd i2 i1 f2 f1 cl2 cwl2 cl1 cwl1
             Hle Hn2 Hn1).
Qed.

Lemma get_cl_cw_monotone_witness :
  PyFloat.ge (PyFloat.decimal 3 9) (PyFloat.decimal 16 10) = true
  /\ get_cl_cw "DDR3" (PyFloat.decimal 16 10) = Ok (10, 7)
  /\ exists cl2 cwl2, get_cl_cw "DDR3" (PyFloat.decimal 3 9) = Ok (cl2, cwl2)
                      /\ cl2 <= 10 /\ cwl2 <= 7.
Proof.
  assert (H12 : PyFloat.ge (PyFloat.decimal 3 9) (PyFloat.decimal 16 10) = true)
    by (vm_compute; reflexivity).
  assert (H1 : get_cl_cw "DDR3" (PyFloat.decimal 16 10) = Ok (10, 7))
    by (vm_compute; reflexivity).
  split; [exact H12|]. split; [exact H1|].
  exact (get_cl_cw_monotone "DDR3" _ _ 10 7 H12 H1).
Defined.

(** X2.  [get_cl_cw] raises nothing but [ValueError].  For DDR2 and DDR3
    it succeeds exactly when the clock period reaches the threshold [2/f] of
    the fastest bin of the family (1066 MHz, 1600 MHz); a NaN period reaches
    none.  Any other family fails whatever the period. *)
Theorem get_cl_cw_succeeds_iff (m : string) (tck : PyFloat.float) :
  (forall e, get_cl_cw m tck = Raise e -> e = ValueError)
  /\ (m = "DDR2"%string \/ m = "DDR3"%string ->
      ((exists v, get_cl_cw m tck = Ok v) <-> qualifies tck (fastest m) = true))
  /\ (m <> "DDR2"%string -> m <> "DDR3"%string ->
      get_cl_cw m tck = Raise ValueError)
  /\ (tck = S754_nan -> get_cl_cw m tck = Raise ValueError).
Proof.
  split; [|split; [|split]].
  - intros e. unfold get_cl_cw, f_to_cl_cwl.
    destruct (String.eqb m "DDR2"); cbn [bind];
      [intros H; exact (proj1 (scan_items_raise _ _ _ H))|].
    destruct (String.eqb m "DDR3"); cbn [bind];
      [intros H; exact (proj1 (scan_items_raise _ _ _ H))|congruence].
  - intros Hm. destruct (family_table m Hm) as (table & Htab & _ & Hlow & v0 & Hin).
    unfold get_cl_cw. rewrite Htab. cbn [bind]. split.
    + intros (v & Hv). apply scan_items_ok in Hv as (i & f & Hn & Hq & _).
      unfold threshold_lowest in Hlow. rewrite forallb_forall in Hlow.
      apply nth_error_In in Hn. specialize (Hlow _ Hn). cbn [fst] in Hlow.
      unfold qualifies, PyFloat.ge in *.
      exact (float_le_trans _ _ _ Hlow Hq).
    + intros Hq. apply In_nth_error in Hin as (j & Hj).
      destruct (scan_items_some table tck j (fastest m) v0 Hj Hq)
        as (i & f & v & _ & Hm').
      exists v. apply scan_items_ok. now exists i, f.
  - intros H2 H3. unfold get_cl_cw. now rewrite f_to_cl_cwl_other.
  - intros ->. unfold get_cl_cw, f_to_cl_cwl.
    destruct (String.eqb m "DDR2"); [reflexivity|].
    destruct (String.eqb m "DDR3"); reflexivity.
Qed.

Lemma get_cl_cw_succeeds_iff_witness :
  ("DDR2" = "DDR2" \/ "DDR2" = "DDR3")%string
  /\ qualifies (PyFloat.decimal 2 9) (fastest "DDR2") = true
  /\ exists v, get_cl_cw "DDR2" (PyFloat.decimal 2 9) = Ok v.
Proof.
  assert (Hm : ("DDR2" = "DDR2" \/ "DDR2" = "DDR3")%string) by (left; reflexivity).
  assert (Hq : qualifies (PyFloat.decimal 2 9) (fastest "DDR2") = true)
    by (vm_compute; reflexivity).
  split; [exact Hm|]. split; [exact Hq|].
  destruct (get_cl_cw_succeeds_iff "DDR2" (PyFloat.decimal 2 9)) as (_ & K & _).
  exact (proj2 (K Hm) Hq).
Defined.

(** ** Latency planner: every power-of-two phase count *)

Lemma div_core_pow2 L k :
  1 <= L < 2 ^ 53 -> 0 <= k <= 64 ->
  SFdiv_core_binary 53 1024 L 0 (2 ^ k) 0 =
    (L * 2 ^ (53 - Z.log2 L), Z.log2 L - k - 53, loc_Exact).
Proof.
  intros HL Hk. unfold SFdiv_core_binary.
  assert (Hlog : 0 <= Z.log2 L < 53).
  { split. apply Z.log2_nonneg. apply Z.log2_lt_pow2; lia. }
  assert (P : 0 < 2 ^ k) by (apply Z.pow_pos_nonneg; lia).
  rewrite (Zdigits2_log2 L) by lia.
  rewrite (Zdigits2_log2 (2 ^ k)) by exact P.
  rewrite Z.log2_pow2 by lia.
  unfold fexp, emin.
  replace (Z.min _ _) with (Z.log2 L - k - 53) by lia.
  replace (0 - 0 - (Z.log2 L - k - 53)) with (53 + k - Z.log2 L) by lia.
  destruct (53 + k - Z.log2 L) as [|s|s] eqn:Es; try lia.
  rewrite Z.shiftl_mul_pow2 by lia.
  assert (Hdiv : Z.div_eucl (L * 2 ^ Z.pos s) (2 ^ k)
                 = (L * 2 ^ (53 - Z.log2 L), 0)).
  { replace (L * 2 ^ Z.pos s) with (L * 2 ^ (53 - Z.log2 L) * 2 ^ k).
    2:{ rewrite <- Z.mul_assoc, <- Z.pow_add_r by lia. f_equal. f_equal. lia. }
    pose proof (Z.div_mul (L * 2 ^ (53 - Z.log2 L)) (2 ^ k) ltac:(lia)) as D.
    pose proof (Z.mod_mul (L * 2 ^ (53 - Z.log2 L)) (2 ^ k) ltac:(lia)) as M.
    unfold Z.div, Z.modulo in D, M.
    destruct (Z.div_eucl (L * 2 ^ (53 - Z.log2 L) * 2 ^ k) (2 ^ k)) as [q r].
    cbn [fst snd] in *. congruence. }
  rewrite Hdiv. f_equal.
  unfold new_location, new_location_even, new_location_odd.
  destruct (Z.even (2 ^ k)); reflexivity.
Qed.

Lemma int_true_div_pow2_gen L k :
  1 <= L < 2 ^ 53 -> 0 <= k <= 64 ->
  PyFloat.int_true_div L (2 ^ k) =
    Ok (S754_finite false (Z.to_pos (L * 2 ^ (52 - Z.log2 L)))
                    (Z.log2 L - k - 52)).
Proof.
  intros HL Hk.
  destruct L as [|l|l]; try lia.
  assert (Hlog : 0 <= Z.log2 (Z.pos l) < 53).
  { split. apply Z.log2_nonneg. apply Z.log2_lt_pow2; lia. }
  assert (P : 0 < 2 ^ k) by (apply Z.pow_pos_nonneg; lia).
  assert (Q : 0 < 2 ^ (52 - Z.log2 (Z.pos l))) by (apply Z.pow_pos_nonneg; lia).
  assert (R : 0 < Z.pos l * 2 ^ (52 - Z.log2 (Z.pos l))) by nia.
  unfold PyFloat.int_true_div.
  destruct (2 ^ k) as [|n|n] eqn:EN; try lia.
  cbn [Z.ltb Z.compare xorb Z.abs Z.to_pos].
  unfold SFdiv.
  rewrite <- EN. change PyFloat.prec with 53. change PyFloat.emax with 1024.
  rewrite div_core_pow2 by lia.
  replace (Z.pos l * 2 ^ (53 - Z.log2 (Z.pos l)))
    with (Z.pos (Z.to_pos (Z.pos l * 2 ^ (52 - Z.log2 (Z.pos l))))~0).
  2:{ rewrite Pos2Z.inj_xO, Z2Pos.id by exact R.
      replace (53 - Z.log2 (Z.pos l)) with (1 + (52 - Z.log2 (Z.pos l))) by lia.
      rewrite Z.pow_add_r by lia. lia. }
  cbn [xorb].
  rewrite round_aux_exact.
  - replace (Z.log2 (Z.pos l) - k - 53 + 1) with (Z.log2 (Z.pos l) - k - 52)
      by lia.
    reflexivity.
  - rewrite Z2Pos.id by exact R. rewrite Z.log2_mul_pow2 by lia. lia.
  - lia.
Qed.

Lemma ceil_div_pow2 L k :
  0 <= L < 2 ^ 53 -> 0 <= k <= 64 ->
  (q <- PyFloat.int_true_div L (2 ^ k) ;; PyFloat.ceil q)
  = Ok (- ((- L) / 2 ^ k)).
Proof.
  intros HL Hk.
  assert (P : 0 < 2 ^ k) by (apply Z.pow_pos_nonneg; lia).
  destruct (Z.eq_dec L 0) as [->|Hne].
  - unfold PyFloat.int_true_div. destruct (2 ^ k) eqn:E; try lia. reflexivity.
  - rewrite int_true_div_pow2_gen by lia. cbn [bind PyFloat.ceil].
    assert (Hlog : 0 <= Z.log2 L < 53).
    { split. apply Z.log2_nonneg. apply Z.log2_lt_pow2; lia. }
    assert (Q : 0 < 2 ^ (52 - Z.log2 L)) by (apply Z.pow_pos_nonneg; lia).
    rewrite Z2Pos.id by nia.
    destruct (Z.leb_spec 0 (Z.log2 L - k - 52)) as [Hge|Hlt].
    + assert (k = 0) as -> by lia. assert (Z.log2 L = 52) as -> by lia.
      cbn. rewrite Z.mul_1_r, Z.div_1_r. f_equal. lia.
    + replace (- (Z.log2 L - k - 52)) with (k + (52 - Z.log2 L)) by lia.
      rewrite Z.pow_add_r by lia.
      rewrite <- Z.mul_opp_l.
      rewrite Z.div_mul_cancel_r by lia. reflexivity.
Qed.

(** X3.  The planner as [__init__] chains it, for every power-of-two phase
    count [N = 2^k] (1, 2, 4, 8, ...) and every latency below [2^53]:
    [get_sys_latency] gives the ceiling of [L / N], and [get_sys_phases] on
    it gives a data phase and a command phase inside [0, N), the command
    phase being the one just before the data phase (cyclically), with
    [sys_latency * N = L + dat_phase]. *)
Theorem planner_power_of_two (k L : Z) :
  0 <= k <= 64 -> 1 <= L < 2 ^ 53 ->
  let N := 2 ^ k in
  exists s cmd_phase dat_phase,
    get_sys_latency N L = Ok s
    /\ get_sys_phases N s L = Ok (cmd_phase, dat_phase)
    /\ (s - 1) * N < L <= s * N
    /\ 0 <= dat_phase < N /\ 0 <= cmd_phase < N
    /\ (cmd_phase + 1) mod N = dat_phase
    /\ s * N = L + dat_phase.
Proof.
  intros Hk HL N.
  assert (P : 0 < N) by (apply Z.pow_pos_nonneg; lia).
  pose proof (ceil_bounds L N P) as B.
  set (s := - (- L / N)) in *.
  exists s, ((s * N - L - 1) mod N), (s * N - L).
  assert (N0 : (N =? 0) = false) by (apply Z.eqb_neq; lia).
  split; [apply ceil_div_pow2; lia|].
  split; [unfold get_sys_phases, py_mod; now rewrite N0|].
  split; [exact B|]. split; [lia|].
  split; [apply Z.mod_pos_bound; exact P|].
  split; [|lia].
  rewrite Zplus_mod_idemp_l.
  replace (s * N - L - 1 + 1) with (s * N - L) by lia.
  apply Z.mod_small. lia.
Qed.

Lemma planner_power_of_two_witness :
  0 <= 3 <= 64 /\ 1 <= 11 < 2 ^ 53
  /\ exists s c d, get_sys_latency 8 11 = Ok s
                   /\ get_sys_phases 8 s 11 = Ok (c, d) /\ 0 <= d < 8.
Proof.
  assert (Hk : 0 <= 3 <= 64) by lia.
  assert (HL : 1 <= 11 < 2 ^ 53) by lia.
  split; [exact Hk|]. split; [exact HL|].
  destruct (planner_power_of_two 3 11 Hk HL)
    as (s & c & d & H1 & H2 & _ & H3 & _).
  exists s, c, d. split; [exact H1|]. split; [exact H2|exact H3].
Defined.

(** X4.  [get_sys_phases] fails only for a phase count of 0, where the
    modulo raises [ZeroDivisionError], as does the division of
    [get_sys_latency].  For a positive phase count the command phase is
    always inside [0, N); the data phase is inside [0, N) exactly when
    [sys_latency] is the ceiling of [cas_latency / N], and is then the
    successor of the command phase modulo [N]. *)
Theorem get_sys_phases_range (N s L : Z) :
  (N = 0 -> get_sys_phases N s L = Raise ZeroDivisionError
            /\ get_sys_latency N L = Raise ZeroDivisionError)
  /\ (N <> 0 -> get_sys_phases N s L
                = Ok ((s * N - L - 1) mod N, s * N - L))
  /\ (0 < N -> 0 <= (s * N - L - 1) mod N < N
               /\ (0 <= s * N - L < N <-> (s - 1) * N < L <= s * N)
               /\ ((s - 1) * N < L <= s * N ->
                   ((s * N - L - 1) mod N + 1) mod N = s * N - L)).
Proof.
  split; [|split].
  - intros ->. split; [reflexivity|].
    unfold get_sys_latency, PyFloat.int_true_div. destruct L; reflexivity.
  - intros HN. unfold get_sys_phases, py_mod.
    replace (N =? 0) with false by (symmetry; apply Z.eqb_neq; exact HN).
    reflexivity.
  - intros HN. split; [apply Z.mod_pos_bound; exact HN|]. split; [nia|].
    intros B. rewrite Zplus_mod_idemp_l.
    replace (s * N - L - 1 + 1) with (s * N - L) by lia.
    apply Z.mod_small. nia.
Qed.

Lemma get_sys_phases_range_witness :
  0 < 4 /\ (2 - 1) * 4 < 6 <= 2 * 4
  /\ get_sys_phases 4 2 6 = Ok (1, 2).
Proof.
  split; [lia|]. split; [lia|].
  destruct (get_sys_phases_range 4 2 6) as (_ & K & _).
  rewrite K by lia. reflexivity.
Defined.

(** ** Flow control: bursts, idle bus, strobe framing *)

Lemma delayed_burst T len d t :
  delayed (in_burst T len) d t = in_burst (T + d) len t.
Proof.
  unfold delayed, in_burst.
  destruct (Nat.leb_spec d t), (Nat.leb_spec T (t - d)),
    (Nat.ltb_spec (t - d) (T + len)), (Nat.leb_spec (T + d) t),
    (Nat.ltb_spec t (T + d + len)); cbn; try reflexivity; lia.
Qed.

Lemma delayed_ext f g d t :
  (forall u, f u = g u) -> delayed f d t = delayed g d t.
Proof. intros E. unfold delayed. now rewrite E. Qed.

Lemma in_burst_true T len t :
  in_burst T len t = true <-> (T <= t < T + len)%nat.
Proof.
  unfold in_burst. rewrite andb_true_iff, Nat.leb_le, Nat.ltb_lt. tauto.
Qed.

Lemma in_burst_false T len t :
  in_burst T len t = false <-> ~ (T <= t < T + len)%nat.
Proof.
  pose proof (in_burst_true T len t) as E.
  destruct (in_burst T len t); split; intros; try discriminate; try tauto.
  intros F. apply E in F. discriminate.
Qed.

(** The two strobe flags in terms of the past write enables. *)
Lemma dqs_flags_delay idelaye2 phy (ins : nat -> Inputs) t :
  1 <= dqs_sys_latency phy <= cwl_sys_latency phy ->
  let d := Z.to_nat (dqs_sys_latency phy) in
  let wen := fun u => wrphase_en phy (ins u) in
  dqs_preamble phy (run idelaye2 phy ins t)
  = delayed wen d t && negb (delayed wen (S d) t)
  /\ dqs_postamble phy (run idelaye2 phy ins t)
     = delayed wen (S (S d)) t && negb (delayed wen (S d) t).
Proof.
  intros Hd d wen.
  assert (Hn : 1 <= cwl_sys_latency phy + 2) by lia.
  unfold dqs_preamble, dqs_postamble.
  rewrite !(bit_history idelaye2 phy ins Hn) by lia.
  replace (S (Z.to_nat (dqs_sys_latency phy - 1))) with d by (unfold d; lia).
  replace (S (Z.to_nat (dqs_sys_latency phy + 1))) with (S (S d))
    by (unfold d; lia).
  split; reflexivity.
Qed.

Lemma constructed_dqs pads wo m N sys iod phy :
  supported N ->
  S7DDRPHY_init pads wo m N sys iod = Ok phy ->
  1 <= cwl_sys_latency phy
  /\ cwl_sys_latency phy = write_latency (settings phy)
  /\ cwl_sys_latency phy - 1 <= dqs_sys_latency phy <= cwl_sys_latency phy.
Proof.
  intros HN H.
  destruct (constructed_latencies _ _ _ _ _ _ _ HN H) as (_ & Hwl & E & Ed).
  rewrite E. split; [exact Hwl|]. split; [reflexivity|].
  rewrite Ed. destruct (String.eqb m "DDR3" && negb wo); lia.
Qed.

(** X5.  For any DFI traffic the output enable of a constructed PHY in
    cycle [t] is the OR of the write-enable flags the write phase carried
    [wl], [wl + 1] and [wl + 2] cycles earlier ([wl] the write latency).
    It is therefore low whenever the [wl + 2] preceding cycles carried no
    write enable, and a write burst of [len] consecutive cycles starting in
    cycle [T] holds it during exactly the [len + 2] cycles
    [T + wl .. T + wl + len + 1]. *)
Theorem oe_follows_write_enables
    idelaye2 pads wo m N sys iod phy (ins : nat -> Inputs) :
  supported N ->
  S7DDRPHY_init pads wo m N sys iod = Ok phy ->
  let wl := Z.to_nat (write_latency (settings phy)) in
  let wen := fun u => wrphase_en phy (ins u) in
  (forall t, oe phy (run idelaye2 phy ins t)
             = delayed wen wl t || delayed wen (S wl) t
               || delayed wen (S (S wl)) t)
  /\ (forall t, (forall u, (u < t <= u + wl + 2)%nat -> wen u = false) ->
                oe phy (run idelaye2 phy ins t) = false)
  /\ (forall T len, (1 <= len)%nat -> (forall u, wen u = in_burst T len u) ->
        forall t, oe phy (run idelaye2 phy ins t) = true
                  <-> (T + wl <= t <= T + wl + len + 1)%nat).
Proof.
  intros HN H wl wen.
  destruct (constructed_dqs _ _ _ _ _ _ _ HN H) as (Hwl & E & _).
  assert (Hn : 1 <= cwl_sys_latency phy + 2) by lia.
  assert (G : forall t, oe phy (run idelaye2 phy ins t)
                        = delayed wen wl t || delayed wen (S wl) t
                          || delayed wen (S (S wl)) t).
  { intros t. rewrite (oe_delay idelaye2 phy ins Hn t Hwl). cbv zeta.
    rewrite E. reflexivity. }
  split; [exact G|]. split.
  - intros t Hidle. rewrite G.
    assert (D : forall d, (wl <= d <= wl + 2)%nat -> delayed wen d t = false).
    { intros d Hd. unfold delayed. destruct (Nat.leb_spec d t); [|reflexivity].
      apply Hidle. unfold wl in *. lia. }
    rewrite !D by lia. reflexivity.
  - intros T len Hlen Hb t. rewrite G.
    rewrite !(delayed_ext wen (in_burst T len)) by exact Hb.
    rewrite !delayed_burst, !orb_true_iff, !in_burst_true. lia.
Qed.

Lemma oe_follows_write_enables_witness :
  supported 4
  /\ K7DDRPHY_init pads16 "DDR3" 4 (mhz 100) (mhz 200) = Ok k7_ddr3
  /\ forall t, oe k7_ddr3 (run idelaye2_variable k7_ddr3 (wr_burst 3 5 4) t) = true
               <-> (5 + 2 <= t <= 5 + 2 + 4 + 1)%nat.
Proof.
  assert (HN : supported 4) by (right; reflexivity).
  assert (HI : K7DDRPHY_init pads16 "DDR3" 4 (mhz 100) (mhz 200) = Ok k7_ddr3)
    by (vm_compute; reflexivity).
  split; [exact HN|]. split; [exact HI|].
  destruct (oe_follows_write_enables idelaye2_variable pads16 true "DDR3" 4
              (mhz 100) (mhz 200) k7_ddr3 (wr_burst 3 5 4) HN HI)
    as (_ & _ & K).
  apply (K 5%nat 4%nat); [lia|intros u; reflexivity].
Defined.

(** X6.  Framing of a write burst by the strobe flags, for a constructed
    PHY with [dqs_sys_latency = d >= 1] and a burst of [len] cycles starting
    in cycle [T]: the preamble flag holds in cycle [T + d] and in no other,
    the postamble flag in cycle [T + d + len + 1] and in no other, and
    outside write leveling the strobe pattern is 0 in those two cycles and
    the toggling pattern 0b01010101 in every other cycle, the [len] cycles
    in between included. *)
Theorem dqs_burst_framing
    idelaye2 pads wo m N sys iod phy (ins : nat -> Inputs) (T len : nat) :
  supported N ->
  S7DDRPHY_init pads wo m N sys iod = Ok phy ->
  1 <= dqs_sys_latency phy ->
  (1 <= len)%nat ->
  (forall u, wrphase_en phy (ins u) = in_burst T len u) ->
  let d := Z.to_nat (dqs_sys_latency phy) in
  forall t,
    (dqs_preamble phy (run idelaye2 phy ins t) = true <-> t = (T + d)%nat)
    /\ (dqs_postamble phy (run idelaye2 phy ins t) = true
        <-> t = (T + d + len + 1)%nat)
    /\ (with_odelay phy && wlevel_en (csr (ins t)) = false ->
        dqs_serdes_pattern phy (run idelaye2 phy ins t) (csr (ins t))
        = if Nat.eqb t (T + d) || Nat.eqb t (T + d + len + 1) then 0 else 85).
Proof.
  intros HN H Hd Hlen Hb d t.
  destruct (constructed_dqs _ _ _ _ _ _ _ HN H) as (Hwl & _ & Hrange).
  destruct (dqs_flags_delay idelaye2 phy ins t (conj Hd (proj2 Hrange)))
    as [Epre Epost].
  fold d in Epre, Epost.
  rewrite (delayed_ext _ (in_burst T len) d t Hb),
    (delayed_ext _ (in_burst T len) (S d) t Hb), !delayed_burst in Epre.
  rewrite (delayed_ext _ (in_burst T len) (S (S d)) t Hb),
    (delayed_ext _ (in_burst T len) (S d) t Hb), !delayed_burst in Epost.
  assert (Ppre : dqs_preamble phy (run idelaye2 phy ins t) = true
                 <-> t = (T + d)%nat).
  { rewrite Epre, andb_true_iff, negb_true_iff, in_burst_true.
    rewrite in_burst_false. lia. }
  assert (Ppost : dqs_postamble phy (run idelaye2 phy ins t) = true
                  <-> t = (T + d + len + 1)%nat).
  { rewrite Epost, andb_true_iff, negb_true_iff, in_burst_true.
    rewrite in_burst_false. lia. }
  split; [exact Ppre|]. split; [exact Ppost|].
  intros Hoff. unfold dqs_serdes_pattern. rewrite Hoff.
  destruct (dqs_preamble phy (run idelaye2 phy ins t)) eqn:A.
  - rewrite (proj1 Ppre eq_refl), Nat.eqb_refl. reflexivity.
  - destruct (dqs_postamble phy (run idelaye2 phy ins t)) eqn:B.
    + rewrite (proj1 Ppost eq_refl), Nat.eqb_refl.
      now destruct (Nat.eqb (T + d + len + 1) (T + d)).
    + cbn [orb].
      destruct (Nat.eqb_spec t (T + d)) as [E1|_];
        [apply Ppre in E1; congruence|].
      destruct (Nat.eqb_spec t (T + d + len + 1)) as [E2|_];
        [apply Ppost in E2; congruence|reflexivity].
Qed.

Lemma dqs_burst_framing_witness :
  supported 4
  /\ K7DDRPHY_init pads16 "DDR3" 4 (mhz 100) (mhz 200) = Ok k7_ddr3
  /\ 1 <= dqs_sys_latency k7_ddr3
  /\ (dqs_preamble k7_ddr3 (run idelaye2_variable k7_ddr3 (wr_burst 3 5 4) 6)
      = true <-> 6%nat = (5 + 1)%nat).
Proof.
  assert (HN : supported 4) by (right; reflexivity).
  assert (HI : K7DDRPHY_init pads16 "DDR3" 4 (mhz 100) (mhz 200) = Ok k7_ddr3)
    by (vm_compute; reflexivity).
  assert (HD : 1 <= dqs_sys_latency k7_ddr3) by (cbn; lia).
  split; [exact HN|]. split; [exact HI|]. split; [exact HD|].
  exact (proj1 (dqs_burst_framing idelaye2_variable pads16 true "DDR3" 4
                  (mhz 100) (mhz 200) k7_ddr3 (wr_burst 3 5 4) 5 4 HN HI HD
                  ltac:(lia) (fun u => eq_refl) 6%nat)).
Defined.

(** ** Write leveling, and what the two halves of the logic share *)

Lemma step_without_odelay idelaye2 phy st ins en strobe :
  with_odelay phy = false ->
  step idelaye2 phy st (with_wlevel en strobe ins) = step idelaye2 phy st ins.
Proof.
  intros Hw. unfold step, rdphase_en, wrphase_en, idelay_next, lane_sel.
  cbn [with_wlevel csr dfi_phases wlevel_en dly_sel rdly_dq_rst rdly_dq_inc
       rdly_dq_bitslip_rst rdly_dq_bitslip].
  rewrite Hw. reflexivity.
Qed.

(** X7.  Write leveling.  On a PHY with output delay lines, a cycle with
    [wlevel_en] set leaves, after its clock edge, the data pins undriven
    ([oe_dq] low), the strobes driven ([oe_dqs] high) and read-valid high on
    all phases, whatever the DFI traffic and the state, and during it the
    strobe pattern is the single bit of [wlevel_strobe].  On a PHY without
    output delay lines the write-leveling registers do not exist: no value
    of them changes any register or the strobe pattern, ever. *)
Theorem write_leveling_effect idelaye2 phy (ins : nat -> Inputs) :
  (with_odelay phy = true ->
   forall t, wlevel_en (csr (ins t)) = true ->
     oe_dq (run idelaye2 phy ins (S t)) = false
     /\ oe_dqs (run idelaye2 phy ins (S t)) = true
     /\ rddata_valid (run idelaye2 phy ins (S t)) = repeat true dfi_nphases
     /\ dqs_serdes_pattern phy (run idelaye2 phy ins t) (csr (ins t))
        = if wlevel_strobe (csr (ins t)) then 1 else 0)
  /\ (with_odelay phy = false ->
      forall (en strobe : nat -> bool) t,
        run idelaye2 phy (fun u => with_wlevel (en u) (strobe u) (ins u)) t
        = run idelaye2 phy ins t
        /\ dqs_serdes_pattern phy (run idelaye2 phy ins t)
             (csr (with_wlevel (en t) (strobe t) (ins t)))
           = dqs_serdes_pattern phy (run idelaye2 phy ins t) (csr (ins t))).
Proof.
  split.
  - intros Hw t Hen. cbn [run].
    set (st := run idelaye2 phy ins t).
    unfold step, dqs_serdes_pattern. cbn [oe_dq oe_dqs rddata_valid].
    rewrite Hw, Hen. cbn [andb]. rewrite orb_true_r. repeat split.
  - intros Hw en strobe t. split.
    + induction t as [|t IH]; [reflexivity|].
      cbn [run]. rewrite IH. now apply step_without_odelay.
    + unfold dqs_serdes_pattern. rewrite Hw. reflexivity.
Qed.

Lemma write_leveling_effect_witness :
  with_odelay k7_ddr3 = true
  /\ with_odelay a7_ddr3 = false
  /\ oe_dq (run idelaye2_variable k7_ddr3
              (fun u => with_wlevel true false (wr_burst 3 0 4 u)) 4) = false
  /\ run idelaye2_variable a7_ddr3
       (fun u => with_wlevel true false (wr_burst 3 0 4 u)) 4
     = run idelaye2_variable a7_ddr3 (wr_burst 3 0 4) 4.
Proof.
  split; [reflexivity|]. split; [reflexivity|].
  destruct (write_leveling_effect idelaye2_variable k7_ddr3
              (fun u => with_wlevel true false (wr_burst 3 0 4 u))) as [K _].
  destruct (write_leveling_effect idelaye2_variable a7_ddr3 (wr_burst 3 0 4))
    as [_ A].
  split.
  - exact (proj1 (K eq_refl 3%nat eq_refl)).
  - exact (proj1 (A eq_refl (fun _ => true) (fun _ => false) 4%nat)).
Defined.

Lemma cal_regs_step idelaye2 phy st1 st2 i1 i2 :
  cal_regs st1 = cal_regs st2 ->
  dly_sel (csr i1) = dly_sel (csr i2) ->
  rdly_dq_rst (csr i1) = rdly_dq_rst (csr i2) ->
  rdly_dq_inc (csr i1) = rdly_dq_inc (csr i2) ->
  rdly_dq_bitslip_rst (csr i1) = rdly_dq_bitslip_rst (csr i2) ->
  rdly_dq_bitslip (csr i1) = rdly_dq_bitslip (csr i2) ->
  cal_regs (step idelaye2 phy st1 i1) = cal_regs (step idelaye2 phy st2 i2).
Proof.
  unfold cal_regs. intros [= E1 E2] A B C D E.
  unfold step, idelay_next, lane_sel. cbn [dq_bitslip_value dq_idelay_tap].
  now rewrite E1, E2, A, B, C, D, E.
Qed.

Lemma flow_regs_step idelaye2 phy st1 st2 i1 i2 :
  flow_regs st1 = flow_regs st2 ->
  dfi_phases i1 = dfi_phases i2 ->
  wlevel_en (csr i1) = wlevel_en (csr i2) ->
  flow_regs (step idelaye2 phy st1 i1) = flow_regs (step idelaye2 phy st2 i2).
Proof.
  unfold flow_regs. intros [= E1 E2 E3 E4 E5] A B.
  unfold step, oe, rdphase_en, wrphase_en.
  cbn [n_rddata_en rddata_valid last_wrdata_en oe_dqs oe_dq].
  now rewrite E1, E3, A, B.
Qed.

(** X8.  The flow control and the calibration do not touch each other.
    The bitslip rotations and the input delay taps are the same whatever
    the DFI bus carries and whatever the write-leveling registers hold; the
    read-enable chain, read-valid, the write-enable history and the two
    output enables are the same whatever the lane mask and the calibration
    strobes are. *)
Theorem flow_and_calibration_independent idelaye2 phy (ins : nat -> Inputs) :
  (forall (dfi' : nat -> list DfiPhase) (en strobe : nat -> bool) t,
     cal_regs (run idelaye2 phy
                 (fun u => with_wlevel (en u) (strobe u)
                             (with_dfi (dfi' u) (ins u))) t)
     = cal_regs (run idelaye2 phy ins t))
  /\ (forall (c' : nat -> Csr) t,
        flow_regs (run idelaye2 phy
                     (fun u => with_calibration (c' u) (ins u)) t)
        = flow_regs (run idelaye2 phy ins t)).
Proof.
  split.
  - intros dfi' en strobe t. induction t as [|t IH]; [reflexivity|].
    cbn [run]. apply cal_regs_step; [exact IH|reflexivity..].
  - intros c' t. induction t as [|t IH]; [reflexivity|].
    cbn [run]. apply flow_regs_step; [exact IH|reflexivity..].
Qed.

(** ** Bitslip rotation: bounds and count *)

Lemma inc_count_snoc l i pin :
  inc_count (l ++ [i]) pin
  = (inc_count l pin + (if bitslip_incb i pin then 1 else 0))%nat.
Proof.
  unfold inc_count. rewrite filter_app, length_app. cbn [filter].
  destruct (bitslip_incb i pin); reflexivity.
Qed.

Lemma run_is_pin idelaye2 phy ins t pin :
  (pin < Z.to_nat (databits phy))%nat ->
  is_pin (run idelaye2 phy ins t) pin.
Proof.
  intros H. induction t as [|t IH].
  - split; cbn [run reset dq_bitslip_value dq_idelay_tap];
      now rewrite repeat_length.
  - cbn [run]. now apply step_is_pin.
Qed.

(** X9.  In every state a PHY reaches from power-on, whatever the inputs,
    there are exactly [databits] bitslip rotations and [databits] input
    delay taps, and every rotation lies in [0, 8).  As long as a pin has
    seen no bitslip reset, its rotation is the number of increment pulses
    it has seen since power-on, modulo 8. *)
Theorem bitslip_rotation_invariant idelaye2 phy (ins : nat -> Inputs) (t : nat) :
  List.length (dq_bitslip_value (run idelaye2 phy ins t))
  = Z.to_nat (databits phy)
  /\ List.length (dq_idelay_tap (run idelaye2 phy ins t))
     = Z.to_nat (databits phy)
  /\ forall pin, (pin < Z.to_nat (databits phy))%nat ->
       0 <= bitslip_of (run idelaye2 phy ins t) pin < 8
       /\ ((forall u, (u < t)%nat -> bitslip_resetb (ins u) pin = false) ->
           bitslip_of (run idelaye2 phy ins t) pin
           = Z.of_nat (inc_count (map ins (seq 0 t)) pin) mod 8).
Proof.
  split; [|split].
  - induction t as [|t IH]; [apply repeat_length|].
    cbn [run]. unfold step. cbn [dq_bitslip_value].
    now rewrite per_pin_length.
  - induction t as [|t IH]; [apply repeat_length|].
    cbn [run]. unfold step. cbn [dq_idelay_tap].
    now rewrite per_pin_length.
  - intros pin Hpin. induction t as [|t [IHb IHc]].
    + unfold bitslip_of. cbn [run reset dq_bitslip_value].
      rewrite nth_repeat. split; [lia|]. intros _. reflexivity.
    + cbn [run].
      rewrite (step_bitslip idelaye2 phy _ (ins t) pin
                 (run_is_pin idelaye2 phy ins t pin Hpin)).
      split.
      * unfold bitslip_next.
        destruct (selected (ins t) pin); [|exact IHb].
        destruct (rdly_dq_bitslip_rst (csr (ins t))); [lia|].
        destruct (rdly_dq_bitslip (csr (ins t))); [|exact IHb].
        apply Z.mod_pos_bound. reflexivity.
      * intros Hno.
        assert (Ri : bitslip_resetb (ins t) pin = false)
          by (apply Hno; apply Nat.lt_succ_diag_r).
        assert (E : bitslip_next (selected (ins t) pin)
                      (rdly_dq_bitslip_rst (csr (ins t)))
                      (rdly_dq_bitslip (csr (ins t)))
                      (bitslip_of (run idelaye2 phy ins t) pin)
                    = if bitslip_incb (ins t) pin
                      then (bitslip_of (run idelaye2 phy ins t) pin + 1) mod 8
                      else bitslip_of (run idelaye2 phy ins t) pin).
        { unfold bitslip_next, bitslip_incb, bitslip_resetb in *.
          destruct (selected (ins t) pin); [|reflexivity]. cbn [andb] in *.
          rewrite Ri. reflexivity. }
        rewrite E, IHc by (intros u Hu; apply Hno; lia).
        rewrite seq_S, map_app, Nat.add_0_l. cbn [map].
        rewrite inc_count_snoc.
        destruct (bitslip_incb (ins t) pin).
        -- rewrite Zplus_mod_idemp_l. f_equal. lia.
        -- f_equal. lia.
Qed.

Lemma bitslip_rotation_invariant_witness :
  (3 < Z.to_nat (databits a7_ddr3))%nat
  /\ (forall u, (u < 11)%nat ->
        bitslip_resetb (cal 1 false false false true) 3 = false)
  /\ bitslip_of (run idelaye2_variable a7_ddr3
                   (fun _ => cal 1 false false false true) 11) 3 = 3.
Proof.
  assert (Hp : (3 < Z.to_nat (databits a7_ddr3))%nat)
    by (apply Nat.ltb_lt; vm_compute; reflexivity).
  assert (Hr : forall u, (u < 11)%nat ->
                 bitslip_resetb (cal 1 false false false true) 3 = false)
    by (intros u _; reflexivity).
  split; [exact Hp|]. split; [exact Hr|].
  destruct (bitslip_rotation_invariant idelaye2_variable a7_ddr3
              (fun _ => cal 1 false false false true) 11)
    as (_ & _ & K).
  destruct (K 3%nat Hp) as [_ Kc]. rewrite (Kc Hr). reflexivity.
Defined.

(** ** The three variants *)


(** ** Data path wiring *)

Lemma word_of_bits_testbit l k :
  Z.testbit (word_of_bits l) (Z.of_nat k) = nth k l false.
Proof.
  revert k. induction l as [|b l IH]; intros k.
  - cbn [word_of_bits nth]. rewrite Z.testbit_0_l. now destruct k.
  - cbn [word_of_bits]. destruct k as [|k].
    + cbn [nth]. change (Z.of_nat 0) with 0.
      rewrite Z.add_comm, Z.testbit_0_r. reflexivity.
    + cbn [nth]. rewrite Nat2Z.inj_succ, Z.add_comm.
      rewrite Z.testbit_succ_r by lia. apply IH.
Qed.

Lemma drive_fold_testbit assigns p j acc :
  0 <= j ->
  (forall q idx v, In (q, idx, v) assigns -> 0 <= idx) ->
  Z.testbit
    (fold_left
       (fun acc a =>
          let '(q, idx, v) := a in
          if Nat.eqb q p then Z.lor acc (Z.shiftl (Z.b2z v) idx) else acc)
       assigns acc) j
  = Z.testbit acc j || existsb (drives_high p j) assigns.
Proof.
  intros Hj. revert acc. induction assigns as [|[[q idx] v] l IH]; intros acc Hi.
  - cbn [fold_left existsb]. now rewrite orb_false_r.
  - cbn [fold_left existsb]. rewrite IH by (intros; eapply Hi; right; eassumption).
    assert (H0 : 0 <= idx) by (eapply Hi; left; reflexivity).
    unfold drives_high at 2. destruct (Nat.eqb q p); cbn [andb orb]; [|reflexivity].
    rewrite Z.lor_spec, Z.shiftl_spec by exact Hj.
    rewrite <- orb_assoc. f_equal. f_equal.
    destruct (Z.eqb_spec idx j) as [->|Hne].
    + rewrite Z.sub_diag. cbn [andb]. now destruct v.
    + cbn [andb]. destruct (Z.ltb_spec j idx).
      * rewrite Z.testbit_neg_r by lia. reflexivity.
      * destruct v; [|apply Z.testbit_0_l].
        change (Z.b2z true) with 1.
        rewrite Z.bits_above_log2; [reflexivity|apply Z.le_0_1|].
        change (Z.log2 1) with 0. lia.
Qed.

Lemma rddata_assign_idx nphases databits i o q idx v :
  0 <= databits -> 0 <= i ->
  In (q, idx, v) (rddata_assign nphases databits i o) -> 0 <= idx.
Proof.
  intros Hd Hi. unfold rddata_assign.
  destruct (nphases =? 2); cbn [In]; intros H;
    repeat (destruct H as [[= <- <- <-]|H]; [lia|]); destruct H.
Qed.

Lemma dfi_rddata_testbit nphases databits o p j :
  0 <= databits -> 0 <= j ->
  Z.testbit (dfi_rddata nphases databits o p) j
  = existsb
      (fun i => existsb (drives_high p j)
                  (rddata_assign nphases databits (Z.of_nat i) (o i)))
      (seq 0 (Z.to_nat databits)).
Proof.
  intros Hd Hj. unfold dfi_rddata, drive.
  rewrite drive_fold_testbit; [|exact Hj|].
  - rewrite Z.testbit_0_l. cbn [orb].
    induction (seq 0 (Z.to_nat databits)) as [|i l IH]; [reflexivity|].
    cbn [flat_map existsb]. rewrite existsb_app, IH. reflexivity.
  - intros q idx v H. apply in_flat_map in H. destruct H as (i & _ & H).
    eapply rddata_assign_idx; [exact Hd| |exact H]. lia.
Qed.

Lemma existsb_seq_at (f : nat -> bool) (n k : nat) :
  (k < n)%nat ->
  (forall i, (i < n)%nat -> i <> k -> f i = false) ->
  existsb f (seq 0 n) = f k.
Proof.
  intros Hk Hf.
  destruct (f k) eqn:E.
  - apply existsb_exists. exists k. split; [|exact E].
    apply in_seq. lia.
  - destruct (existsb f (seq 0 n)) eqn:X; [|reflexivity].
    apply existsb_exists in X. destruct X as (i & Hi & Fi).
    apply in_seq in Hi. destruct (Nat.eq_dec i k) as [->|Hne].
    + congruence.
    + rewrite Hf in Fi by lia. discriminate.
Qed.

Lemma existsb_seq_none (f : nat -> bool) (n : nat) :
  (forall i, (i < n)%nat -> f i = false) ->
  existsb f (seq 0 n) = false.
Proof.
  intros Hf. destruct (existsb f (seq 0 n)) eqn:X; [|reflexivity].
  apply existsb_exists in X. destruct X as (i & Hi & Fi).
  apply in_seq in Hi. rewrite Hf in Fi by lia. discriminate.
Qed.

Ltac eqb_cases :=
  repeat match goal with
  | |- context [Z.eqb ?a ?b] =>
      destruct (Z.eqb_spec a b); try lia; cbn [andb orb]
  end.

(** X11.  With a phase count other than 2 the read wiring is the inverse
    of the write wiring: when the eight bits [D1 .. D8] handed to the
    serialiser of every data pin come back as bits 0 .. 7 of that pin's
    bitslip output, the read data of each of the four DFI phases is that
    phase's write data, as one word of [2*databits] bits. *)
Theorem rddata_inverts_wrdata (nphases databits : Z) (wrdata : list Z)
    (p : nat) :
  nphases <> 2 ->
  0 <= databits ->
  (p < 4)%nat ->
  0 <= nth p wrdata 0 < 2 ^ (2 * databits) ->
  dfi_rddata nphases databits
    (fun i => word_of_bits (dq_oserdes_inputs databits wrdata (Z.of_nat i))) p
  = nth p wrdata 0.
Proof.
  intros Hn Hd Hp Hw.
  apply Z.bits_inj'. intros j Hj.
  rewrite dfi_rddata_testbit by assumption.
  unfold rddata_assign. destruct (Z.eqb_spec nphases 2) as [|_]; [contradiction|].
  assert (B : forall l k, 0 <= k ->
            Migen.bit 8 (word_of_bits l) k = nth (Z.to_nat k) l false).
  { intros l k Hk. unfold Migen.bit.
    destruct (Z.ltb_spec k 0); [lia|].
    rewrite <- (Z2Nat.id k) at 1 by lia. apply word_of_bits_testbit. }
  assert (M : forall i, 0 <= i ->
            Migen.bit (2 * databits) (nth p wrdata 0) i
            = Z.testbit (nth p wrdata 0) i).
  { intros i Hi. unfold Migen.bit. destruct (Z.ltb_spec i 0); [lia|reflexivity]. }
  destruct (Z.ltb_spec j databits) as [Hlo|Hhi].
  - rewrite (existsb_seq_at _ _ (Z.to_nat j)) by
      (try lia; intros i Hi Hne; cbn [existsb drives_high];
       destruct p as [|[|[|[|p]]]]; try lia; cbn [Nat.eqb andb orb];
       eqb_cases; reflexivity).
    rewrite Z2Nat.id by lia. cbn [existsb drives_high].
    rewrite !B by lia. unfold dq_oserdes_inputs.
    change (Z.to_nat 0) with 0%nat. change (Z.to_nat 1) with 1%nat.
    change (Z.to_nat 2) with 2%nat. change (Z.to_nat 3) with 3%nat.
    change (Z.to_nat 4) with 4%nat. change (Z.to_nat 5) with 5%nat.
    change (Z.to_nat 6) with 6%nat. change (Z.to_nat 7) with 7%nat.
    cbn [nth].
    destruct p as [|[|[|[|p]]]]; try lia; cbn [Nat.eqb andb orb];
      eqb_cases; rewrite ?orb_false_r; apply M; lia.
  - destruct (Z.ltb_spec j (2 * databits)) as [Hmid|Hout].
    + rewrite (existsb_seq_at _ _ (Z.to_nat (j - databits))) by
        (try lia; intros i Hi Hne; cbn [existsb drives_high];
         destruct p as [|[|[|[|p]]]]; try lia; cbn [Nat.eqb andb orb];
         eqb_cases; reflexivity).
      rewrite Z2Nat.id by lia. cbn [existsb drives_high].
      rewrite !B by lia. unfold dq_oserdes_inputs.
      change (Z.to_nat 0) with 0%nat. change (Z.to_nat 1) with 1%nat.
      change (Z.to_nat 2) with 2%nat. change (Z.to_nat 3) with 3%nat.
      change (Z.to_nat 4) with 4%nat. change (Z.to_nat 5) with 5%nat.
      change (Z.to_nat 6) with 6%nat. change (Z.to_nat 7) with 7%nat.
      cbn [nth].
      replace (databits + (j - databits)) with j by lia.
      destruct p as [|[|[|[|p]]]]; try lia; cbn [Nat.eqb andb orb];
        eqb_cases; rewrite ?orb_false_r; apply M; lia.
    + rewrite existsb_seq_none by
        (intros i Hi; cbn [existsb drives_high];
         destruct p as [|[|[|[|p]]]]; try lia; cbn [Nat.eqb andb orb];
         eqb_cases; reflexivity).
      symmetry. destruct (Z.eq_dec (nth p wrdata 0) 0) as [->|Hnz];
        [apply Z.testbit_0_l|].
      apply Z.bits_above_log2; [lia|].
      assert (Z.log2 (nth p wrdata 0) < 2 * databits)
        by (apply Z.log2_lt_pow2; lia).
      lia.
Qed.

Lemma rddata_inverts_wrdata_witness :
  4 <> 2 /\ 0 <= 16 /\ (1 < 4)%nat
  /\ 0 <= nth 1 [305419896; 3735928559; 0; 4294967295] 0 < 2 ^ (2 * 16)
  /\ dfi_rddata 4 16
       (fun i => word_of_bits
                   (dq_oserdes_inputs 16 [305419896; 3735928559; 0; 4294967295]
                      (Z.of_nat i))) 1
     = 3735928559.
Proof.
  assert (H1 : 4 <> 2) by discriminate.
  assert (H2 : 0 <= 16) by discriminate.
  assert (H3 : (1 < 4)%nat) by (apply Nat.ltb_lt; reflexivity).
  assert (H4 : 0 <= nth 1 [305419896; 3735928559; 0; 4294967295] 0 < 2 ^ (2 * 16))
    by (split; [discriminate|reflexivity]).
  split; [exact H1|]. split; [exact H2|]. split; [exact H3|].
  split; [exact H4|].
  exact (rddata_inverts_wrdata 4 16 [305419896; 3735928559; 0; 4294967295]
           1%nat H1 H2 H3 H4).
Defined.

(** X12.  With a phase count of 2 the read wiring takes bit 7 of the
    bitslip output twice: bit [i] of the read data of phase 0 and bit
    [databits+i] of the read data of phase 1 are the same signal.  The read
    data of phases 2 and 3 is never driven, and bits 0 to 4 of the bitslip
    output are never read: two outputs that agree on bits 5, 6 and 7 of every
    pin give the same read data. *)
Theorem rddata_two_phases (databits : Z) (o : nat -> Z) :
  0 <= databits ->
  (forall i, 0 <= i < databits ->
     Z.testbit (dfi_rddata 2 databits o 0) i
     = Migen.bit 8 (o (Z.to_nat i)) 7
     /\ Z.testbit (dfi_rddata 2 databits o 1) (databits + i)
        = Migen.bit 8 (o (Z.to_nat i)) 7)
  /\ dfi_rddata 2 databits o 2 = 0
  /\ dfi_rddata 2 databits o 3 = 0
  /\ (forall o' : nat -> Z,
        (forall i, Z.shiftr (o i) 5 mod 8 = Z.shiftr (o' i) 5 mod 8) ->
        forall p, dfi_rddata 2 databits o p = dfi_rddata 2 databits o' p).
Proof.
  intros Hd. split; [|split; [|split]].
  - intros i Hi. split.
    + rewrite dfi_rddata_testbit by lia.
      rewrite (existsb_seq_at _ _ (Z.to_nat i)) by
        (try lia; intros k Hk Hne; unfold rddata_assign;
         cbn [Z.eqb Pos.eqb existsb drives_high Nat.eqb andb orb];
         eqb_cases; reflexivity).
      unfold rddata_assign.
      cbn [Z.eqb Pos.eqb existsb drives_high Nat.eqb andb orb].
      rewrite Z2Nat.id by lia. eqb_cases. now rewrite orb_false_r.
    + rewrite dfi_rddata_testbit by lia.
      rewrite (existsb_seq_at _ _ (Z.to_nat i)) by
        (try lia; intros k Hk Hne; unfold rddata_assign;
         cbn [Z.eqb Pos.eqb existsb drives_high Nat.eqb andb orb];
         eqb_cases; reflexivity).
      unfold rddata_assign.
      cbn [Z.eqb Pos.eqb existsb drives_high Nat.eqb andb orb].
      rewrite Z2Nat.id by lia. eqb_cases. now rewrite orb_false_r.
  - apply Z.bits_inj'. intros j Hj. rewrite dfi_rddata_testbit by lia.
    rewrite Z.testbit_0_l. apply existsb_seq_none. intros i _. reflexivity.
  - apply Z.bits_inj'. intros j Hj. rewrite dfi_rddata_testbit by lia.
    rewrite Z.testbit_0_l. apply existsb_seq_none. intros i _. reflexivity.
  - intros o' Ho p. unfold dfi_rddata. f_equal. apply flat_map_ext. intros i.
    assert (B : forall k, 5 <= k < 8 ->
              Z.testbit (o i) k = Z.testbit (o' i) k).
    { intros k Hk. replace k with ((k - 5) + 5) by lia.
      rewrite <- (Z.shiftr_spec (o i) 5 (k - 5)) by lia.
      rewrite <- (Z.shiftr_spec (o' i) 5 (k - 5)) by lia.
      change 8 with (2 ^ 3) in Ho.
      rewrite <- (Z.mod_pow2_bits_low (Z.shiftr (o i) 5) 3 (k - 5)) by lia.
      rewrite <- (Z.mod_pow2_bits_low (Z.shiftr (o' i) 5) 3 (k - 5)) by lia.
      now rewrite Ho. }
    unfold rddata_assign, Migen.bit. cbn [Z.eqb Pos.eqb Z.ltb Z.compare].
    rewrite (B 5), (B 6), (B 7) by lia. reflexivity.
Qed.

Lemma rddata_two_phases_witness :
  0 <= 16
  /\ Z.testbit (dfi_rddata 2 16 (fun _ => 128) 0) 3 = true
  /\ Z.testbit (dfi_rddata 2 16 (fun _ => 128) 1) (16 + 3) = true.
Proof.
  assert (H : 0 <= 16) by discriminate.
  split; [exact H|].
  destruct (rddata_two_phases 16 (fun _ => 128) H) as (K & _).
  assert (H3 : 0 <= 3 < 16) by (split; [discriminate|reflexivity]).
  destruct (K 3 H3) as [K0 K1].
  split; [rewrite K0|rewrite K1]; reflexivity.
Defined.

(** ** Output delay lines *)

Section OutputDelayFacts.
Variable odelaye2 : Z -> bool -> bool -> bool -> Z -> Z.
Variable phy : S7DDRPHY.

Lemma odelay_lengths ins t :
  with_odelay phy = true ->
  List.length (dm_odelay_tap (odelay_run odelaye2 phy ins t))
  = Z.to_nat (databits phy / 8)
  /\ List.length (dqs_odelay_tap (odelay_run odelaye2 phy ins t))
     = Z.to_nat (databits phy / 8)
  /\ List.length (dq_odelay_tap (odelay_run odelaye2 phy ins t))
     = Z.to_nat (databits phy).
Proof.
  intros Hw. induction t as [|t (A & B & C)].
  - cbn [odelay_run]. unfold odelay_reset. rewrite Hw.
    cbn [dm_odelay_tap dqs_odelay_tap dq_odelay_tap].
    now rewrite !repeat_length.
  - cbn [odelay_run]. unfold odelay_step.
    cbn [dm_odelay_tap dqs_odelay_tap dq_odelay_tap].
    now rewrite !per_pin_length.
Qed.

End OutputDelayFacts.

(** X13.  On a PHY with output delay lines the data-mask delay of a byte
    lane and the data delay of every pin of that lane are the same tap in
    every cycle, whatever the lane masks and the strobes have been: the
    write calibration cannot move the mask away from its data. *)
Theorem dm_delay_follows_dq (odelaye2 : Z -> bool -> bool -> bool -> Z -> Z)
    (phy : S7DDRPHY) (ins : nat -> WdlyCsr) (t pin : nat) :
  with_odelay phy = true ->
  (pin < Z.to_nat (databits phy))%nat ->
  lane_of pin < databits phy / 8 ->
  nth pin (dq_odelay_tap (odelay_run odelaye2 phy ins t)) 0
  = nth (Z.to_nat (lane_of pin))
        (dm_odelay_tap (odelay_run odelaye2 phy ins t)) 0.
Proof.
  intros Hw Hp Hl.
  assert (L0 : 0 <= lane_of pin) by (unfold lane_of; apply Z.div_pos; lia).
  induction t as [|t IH].
  - cbn [odelay_run]. unfold odelay_reset. rewrite Hw.
    cbn [dm_odelay_tap dq_odelay_tap]. now rewrite !nth_repeat.
  - destruct (odelay_lengths odelaye2 phy ins t Hw) as (A & _ & C).
    cbn [odelay_run]. unfold odelay_step. cbn [dm_odelay_tap dq_odelay_tap].
    rewrite !per_pin_nth by lia.
    rewrite IH, Z2Nat.id by exact L0. reflexivity.
Qed.

Lemma dm_delay_follows_dq_witness :
  with_odelay k7_ddr3 = true
  /\ (11 < Z.to_nat (databits k7_ddr3))%nat
  /\ lane_of 11 < databits k7_ddr3 / 8
  /\ nth 11 (dq_odelay_tap
               (odelay_run odelaye2_variable k7_ddr3
                  (fun u => wcal 2 false (Nat.even u) false true) 7)) 0
     = nth 1 (dm_odelay_tap
                (odelay_run odelaye2_variable k7_ddr3
                   (fun u => wcal 2 false (Nat.even u) false true) 7)) 0.
Proof.
  assert (H1 : with_odelay k7_ddr3 = true) by reflexivity.
  assert (H2 : (11 < Z.to_nat (databits k7_ddr3))%nat)
    by (apply Nat.ltb_lt; vm_compute; reflexivity).
  assert (H3 : lane_of 11 < databits k7_ddr3 / 8) by reflexivity.
  split; [exact H1|]. split; [exact H2|]. split; [exact H3|].
  exact (dm_delay_follows_dq odelaye2_variable k7_ddr3
           (fun u => wcal 2 false (Nat.even u) false true) 7 11 H1 H2 H3).
Defined.

(** X14.  The two write delays are separate: the strobe taps are the same
    whatever the data strobes [wdly_dq_rst]/[wdly_dq_inc] have been, and the
    data and data-mask taps are the same whatever the strobe-delay strobes
    [wdly_dqs_rst]/[wdly_dqs_inc] have been.  If the primitive holds its tap
    while [LD] and [CE] are low, a cycle whose mask leaves out a lane moves
    none of that lane's taps, and with no strobe ever on a lane its strobe
    delay stays at [half_sys8x_taps]. *)
Theorem write_delays_separate (odelaye2 : Z -> bool -> bool -> bool -> Z -> Z)
    (phy : S7DDRPHY) (ins : nat -> WdlyCsr) :
  (forall (c : nat -> WdlyCsr) t,
     dqs_odelay_tap
       (odelay_run odelaye2 phy (fun u => with_dq_strobes (c u) (ins u)) t)
     = dqs_odelay_tap (odelay_run odelaye2 phy ins t)
     /\ dm_odelay_tap
          (odelay_run odelaye2 phy (fun u => with_dqs_strobes (c u) (ins u)) t)
        = dm_odelay_tap (odelay_run odelaye2 phy ins t)
     /\ dq_odelay_tap
          (odelay_run odelaye2 phy (fun u => with_dqs_strobes (c u) (ins u)) t)
        = dq_odelay_tap (odelay_run odelaye2 phy ins t))
  /\ ((forall v inc tap, odelaye2 v false false inc tap = tap) ->
      with_odelay phy = true ->
      forall lane,
        (lane < Z.to_nat (databits phy / 8))%nat ->
        (forall t,
           Z.testbit (wdly_sel (ins t)) (Z.of_nat lane) = false ->
           nth lane (dm_odelay_tap (odelay_run odelaye2 phy ins (S t))) 0
           = nth lane (dm_odelay_tap (odelay_run odelaye2 phy ins t)) 0
           /\ nth lane (dqs_odelay_tap (odelay_run odelaye2 phy ins (S t))) 0
              = nth lane (dqs_odelay_tap (odelay_run odelaye2 phy ins t)) 0
           /\ forall pin, (pin < Z.to_nat (databits phy))%nat ->
                lane_of pin = Z.of_nat lane ->
                nth pin (dq_odelay_tap (odelay_run odelaye2 phy ins (S t))) 0
                = nth pin (dq_odelay_tap (odelay_run odelaye2 phy ins t)) 0)
        /\ forall t,
             (forall u, (u < t)%nat ->
                Z.testbit (wdly_sel (ins u)) (Z.of_nat lane)
                && (wdly_dqs_rst (ins u) || wdly_dqs_inc (ins u)) = false) ->
             nth lane (dqs_odelay_tap (odelay_run odelaye2 phy ins t)) 0
             = half_sys8x_taps phy).
Proof.
  split.
  - intros c t. induction t as [|t (A & B & C)].
    + repeat split.
    + cbn [odelay_run]. unfold odelay_step.
      cbn [dm_odelay_tap dqs_odelay_tap dq_odelay_tap with_dq_strobes
           with_dqs_strobes wdly_sel wdly_dq_rst wdly_dq_inc wdly_dqs_rst
           wdly_dqs_inc].
      now rewrite A, B, C.
  - intros Hold Hw lane Hlane. split.
    + intros t Hoff.
      destruct (odelay_lengths odelaye2 phy ins t Hw) as (A & B & C).
      cbn [odelay_run]. unfold odelay_step.
      cbn [dm_odelay_tap dqs_odelay_tap dq_odelay_tap].
      split; [|split].
      * rewrite per_pin_nth by lia. rewrite Hoff. apply Hold.
      * rewrite per_pin_nth by lia. rewrite Hoff. apply Hold.
      * intros pin Hpin Hl. rewrite per_pin_nth by lia.
        rewrite Hl, Hoff. apply Hold.
    + intros t. induction t as [|t IH]; intros Hq.
      * cbn [odelay_run]. unfold odelay_reset. rewrite Hw.
        cbn [dqs_odelay_tap].
        rewrite (nth_indep _ 0 (half_sys8x_taps phy))
          by (rewrite repeat_length; lia).
        apply nth_repeat.
      * destruct (odelay_lengths odelaye2 phy ins t Hw) as (_ & B & _).
        cbn [odelay_run]. unfold odelay_step. cbn [dqs_odelay_tap].
        rewrite per_pin_nth by lia.
        rewrite IH by (intros u Hu; apply Hq; lia).
        specialize (Hq t (Nat.lt_succ_diag_r t)).
        destruct (Z.testbit (wdly_sel (ins t)) (Z.of_nat lane));
          cbn [andb] in *; [|apply Hold].
        apply orb_false_iff in Hq. destruct Hq as [-> ->]. apply Hold.
Qed.

Lemma write_delays_separate_witness :
  (forall v inc tap, odelaye2_variable v false false inc tap = tap)
  /\ with_odelay k7_ddr3 = true
  /\ (0 < Z.to_nat (databits k7_ddr3 / 8))%nat
  /\ nth 0 (dqs_odelay_tap
              (odelay_run odelaye2_variable k7_ddr3
                 (fun _ => wcal 2 true true true true) 5)) 0
     = 8.
Proof.
  assert (Hh : forall v inc tap, odelaye2_variable v false false inc tap = tap)
    by (intros v inc tap; reflexivity).
  assert (Hw : with_odelay k7_ddr3 = true) by reflexivity.
  assert (Hl : (0 < Z.to_nat (databits k7_ddr3 / 8))%nat)
    by (apply Nat.ltb_lt; vm_compute; reflexivity).
  split; [exact Hh|]. split; [exact Hw|]. split; [exact Hl|].
  destruct (write_delays_separate odelaye2_variable k7_ddr3
              (fun _ => wcal 2 true true true true)) as [_ K].
  destruct (K Hh Hw 0%nat Hl) as [_ K2].
  apply (K2 5%nat). intros u _. reflexivity.
Defined.

(** ** Module timings *)

Lemma sd_get_ck_per_cycle rate :
  sd_get ck_per_cycle rate
  = if String.eqb rate "1:1" then Ok 1
    else if String.eqb rate "1:2" then Ok 2
    else if String.eqb rate "1:4" then Ok 4
    else Raise KeyError.
Proof.
  unfold ck_per_cycle. cbn [sd_get].
  rewrite (String.eqb_sym "1:1"), (String.eqb_sym "1:2"), (String.eqb_sym "1:4").
  reflexivity.
Qed.

(** X15.  [ck_to_cycles] at the rates "1:1", "1:2" and "1:4" divides by
    1, 2 and 4: for a count [0 <= c < 2^53] of memory clocks it returns the
    exact ceiling of the quotient, the least number [r] of controller cycles
    with [c <= r * d].  At any other rate it raises [KeyError], whatever the
    count. *)
Theorem ck_to_cycles_exact (rate : string) (c : Z) :
  (forall d, In (rate, d) ck_per_cycle -> 0 <= c < 2 ^ 53 ->
     exists r, ck_to_cycles rate c = Ok r
               /\ (r - 1) * d < c <= r * d)
  /\ (known_rate rate = false -> ck_to_cycles rate c = Raise KeyError).
Proof.
  split.
  - intros d Hin Hc.
    assert (K : exists k, 0 <= k <= 64 /\ d = 2 ^ k
                          /\ sd_get ck_per_cycle rate = Ok d).
    { unfold ck_per_cycle in Hin. cbn [In] in Hin.
      destruct Hin as [[= <- <-]|[[= <- <-]|[[= <- <-]|[]]]].
      - exists 0. repeat split; lia.
      - exists 1. repeat split; lia.
      - exists 2. repeat split; lia. }
    destruct K as (k & Hk & -> & G).
    exists (- (- c / 2 ^ k)). split.
    + unfold ck_to_cycles. rewrite G. cbn [bind].
      apply ceil_div_pow2; assumption.
    + apply ceil_bounds. apply Z.pow_pos_nonneg; lia.
  - intros Hr. unfold known_rate in Hr.
    apply orb_false_iff in Hr. destruct Hr as [Hr H4].
    apply orb_false_iff in Hr. destruct Hr as [H1 H2].
    unfold ck_to_cycles. rewrite sd_get_ck_per_cycle, H1, H2, H4. reflexivity.
Qed.

Lemma ck_to_cycles_exact_witness :
  In ("1:4"%string, 4) ck_per_cycle /\ 0 <= 5 < 2 ^ 53
  /\ known_rate "2:1" = false
  /\ (exists r, ck_to_cycles "1:4" 5 = Ok r /\ (r - 1) * 4 < 5 <= r * 4)
  /\ ck_to_cycles "2:1" 5 = Raise KeyError.
Proof.
  assert (H1 : In ("1:4"%string, 4) ck_per_cycle)
    by (right; right; left; reflexivity).
  assert (H2 : 0 <= 5 < 2 ^ 53) by (split; [discriminate|reflexivity]).
  assert (H3 : known_rate "2:1" = false) by reflexivity.
  split; [exact H1|]. split; [exact H2|]. split; [exact H3|]. split.
  - exact (proj1 (ck_to_cycles_exact "1:4" 5) 4 H1 H2).
  - exact (proj2 (ck_to_cycles_exact "2:1" 5) H3).
Defined.

Lemma of_int_small :
  PyFloat.of_int 0 = Ok (S754_zero false)
  /\ PyFloat.is_zero (PyFloat.of_Z 2) = false
  /\ PyFloat.is_zero (PyFloat.of_Z 4) = false
  /\ (exists x, PyFloat.of_int 2 = Ok x /\ PyFloat.is_zero x = false)
  /\ (exists x, PyFloat.of_int 3 = Ok x)
  /\ (exists x, PyFloat.of_int 4 = Ok x /\ PyFloat.is_zero x = false).
Proof.
  split; [vm_compute; reflexivity|].
  split; [vm_compute; reflexivity|].
  split; [vm_compute; reflexivity|].
  split; [eexists; split; vm_compute; reflexivity|].
  split; [eexists; vm_compute; reflexivity|].
  eexists; split; vm_compute; reflexivity.
Qed.

(** The margins are computed without an exception, whatever the period. *)
Lemma ns_to_cycles_with_margin (clk_freq : PyNum.num) (rate : string)
    (t : PyNum.num) (p : PyFloat.float) :
  PyNum.fdiv (PyNum.Float (PyFloat.of_Z 1000000000)) clk_freq = Ok p ->
  exists half three_quarters,
    ns_to_cycles clk_freq rate t true
    = (t' <- (m <- sd_get [("1:1", PyNum.Int 0);
                           ("1:2", PyNum.Float half);
                           ("1:4", PyNum.Float three_quarters)]%string rate ;;
              PyNum.add t m) ;;
       q <- PyNum.fdiv t' (PyNum.Float p) ;;
       PyFloat.ceil q).
Proof.
  intros Hp.
  destruct of_int_small
    as (_ & _ & _ & (x2 & E2 & Z2) & (x3 & E3) & (x4 & E4 & Z4)).
  unfold ns_to_cycles. rewrite Hp. cbn [bind].
  unfold PyNum.fdiv at 1 2, PyNum.fmul, PyNum.to_float at 1 2 3 4 5 6.
  rewrite E2, E3, E4. cbn [bind]. unfold PyFloat.div at 1 2. rewrite Z2, Z4.
  cbn [bind]. eexists. eexists. reflexivity.
Qed.

Lemma add_zero_then_div (x p : PyFloat.float) :
  (q <- PyNum.fdiv (PyNum.Float (SFadd PyFloat.prec PyFloat.emax x
                                   (S754_zero false)))
                   (PyNum.Float p) ;;
   PyFloat.ceil q)
  = (q <- PyNum.fdiv (PyNum.Float x) (PyNum.Float p) ;; PyFloat.ceil q).
Proof.
  unfold PyNum.fdiv, PyNum.to_float. cbn [bind]. unfold PyFloat.div.
  destruct (PyFloat.is_zero p) eqn:Zp; [reflexivity|]. cbn [bind].
  destruct x as [s|s| |s m e]; try reflexivity.
  destruct s; [|reflexivity].
  destruct p as [sp|sp| |sp mp ep]; try discriminate; reflexivity.
Qed.

(** X16.  Edge behaviour of [ns_to_cycles].  At rate "1:1" the margin is
    0: the result, or the exception, is the same with and without margin.
    Without margin the rate is never looked at.  With margin a rate other
    than "1:1", "1:2" and "1:4" raises [KeyError] once the clock period is
    computed; a clock frequency of zero raises [ZeroDivisionError] before
    anything else, for every rate, time and margin flag. *)
Theorem ns_to_cycles_edge_cases (clk_freq : PyNum.num) (rate : string)
    (t : PyNum.num) :
  ns_to_cycles clk_freq "1:1" t true = ns_to_cycles clk_freq "1:1" t false
  /\ (forall rate',
        ns_to_cycles clk_freq rate t false = ns_to_cycles clk_freq rate' t false)
  /\ (known_rate rate = false ->
      forall p,
        PyNum.fdiv (PyNum.Float (PyFloat.of_Z 1000000000)) clk_freq = Ok p ->
        ns_to_cycles clk_freq rate t true = Raise KeyError)
  /\ (zero_freq clk_freq = true ->
      forall margin,
        ns_to_cycles clk_freq rate t margin = Raise ZeroDivisionError).
Proof.
  split; [|split; [|split]].
  - destruct (PyNum.fdiv (PyNum.Float (PyFloat.of_Z 1000000000)) clk_freq)
      as [p|e] eqn:Hp; [|unfold ns_to_cycles; rewrite Hp; reflexivity].
    destruct (ns_to_cycles_with_margin clk_freq "1:1" t p Hp) as (h & q & ->).
    unfold ns_to_cycles at 1. rewrite Hp.
    cbn [sd_get]. rewrite String.eqb_refl. cbn [bind].
    destruct t as [n|x].
    + cbn [PyNum.add bind]. now rewrite Z.add_0_r.
    + unfold PyNum.add, PyNum.to_float.
      rewrite (proj1 of_int_small). cbn [bind]. apply add_zero_then_div.
  - intros rate'. reflexivity.
  - intros Hr p Hp.
    destruct (ns_to_cycles_with_margin clk_freq rate t p Hp) as (h & q & ->).
    unfold known_rate in Hr.
    apply orb_false_iff in Hr. destruct Hr as [Hr H4].
    apply orb_false_iff in Hr. destruct Hr as [H1 H2].
    cbn [sd_get].
    rewrite (String.eqb_sym "1:1"), (String.eqb_sym "1:2"),
            (String.eqb_sym "1:4"), H1, H2, H4.
    reflexivity.
  - intros Hz margin. unfold ns_to_cycles, PyNum.fdiv, PyNum.to_float.
    cbn [bind]. destruct clk_freq as [n|x]; cbn [zero_freq] in Hz.
    + apply Z.eqb_eq in Hz. subst n. rewrite (proj1 of_int_small).
      reflexivity.
    + cbn [bind]. unfold PyFloat.div. rewrite Hz. reflexivity.
Qed.

Lemma ns_to_cycles_edge_cases_witness :
  known_rate "2:1" = false
  /\ PyNum.fdiv (PyNum.Float (PyFloat.of_Z 1000000000)) (PyNum.Float (mhz 100))
     = Ok (PyFloat.of_Z 10)
  /\ zero_freq (PyNum.Int 0) = true
  /\ ns_to_cycles (PyNum.Float (mhz 100)) "2:1" (PyNum.Int 20) true
     = Raise KeyError
  /\ ns_to_cycles (PyNum.Int 0) "1:2" (PyNum.Int 20) true
     = Raise ZeroDivisionError.
Proof.
  assert (H1 : known_rate "2:1" = false) by reflexivity.
  assert (H2 : PyNum.fdiv (PyNum.Float (PyFloat.of_Z 1000000000))
                 (PyNum.Float (mhz 100)) = Ok (PyFloat.of_Z 10))
    by (vm_compute; reflexivity).
  assert (H3 : zero_freq (PyNum.Int 0) = true) by reflexivity.
  split; [exact H1|]. split; [exact H2|]. split; [exact H3|]. split.
  - destruct (ns_to_cycles_edge_cases (PyNum.Float (mhz 100)) "2:1"
                (PyNum.Int 20)) as (_ & _ & K & _).
    exact (K H1 _ H2).
  - destruct (ns_to_cycles_edge_cases (PyNum.Int 0) "1:2" (PyNum.Int 20))
      as (_ & _ & _ & K).
    exact (K H3 true).
Defined.

(** X17.  [ck_ns_to_cycles] takes the greater of the two conversions, as a
    timing given both in clocks and in nanoseconds requires.  Whenever it
    returns [r], both conversions have succeeded and neither result exceeds
    [r]; for a clock count [0 <= c < 2^53] at a rate of [d] memory clocks per
    cycle, [r] cycles cover the [c] clocks: [c <= r * d].  A count of [None]
    is the count 0. *)
Theorem ck_ns_to_cycles_covers (clk_freq : PyNum.num) (rate : string)
    (c : option Z) (t : option PyNum.num) (r : Z) :
  ck_ns_to_cycles clk_freq rate c t = Ok r ->
  let c0 := match c with None => 0 | Some c => c end in
  let t0 := match t with None => PyNum.Int 0 | Some t => t end in
  (exists a b,
     ck_to_cycles rate c0 = Ok a
     /\ ns_to_cycles clk_freq rate t0 true = Ok b
     /\ r = Z.max a b /\ a <= r /\ b <= r)
  /\ (0 <= c0 < 2 ^ 53 ->
      exists d, In (rate, d) ck_per_cycle /\ c0 <= r * d)
  /\ ck_ns_to_cycles clk_freq rate None t
     = ck_ns_to_cycles clk_freq rate (Some 0) t.
Proof.
  intros H c0 t0. unfold ck_ns_to_cycles in H. fold c0 t0 in H.
  destruct (ck_to_cycles rate c0) as [a|e] eqn:Ea; cbn [bind] in H;
    [|discriminate].
  destruct (ns_to_cycles clk_freq rate t0 true) as [b|e] eqn:Eb;
    cbn [bind] in H; [|discriminate].
  injection H as <-.
  split; [|split].
  - exists a, b. repeat split; lia.
  - intros Hc.
    assert (K : exists d, In (rate, d) ck_per_cycle).
    { destruct (known_rate rate) eqn:Kr.
      - unfold known_rate in Kr.
        destruct (String.eqb_spec rate "1:1") as [->|_];
          [exists 1; left; reflexivity|].
        destruct (String.eqb_spec rate "1:2") as [->|_];
          [exists 2; right; left; reflexivity|].
        destruct (String.eqb_spec rate "1:4") as [->|_];
          [exists 4; right; right; left; reflexivity|].
        discriminate.
      - unfold ck_to_cycles in Ea.
        rewrite sd_get_ck_per_cycle in Ea. unfold known_rate in Kr.
        apply orb_false_iff in Kr. destruct Kr as [Kr H4].
        apply orb_false_iff in Kr. destruct Kr as [H1 H2].
        rewrite H1, H2, H4 in Ea. discriminate. }
    destruct K as (d & Hin). exists d. split; [exact Hin|].
    assert (G : exists k, 0 <= k <= 64 /\ d = 2 ^ k
                          /\ sd_get ck_per_cycle rate = Ok d).
    { pose proof Hin as Hin'. unfold ck_per_cycle in Hin'. cbn [In] in Hin'.
      destruct Hin' as [[= <- <-]|[[= <- <-]|[[= <- <-]|[]]]].
      - exists 0. repeat split; lia.
      - exists 1. repeat split; lia.
      - exists 2. repeat split; lia. }
    destruct G as (k & Hk & -> & G).
    unfold ck_to_cycles in Ea. rewrite G in Ea. cbn [bind] in Ea.
    rewrite ceil_div_pow2 in Ea by assumption. injection Ea as <-.
    assert (P : 0 < 2 ^ k) by (apply Z.pow_pos_nonneg; lia).
    pose proof (ceil_bounds c0 (2 ^ k) P). nia.
  - reflexivity.
Qed.

Lemma ck_ns_to_cycles_covers_witness :
  ck_ns_to_cycles (PyNum.Float (mhz 100)) "1:4" (Some 4)
    (Some (PyNum.Float (PyFloat.decimal 75 1))) = Ok 2
  /\ 0 <= 4 < 2 ^ 53
  /\ exists d, In ("1:4"%string, d) ck_per_cycle /\ 4 <= 2 * d.
Proof.
  assert (H1 : ck_ns_to_cycles (PyNum.Float (mhz 100)) "1:4" (Some 4)
                 (Some (PyNum.Float (PyFloat.decimal 75 1))) = Ok 2)
    by (vm_compute; reflexivity).
  assert (H2 : 0 <= 4 < 2 ^ 53) by (split; [discriminate|reflexivity]).
  split; [exact H1|]. split; [exact H2|].
  exact (proj1 (proj2 (ck_ns_to_cycles_covers _ _ _ _ _ H1)) H2).
Defined.

(** ** What the flow control remembers *)

Lemma history_window idelaye2 phy (ins ins' : nat -> Inputs) (s : nat) :
  1 <= cwl_sys_latency phy + 2 ->
  (forall u, (u < s)%nat ->
     (s <= u + Z.to_nat (cwl_sys_latency phy + 2))%nat ->
     wrphase_en phy (ins u) = wrphase_en phy (ins' u)) ->
  last_wrdata_en (run idelaye2 phy ins s)
  = last_wrdata_en (run idelaye2 phy ins' s).
Proof.
  intros Hn Hw. apply Z.bits_inj'. intros j Hj.
  rewrite <- (Z2Nat.id j) by exact Hj.
  rewrite (history_bit idelaye2 phy ins Hn), (history_bit idelaye2 phy ins' Hn).
  destruct (Z.ltb_spec (Z.of_nat (Z.to_nat j)) (cwl_sys_latency phy + 2));
    [|now rewrite !andb_false_r].
  rewrite !andb_true_r. unfold delayed.
  destruct (Nat.leb_spec (S (Z.to_nat j)) s); [|reflexivity].
  apply Hw; lia.
Qed.

Lemma chain_window idelaye2 phy (ins ins' : nat -> Inputs) (s : nat) :
  (forall u, (u <= s)%nat ->
     (s <= u + Z.to_nat (read_latency (settings phy) - 1))%nat ->
     rdphase_en phy (ins u) = rdphase_en phy (ins' u)) ->
  rdphase_en phy (ins s) :: n_rddata_en (run idelaye2 phy ins s)
  = rdphase_en phy (ins' s) :: n_rddata_en (run idelaye2 phy ins' s).
Proof.
  intros Hr.
  apply (nth_ext _ _ false false).
  - cbn [List.length]. now rewrite !chain_length.
  - intros i Hi. cbn [List.length] in Hi.
    rewrite chain_length in Hi.
    rewrite (chain_stage idelaye2 phy ins s i),
            (chain_stage idelaye2 phy ins' s i) by lia.
    unfold delayed. destruct (Nat.leb_spec i s); [|reflexivity].
    apply Hr; lia.
Qed.

(** X18.  The flow control forgets.  Its registers in cycle [t] are a
    function of a window of the past only: the write enables of the last
    [cwl_sys_latency + 3] cycles, the read enables of the last
    [read_latency] cycles and the write-leveling enable of the cycle before.
    Two input histories that agree there give the same read-enable chain,
    read-valid, write-enable history and output enables, however they
    differ before. *)
Theorem flow_control_forgets idelaye2 phy (ins ins' : nat -> Inputs) (t : nat) :
  1 <= cwl_sys_latency phy + 2 ->
  1 <= read_latency (settings phy) ->
  (forall u, (u < t)%nat ->
     (t <= u + Z.to_nat (cwl_sys_latency phy + 3))%nat ->
     wrphase_en phy (ins u) = wrphase_en phy (ins' u)) ->
  (forall u, (u < t)%nat ->
     (t <= u + Z.to_nat (read_latency (settings phy)))%nat ->
     rdphase_en phy (ins u) = rdphase_en phy (ins' u)) ->
  (forall u, S u = t ->
     wlevel_en (csr (ins u)) = wlevel_en (csr (ins' u))) ->
  flow_regs (run idelaye2 phy ins t) = flow_regs (run idelaye2 phy ins' t).
Proof.
  intros Hn Hrl Hw Hr Hl. destruct t as [|t]; [reflexivity|].
  assert (C : rdphase_en phy (ins t) :: n_rddata_en (run idelaye2 phy ins t)
              = rdphase_en phy (ins' t) :: n_rddata_en (run idelaye2 phy ins' t)).
  { apply chain_window. intros u Hu Hd. apply Hr; lia. }
  assert (W : last_wrdata_en (run idelaye2 phy ins t)
              = last_wrdata_en (run idelaye2 phy ins' t)).
  { apply history_window; [exact Hn|]. intros u Hu Hd. apply Hw; lia. }
  assert (E : wrphase_en phy (ins t) = wrphase_en phy (ins' t))
    by (apply Hw; lia).
  cbn [run]. unfold flow_regs, step, oe.
  cbn [n_rddata_en rddata_valid last_wrdata_en oe_dqs oe_dq].
  now rewrite C, W, E, (Hl t eq_refl).
Qed.

Lemma flow_control_forgets_witness :
  1 <= cwl_sys_latency k7_ddr3 + 2
  /\ 1 <= read_latency (settings k7_ddr3)
  /\ flow_regs (run idelaye2_variable k7_ddr3 (wr_burst 3 0 2) 12)
     = flow_regs (run idelaye2_variable k7_ddr3 (wr_burst 3 20 2) 12).
Proof.
  assert (H1 : 1 <= cwl_sys_latency k7_ddr3 + 2) by discriminate.
  assert (H2 : 1 <= read_latency (settings k7_ddr3)) by discriminate.
  split; [exact H1|]. split; [exact H2|].
  apply (flow_control_forgets idelaye2_variable k7_ddr3
           (wr_burst 3 0 2) (wr_burst 3 20 2) 12 H1 H2).
  - intros u Hu Hd. change (Z.to_nat (cwl_sys_latency k7_ddr3 + 3)) with 5%nat in Hd.
    do 12 (destruct u as [|u]; [try lia; reflexivity|]). lia.
  - intros u Hu Hd. reflexivity.
  - intros u Hu. reflexivity.
Defined.

(** ** The plans of DDR3 *)

Lemma ddr3_bins tck c w :
  get_cl_cw "DDR3" tck = Ok (c, w) ->
  In (c, w) [(6, 5); (7, 6); (10, 7); (11, 8)].
Proof.
  unfold get_cl_cw. rewrite f_to_cl_cwl_ddr3. cbn [bind]. intros H.
  apply scan_items_ok in H as (i & f & Hn & _).
  apply nth_error_In in Hn. unfold ddr3_table in Hn. cbn [In] in Hn.
  repeat (destruct Hn as [Hn|Hn]; [injection Hn as _ <- <-; cbn [In]; tauto|]).
  destruct Hn.
Qed.

(** X19.  Every DDR3 PHY that can be constructed (four phases) has one of
    four latency plans, one for each timing bin.  In all of them the write
    latency is 2 controller cycles; the read latency is 8 cycles for CL 6 and
    7 and 9 cycles for CL 10 and 11; the strobe latency is 1 with output delay
    lines and 2 without. *)
Theorem ddr3_settings_table (pads : Pads) (wo : bool)
    (sys_clk_freq iodelay_clk_freq : PyFloat.float) (phy : S7DDRPHY) :
  S7DDRPHY_init pads wo "DDR3" 4 sys_clk_freq iodelay_clk_freq = Ok phy ->
  In (plan_of (settings phy)) ddr3_plans
  /\ cwl_sys_latency phy = 2
  /\ dqs_sys_latency phy = (if wo then 1 else 2).
Proof.
  intros H.
  destruct (S7DDRPHY_init_inv _ _ _ _ _ _ _ (or_intror eq_refl) H)
    as (tck & tap & c & w & cls & cwls & rdc & rd & wrc & wr & _ & _ & _
        & G & L1 & L2 & P1 & P2 & _ & _ & _ & _ & _ & _ & E & _ & _ & E1 & E2).
  rewrite E, E1, E2. unfold plan_of.
  cbn [cl cwl rdcmdphase rdphase wrcmdphase wrphase read_latency write_latency].
  apply ddr3_bins in G. cbn [In] in G.
  destruct G as [G|[G|[G|[G|[]]]]]; injection G as <- <-;
    vm_compute in L1; vm_compute in L2; injection L1 as <-; injection L2 as <-;
    vm_compute in P1; vm_compute in P2;
    injection P1 as <- <-; injection P2 as <- <-;
    (split; [cbn; tauto|]); (split; [reflexivity|]); now destruct wo.
Qed.

Lemma ddr3_settings_table_witness :
  S7DDRPHY_init pads16 false "DDR3" 4 (mhz 100) (mhz 200) = Ok a7_ddr3
  /\ In (plan_of (settings a7_ddr3)) ddr3_plans.
Proof.
  assert (H : S7DDRPHY_init pads16 false "DDR3" 4 (mhz 100) (mhz 200)
              = Ok a7_ddr3) by (vm_compute; reflexivity).
  split; [exact H|].
  exact (proj1 (ddr3_settings_table pads16 false (mhz 100) (mhz 200) a7_ddr3 H)).
Defined.

(** ** Strobe flags at strobe latency 0 *)

Lemma dqs_flags_at_zero idelaye2 phy (ins : nat -> Inputs) t :
  dqs_sys_latency phy = 0 -> cwl_sys_latency phy = 1 ->
  let wen := fun u => wrphase_en phy (ins u) in
  dqs_preamble phy (run idelaye2 phy ins t)
  = delayed wen 3 t && negb (delayed wen 1 t)
  /\ dqs_postamble phy (run idelaye2 phy ins t)
     = delayed wen 2 t && negb (delayed wen 1 t).
Proof.
  intros Hd Hw wen.
  assert (Hn : 1 <= cwl_sys_latency phy + 2) by lia.
  assert (Top : forall lw, Migen.bit (cwl_sys_latency phy + 2) lw (0 - 1)
                           = Migen.bit (cwl_sys_latency phy + 2) lw 2).
  { intros lw. unfold Migen.bit. rewrite Hw. reflexivity. }
  unfold dqs_preamble, dqs_postamble. rewrite Hd, Top.
  rewrite !(bit_history idelaye2 phy ins Hn) by lia.
  split; reflexivity.
Qed.

(** X20.  A constructed PHY with strobe latency 0 (write latency 1: DDR2
    in its slowest bins) has no strobe preamble.  The index
    [dqs_sys_latency - 1] is -1 and selects the top bit of the write-enable
    history, so for a burst of [len] cycles starting in cycle [T] the
    preamble flag is low up to the end of the burst and is raised after it
    instead, in the cycles from [T + 3] on among [T + len + 1] and
    [T + len + 2]; the postamble flag holds in cycle [T + len + 1] and in no
    other. *)
Theorem dqs_framing_at_zero_latency
    idelaye2 pads wo m N sys iod phy (ins : nat -> Inputs) (T len : nat) :
  supported N ->
  S7DDRPHY_init pads wo m N sys iod = Ok phy ->
  dqs_sys_latency phy = 0 ->
  (1 <= len)%nat ->
  (forall u, wrphase_en phy (ins u) = in_burst T len u) ->
  write_latency (settings phy) = 1
  /\ forall t,
       (dqs_preamble phy (run idelaye2 phy ins t) = true
        <-> (T + 3 <= t /\ T + len + 1 <= t <= T + len + 2)%nat)
       /\ (dqs_postamble phy (run idelaye2 phy ins t) = true
           <-> t = (T + len + 1)%nat).
Proof.
  intros HN H Hd Hlen Hb.
  destruct (constructed_dqs _ _ _ _ _ _ _ HN H) as (Hwl & E & Hrange).
  assert (Hw : cwl_sys_latency phy = 1) by lia.
  split; [now rewrite <- E|].
  intros t.
  destruct (dqs_flags_at_zero idelaye2 phy ins t Hd Hw) as [Epre Epost].
  rewrite (delayed_ext _ (in_burst T len) 3 t Hb),
    (delayed_ext _ (in_burst T len) 1 t Hb), !delayed_burst in Epre.
  rewrite (delayed_ext _ (in_burst T len) 2 t Hb),
    (delayed_ext _ (in_burst T len) 1 t Hb), !delayed_burst in Epost.
  split.
  - rewrite Epre, andb_true_iff, negb_true_iff, in_burst_true.
    rewrite in_burst_false. lia.
  - rewrite Epost, andb_true_iff, negb_true_iff, in_burst_true.
    rewrite in_burst_false. lia.
Qed.

Lemma dqs_framing_at_zero_latency_witness :
  supported 2
  /\ K7DDRPHY_init pads16 "DDR2" 2 (mhz 100) (mhz 200) = Ok k7_ddr2
  /\ dqs_sys_latency k7_ddr2 = 0
  /\ (dqs_preamble k7_ddr2
        (run idelaye2_variable k7_ddr2 (wr_burst 0 5 4) 10) = true
      <-> (5 + 3 <= 10 /\ 5 + 4 + 1 <= 10 <= 5 + 4 + 2)%nat).
Proof.
  assert (HN : supported 2) by (left; reflexivity).
  assert (HI : K7DDRPHY_init pads16 "DDR2" 2 (mhz 100) (mhz 200) = Ok k7_ddr2)
    by (vm_compute; reflexivity).
  assert (Hd : dqs_sys_latency k7_ddr2 = 0) by reflexivity.
  split; [exact HN|]. split; [exact HI|]. split; [exact Hd|].
  destruct (dqs_framing_at_zero_latency idelaye2_variable pads16 true "DDR2" 2
              (mhz 100) (mhz 200) k7_ddr2 (wr_burst 0 5 4) 5 4 HN HI Hd) as [_ K].
  - lia.
  - intros u. reflexivity.
  - exact (proj1 (K 10%nat)).
Defined.
